(** * Stagehand: the act / observe / extract orchestration pipeline

    A shallow embedding of [lib/index.ts] (class [Stagehand]) and of
    [lib/llm/AnthropicClient.ts] (class [AnthropicClient]).

    Promises are modelled by their settled outcome ([Resolved] or
    [Rejected]); an [async] function is a state transformer that returns
    the outcome it settles with.  Everything the code reaches outside its
    own files (the page, the in-page DOM scripts, the inference layer, the
    act handler, the provider SDK, the clock and the random generator) is an
    oracle that may depend on the whole history of earlier calls. *)

From Stdlib Require Import String Ascii List ZArith Lia Bool QArith Qcanon.
From stdpp Require Import base option gmap strings pretty.
Import ListNotations.

Local Open Scope string_scope.
Local Open Scope list_scope.

(** ** JavaScript values that cross the boundary *)

(** What a promise rejects with: an [Error] object, of which the code reads
    [e.message] and [e.stack]. *)
Record Error := mkError { err_message : string; err_stack : string }.

(** A settled promise. *)
Inductive Outcome (A : Type) : Type :=
| Resolved (a : A)
| Rejected (e : Error).
Arguments Resolved {A} a.
Arguments Rejected {A} e.

(** JSON data carried through the pipeline without being inspected. *)
#[local] Unset Elimination Schemes.
Inductive Json : Type :=
| JNull
| JBool (b : bool)
| JNum (z : Z)
| JStr (s : string)
| JArr (items : list Json)
| JObj (fields : list (string * Json)).
#[local] Set Elimination Schemes.

(** The [TypeError] raised by reading a property of [undefined]. *)
Definition TypeError_undefined (prop : string) : Error :=
  mkError ("Cannot read properties of undefined (reading '" +:+ prop +:+ "')")
          "TypeError".

(** ** Async computations

    [Async S A] is an [async] function body over the mutable state [S].
    [None] only arises when a recursive function runs out of fuel. *)

Definition Async (S A : Type) : Type := S -> option (S * Outcome A).

Definition ret {S A} (a : A) : Async S A := fun s => Some (s, Resolved a).

Definition throw {S A} (e : Error) : Async S A := fun s => Some (s, Rejected e).

Definition bind {S A B} (m : Async S A) (k : A -> Async S B) : Async S B :=
  fun s =>
    match m s with
    | None => None
    | Some (s', Resolved a) => k a s'
    | Some (s', Rejected e) => Some (s', Rejected e)
    end.

(** [p.catch(handler)] and [try { body } catch (e) { handler }]. *)
Definition catch {S A} (m : Async S A) (handler : Error -> Async S A) : Async S A :=
  fun s =>
    match m s with
    | None => None
    | Some (s', Resolved a) => Some (s', Resolved a)
    | Some (s', Rejected e) => handler e s'
    end.

(** A state update that cannot fail. *)
Definition modify {S} (f : S -> S) : Async S unit := fun s => Some (f s, Resolved tt).

Definition gets {S A} (f : S -> A) : Async S A := fun s => Some (s, Resolved (f s)).

(** Await an already settled outcome. *)
Definition await {S A} (o : Outcome A) : Async S A := fun s => Some (s, o).

Definition when {S} (b : bool) (m : Async S unit) : Async S unit :=
  if b then m else ret tt.

Declare Scope async_scope.
Delimit Scope async_scope with async.
Notation "x <- m ;; k" := (bind m (fun x => k))
  (at level 100, m at next level, right associativity) : async_scope.
Notation "m ;; k" := (bind m (fun _ => k))
  (at level 100, right associativity) : async_scope.
Local Open Scope async_scope.

(** JavaScript's [a ?? b] and [a || b] on optional values. *)
Definition nullish {A} (a : option A) (b : A) : A :=
  match a with Some x => x | None => b end.

(** [s || d] for an optional string: the empty string is falsy too. *)
Definition or_string (s : option string) (d : string) : string :=
  match s with
  | Some EmptyString | None => d
  | Some x => x
  end.

Definition string_eqb (a b : string) : bool := bool_decide (a = b).

(** ** [JSON.stringify] on the data above *)

Definition nl : string := String (ascii_of_nat 10) EmptyString.

Definition dquote : string := String (ascii_of_nat 34) EmptyString.

Definition hex_digit (n : nat) : ascii :=
  match String.get n "0123456789abcdef" with Some c => c | None => "0"%char end.

Definition escape_char (c : ascii) : string :=
  let n := nat_of_ascii c in
  if (n =? 34)%nat then "\" +:+ dquote
  else if (n =? 92)%nat then "\\"
  else if (n =? 8)%nat then "\b"
  else if (n =? 9)%nat then "\t"
  else if (n =? 10)%nat then "\n"
  else if (n =? 12)%nat then "\f"
  else if (n =? 13)%nat then "\r"
  else if (n <? 32)%nat
       then "\u00" +:+ String (hex_digit (n / 16)) (String (hex_digit (n mod 16)) "")
  else String c "".

Fixpoint escape (s : string) : string :=
  match s with
  | EmptyString => ""
  | String c rest => escape_char c +:+ escape rest
  end.

Definition quote (s : string) : string := dquote +:+ escape s +:+ dquote.

Fixpoint JSON_stringify (j : Json) : string :=
  match j with
  | JNull => "null"
  | JBool true => "true"
  | JBool false => "false"
  | JNum z => pretty z
  | JStr s => quote s
  | JArr items =>
      "[" +:+ (fix go (l : list Json) : string :=
                 match l with
                 | [] => ""
                 | [x] => JSON_stringify x
                 | x :: rest => JSON_stringify x +:+ "," +:+ go rest
                 end) items +:+ "]"
  | JObj fields =>
      "{" +:+ (fix go (l : list (string * Json)) : string :=
                 match l with
                 | [] => ""
                 | [(k, v)] => quote k +:+ ":" +:+ JSON_stringify v
                 | (k, v) :: rest =>
                     quote k +:+ ":" +:+ JSON_stringify v +:+ "," +:+ go rest
                 end) fields +:+ "}"
  end.

(** ** Base64, as [Buffer.toString("base64")] *)

Definition b64_alphabet : string :=
  "ABCDEFGHIJKLMNOPQRSTUVWXYZabcdefghijklmnopqrstuvwxyz0123456789+/".

Definition b64_char (n : N) : string :=
  match String.get (N.to_nat n) b64_alphabet with
  | Some c => String c EmptyString
  | None => "="
  end.

Fixpoint base64 (bs : list N) : string :=
  match bs with
  | [] => ""
  | [a] => b64_char (a / 4) +:+ b64_char ((a mod 4) * 16) +:+ "=="
  | [a; b] =>
      b64_char (a / 4) +:+ b64_char ((a mod 4) * 16 + b / 16)
      +:+ b64_char ((b mod 16) * 4) +:+ "="
  | a :: b :: c :: rest =>
      b64_char (a / 4) +:+ b64_char ((a mod 4) * 16 + b / 16)
      +:+ b64_char ((b mod 16) * 4 + c / 64) +:+ b64_char (c mod 64)
      +:+ base64 rest
  end%N.

(** ** The response cache ([LLMCache], lib/cache/LLMCache.ts)

    The class is not among the sources; its operations are written down
    from the specification, section 3: a cache entry has a key, the
    fingerprint of the request, and a value, the structured response, and
    is additionally indexed by request id for targeted invalidation;
    entries are only inserted, read, or deleted by request id; concurrent
    writes of one key are last-write-wins. *)
Module LLMCache.
Section WithValue.
Context {V : Type}.

(** Modelled from the spec: the cache entry of [LLMCache], which is missing
    from the sources: fingerprint, value, and the request ids it is indexed
    under. *)
Record Entry := mkEntry {
  fingerprint : string;
  value : V;
  requestIds : list (option string)
}.

Definition t := list Entry.

Definition indexed_by (requestId : option string) (e : Entry) : bool :=
  bool_decide (requestId ∈ requestIds e).

Definition lookup (key : string) (c : t) : option V :=
  value <$> List.find (fun e => string_eqb (fingerprint e) key) c.

(** A hit also indexes the entry under the reader's request id. *)
Definition touch (key : string) (requestId : option string) (c : t) : t :=
  List.map (fun e =>
    if string_eqb (fingerprint e) key
    then mkEntry (fingerprint e) (value e) (requestId :: requestIds e)
    else e) c.

(** Modelled from the spec: [LLMCache.get], which is missing from the
    sources: the value stored under the fingerprint, if any; the entry read
    is indexed under the reader's request id. *)
Definition get (key : string) (requestId : option string) (c : t) : option V * t :=
  match lookup key c with
  | Some v => (Some v, touch key requestId c)
  | None => (None, c)
  end.

(** Modelled from the spec: [LLMCache.set], which is missing from the
    sources: insert the value under the fingerprint, indexed under the
    writer's request id; the last write of a key wins. *)
Definition set (key : string) (v : V) (requestId : option string) (c : t) : t :=
  mkEntry key v [requestId]
  :: List.filter (fun e => negb (string_eqb (fingerprint e) key)) c.

(** Modelled from the spec: [LLMCache.deleteCacheForRequestId], which is
    missing from the sources: delete the entries indexed under the request
    id. *)
Definition deleteCacheForRequestId (requestId : string) (c : t) : t :=
  List.filter (fun e => negb (indexed_by (Some requestId) e)) c.
End WithValue.
Arguments Entry : clear implicits.
Arguments t : clear implicits.
End LLMCache.

(** * [AnthropicClient] (lib/llm/AnthropicClient.ts) *)
Module AnthropicClient.

(** *** Request side *)

Inductive ContentPart : Type :=
| ImagePart (media_type : string) (data : string)  (* source.type = "base64" *)
| TextPart (text : string).

Inductive MessageContent : Type :=
| Text (s : string)
| Parts (ps : list ContentPart).

Record ChatMessage := mkMessage { role : string; content : MessageContent }.

Record Image := mkImage { buffer : list N; description : option string }.

(** An OpenAI-style function tool, [tool.type === "function"]. *)
Record FunctionTool := mkFunctionTool {
  fn_name : string;
  fn_description : string;
  fn_properties : Json;
  fn_required : Json
}.

Record AnthropicTool := mkAnthropicTool {
  tool_name : string;
  tool_description : string;
  input_schema_type : string;
  input_schema_properties : option Json;
  input_schema_required : option Json
}.

Inductive Tool : Type :=
| Function (f : FunctionTool)
| Other (t : AnthropicTool).

(** What [zodToJsonSchema] returns, as far as the client reads it. *)
Record SchemaObject := mkSchemaObject {
  properties : option Json;
  required : option Json
}.

Record JsonSchema := mkJsonSchema {
  definitions_MySchema : option SchemaObject;
  top_level : SchemaObject
}.

(** The zod schema of a response model is identified with its JSON
    schema, the only thing the client derives from it. *)
Record ResponseModel := mkResponseModel { rm_name : string; schema : JsonSchema }.

Record ChatCompletionOptions := mkOptions {
  model : string;
  messages : list ChatMessage;
  temperature : option Qc;
  image : option Image;
  response_model : option ResponseModel;
  tools : option (list Tool);
  max_tokens : option Z;
  retries : option Z
}.

(** The object handed to the cache as the key of the request. *)
Record CacheOptions := mkCacheOptions {
  co_model : string;
  co_messages : list ChatMessage;
  co_temperature : option Qc;
  co_image : option Image;
  co_response_model : option ResponseModel;
  co_tools : option (list Tool);
  co_retries : option Z
}.

Definition cacheOptions (options : ChatCompletionOptions) : CacheOptions :=
  {| co_model := model options;
     co_messages := messages options;
     co_temperature := temperature options;
     co_image := image options;
     co_response_model := response_model options;
     co_tools := tools options;
     co_retries := retries options |}.

(** [messages.create] parameters. *)
Record ProviderRequest := mkRequest {
  req_model : string;
  req_max_tokens : Z;
  req_messages : list ChatMessage;
  req_tools : option (list AnthropicTool);
  req_system : option MessageContent;
  req_temperature : option Qc
}.

(** *** Response side *)

(** A [tool_use] block always carries an [input] in the SDK's types. *)
Inductive ContentBlock : Type :=
| TextBlock (text : string)
| ToolUseBlock (id : string) (name : string) (input : Json).

Record ProviderResponse := mkResponse {
  resp_id : string;
  resp_model : string;
  resp_content : list ContentBlock;
  stop_reason : option string;
  input_tokens : Z;
  output_tokens : Z
}.

Record ToolCall := mkToolCall {
  call_id : string;
  call_type : string;
  call_name : string;
  call_arguments : Json   (* rendered by JSON.stringify *)
}.

Record TransformedResponse := mkTransformed {
  tr_id : string;
  tr_object : string;
  tr_created : Z;
  tr_model : string;
  tr_index : Z;
  tr_role : string;
  tr_content : option string;
  tr_tool_calls : list ToolCall;
  tr_finish_reason : option string;
  tr_prompt_tokens : Z;
  tr_completion_tokens : Z;
  tr_total_tokens : Z
}.

(** What [createChatCompletion] resolves with: the input of the tool-use
    block, or the transformed response. *)
Inductive Completion : Type :=
| Structured (input : Json)
| Chat (r : TransformedResponse).

(** JavaScript truthiness of a JSON value: [null], [false], [0] and the
    empty string are falsy, every object and array is truthy. *)
Definition js_truthy (j : Json) : bool :=
  match j with
  | JNull => false
  | JBool b => b
  | JNum z => negb (z =? 0)%Z
  | JStr s => negb (string_eqb s "")
  | JArr _ | JObj _ => true
  end.

(** The transformed response is an object; the input of a tool-use block
    is whatever the provider sent. *)
Definition truthy (v : Completion) : bool :=
  match v with
  | Structured input => js_truthy input
  | Chat _ => true
  end.

(** [if (cachedResponse)]: what the cache answered counts when it is
    truthy; [null] and any other falsy value count as no answer. *)
Definition if_truthy (cachedResponse : option Completion) : option Completion :=
  match cachedResponse with
  | Some v => if truthy v then Some v else None
  | None => None
  end.

(** *** The client object and its surroundings *)

(** What the logger receives; the message text is the JSON rendering of
    the payload. *)
Inductive LogEntry : Type :=
| CreatingChatCompletion (optionsWithoutImage : ChatCompletionOptions)
| CacheHit
| CacheMiss
| Response (r : ProviderResponse)
| Transformed (r : TransformedResponse).

Record Client := mkClient {
  enableCaching : bool;
  requestId : string;
  (** the fingerprint [LLMCache] computes from the key object *)
  hash : CacheOptions -> string;
  (** [this.client.messages.create], given the requests sent so far *)
  create : list ProviderRequest -> ProviderRequest -> Outcome ProviderResponse;
  (** [Date.now()] *)
  now : list ProviderRequest -> Z
}.

(** The [options] argument is an object of the caller's; the one
    assignment the method makes to it ([options.messages = ...]) is kept
    in [assigned]: the objects assigned to, as the assignment leaves them,
    in the order of the assignments.  A retry is entered with an object of
    its own, so the first entry a call adds is the caller's object and the
    later ones are the objects of its retries. *)
Record State := mkState {
  cache : LLMCache.t Completion;
  logged : list LogEntry;
  sent : list ProviderRequest;
  assigned : list ChatCompletionOptions
}.

Definition logger (l : LogEntry) : Async State unit :=
  modify (fun st => mkState (cache st) (logged st ++ [l]) (sent st) (assigned st)).

Definition cache_get (c : Client) (k : CacheOptions) : Async State (option Completion) :=
  fun st =>
    let '(r, cache') := LLMCache.get (hash c k) (Some (requestId c)) (cache st) in
    Some (mkState cache' (logged st) (sent st) (assigned st), Resolved r).

Definition cache_set (c : Client) (k : CacheOptions) (v : Completion) : Async State unit :=
  modify (fun st =>
    mkState (LLMCache.set (hash c k) v (Some (requestId c)) (cache st))
            (logged st) (sent st) (assigned st)).

Definition messages_create (c : Client) (r : ProviderRequest)
  : Async State ProviderResponse :=
  fun st => Some (mkState (cache st) (logged st) (sent st ++ [r]) (assigned st),
                  create c (sent st) r).

(** [options.messages = ms]: the object changes under the caller's eyes. *)
Definition assign_messages (options : ChatCompletionOptions) (ms : list ChatMessage)
  : Async State ChatCompletionOptions :=
  let options' :=
    mkOptions (model options) ms (temperature options) (image options)
              (response_model options) (tools options) (max_tokens options)
              (retries options) in
  fun st => Some (mkState (cache st) (logged st) (sent st) (assigned st ++ [options']),
                  Resolved options').

(** *** [createChatCompletion] *)

Definition is_system (m : ChatMessage) : bool := string_eqb (role m) "system".

Definition screenshotMessage (img : Image) : ChatMessage :=
  {| role := "user";
     content := Parts (ImagePart "image/jpeg" (base64 (buffer img))
                       :: match description img with
                          | Some EmptyString | None => []
                          | Some d => [TextPart d]
                          end) |}.

Definition anthropicTool (tool : Tool) : AnthropicTool :=
  match tool with
  | Function f =>
      {| tool_name := fn_name f;
         tool_description := fn_description f;
         input_schema_type := "object";
         input_schema_properties := Some (fn_properties f);
         input_schema_required := Some (fn_required f) |}
  | Other t => t
  end.

(** [a?.b || c] on schema parts, which are objects and so truthy. *)
Definition or_else {A} (a b : option A) : option A :=
  match a with Some x => Some x | None => b end.

Definition toolDefinition (rm : ResponseModel) : AnthropicTool :=
  let jsonSchema := schema rm in
  {| tool_name := "print_extracted_data";
     tool_description := "Prints the extracted data based on the provided schema.";
     input_schema_type := "object";
     input_schema_properties :=
       or_else (definitions_MySchema jsonSchema ≫= properties)
               (properties (top_level jsonSchema));
     input_schema_required :=
       or_else (definitions_MySchema jsonSchema ≫= required)
               (required (top_level jsonSchema)) |}.

Definition anthropicTools (options : ChatCompletionOptions)
  : option (list AnthropicTool) :=
  let mapped := List.map anthropicTool <$> tools options in
  match response_model options with
  | Some rm => Some (nullish mapped [] ++ [toolDefinition rm])
  | None => mapped
  end.

Definition tool_call_of (b : ContentBlock) : option ToolCall :=
  match b with
  | TextBlock _ => None
  | ToolUseBlock id name input => Some (mkToolCall id "function" name input)
  end.

(** [response.content.find((c) => c.type === "tool_use")], then its
    [input]. *)
Fixpoint find_tool_use (blocks : list ContentBlock) : option Json :=
  match blocks with
  | [] => None
  | TextBlock _ :: rest => find_tool_use rest
  | ToolUseBlock _ _ input :: _ => Some input
  end.

Fixpoint find_text (blocks : list ContentBlock) : option string :=
  match blocks with
  | [] => None
  | TextBlock t :: _ => Some t
  | ToolUseBlock _ _ _ :: rest => find_text rest
  end.

Definition transformedResponse (created : Z) (response : ProviderResponse)
  : TransformedResponse :=
  {| tr_id := resp_id response;
     tr_object := "chat.completion";
     tr_created := created;
     tr_model := resp_model response;
     tr_index := 0;
     tr_role := "assistant";
     tr_content := match find_text (resp_content response) with
                   | Some EmptyString | None => None
                   | Some t => Some t
                   end;
     tr_tool_calls := omap tool_call_of (resp_content response);
     tr_finish_reason := stop_reason response;
     tr_prompt_tokens := input_tokens response;
     tr_completion_tokens := output_tokens response;
     tr_total_tokens := (input_tokens response + output_tokens response)%Z |}.

Definition with_messages (options : ChatCompletionOptions) (ms : list ChatMessage) :=
  mkOptions (model options) ms (temperature options) (image options)
            (response_model options) (tools options) (max_tokens options)
            (retries options).

Definition with_retries (options : ChatCompletionOptions) (r : option Z) :=
  mkOptions (model options) (messages options) (temperature options)
            (image options) (response_model options) (tools options)
            (max_tokens options) r.

Definition without_image (options : ChatCompletionOptions) :=
  mkOptions (model options) (messages options) (temperature options) None
            (response_model options) (tools options) (max_tokens options)
            (retries options).

(** [!options.retries || options.retries < 5] *)
Definition may_retry (r : option Z) : bool :=
  match r with
  | None => true
  | Some n => (n =? 0)%Z || (n <? 5)%Z
  end.

Definition no_tool_use_error : Error :=
  mkError "Create Chat Completion Failed: No tool use with input in response"
          "Error".

(** The argument of [this.client.messages.create]. *)
Definition request (options : ChatCompletionOptions)
           (systemMessage : option ChatMessage) (userMessages : list ChatMessage)
  : ProviderRequest :=
  {| req_model := model options;
     req_max_tokens := match max_tokens options with
                       | Some 0%Z | None => 1500%Z
                       | Some n => n
                       end;
     req_messages := List.map (fun msg => mkMessage (role msg) (content msg)) userMessages;
     req_tools := anthropicTools options;
     req_system := content <$> systemMessage;
     req_temperature := temperature options |}.

Fixpoint createChatCompletion (fuel : nat) (c : Client)
         (options : ChatCompletionOptions) : Async State Completion :=
  match fuel with
  | O => fun _ => None
  | S fuel' =>
      logger (CreatingChatCompletion (without_image options));;
      let cacheOptions := cacheOptions options in
      cachedResponse <-
        (if enableCaching c then cache_get c cacheOptions else ret None);;
      match if_truthy cachedResponse with
      | Some cached => logger CacheHit;; ret cached
      | None =>
          when (enableCaching c) (logger CacheMiss);;
          let systemMessage := List.find is_system (messages options) in
          let userMessages :=
            List.filter (fun msg => negb (is_system msg)) (messages options) in
          (* options.messages = [...options.messages, screenshotMessage] *)
          options <-
            match image options with
            | Some img =>
                assign_messages options (messages options ++ [screenshotMessage img])
            | None => ret options
            end;;
          response <- messages_create c (request options systemMessage userMessages);;
          logger (Response response);;
          created <- gets (fun st => now c (sent st));;
          let transformedResponse := transformedResponse created response in
          logger (Transformed transformedResponse);;
          match response_model options with
          | Some _ =>
              match find_tool_use (resp_content response) with
              | Some result =>
                  when (enableCaching c)
                       (cache_set c cacheOptions (Structured result));;
                  ret (Structured result)
              | None =>
                  if may_retry (retries options)
                  then createChatCompletion fuel' c
                         (with_retries options
                            (Some (nullish (retries options) 0 + 1)%Z))
                  else throw no_tool_use_error
              end
          | None =>
              when (enableCaching c)
                   (cache_set c cacheOptions (Chat transformedResponse));;
              ret (Chat transformedResponse)
          end
      end
  end.

(** The request a call sends on a cache miss: the system message and the
    user messages are those of the options the call was entered with. *)
Definition providerRequest (options : ChatCompletionOptions) : ProviderRequest :=
  request options
          (List.find is_system (messages options))
          (List.filter (fun msg => negb (is_system msg)) (messages options)).

(** The retry counters of the successive calls, read off the log. *)
Definition logged_retries (st : State) : list (option Z) :=
  omap (fun l => match l with
                 | CreatingChatCompletion o => Some (retries o)
                 | _ => None
                 end) (logged st).

Definition is_image_part (p : ContentPart) : bool :=
  match p with ImagePart _ _ => true | TextPart _ => false end.

(** Does any message of the request carry an image? *)
Definition carries_image (r : ProviderRequest) : bool :=
  existsb (fun m => match content m with
                    | Text _ => false
                    | Parts ps => existsb is_image_part ps
                    end) (req_messages r).

(** The state a call leaves behind when it missed the cache, reached the
    provider and got [response]. *)
(** The options object as a call leaves it once it is past the cache. *)
Definition with_screenshot (options : ChatCompletionOptions) : ChatCompletionOptions :=
  match image options with
  | Some img => with_messages options (messages options ++ [screenshotMessage img])
  | None => options
  end.

(** The cache after [this.cache.get] has been asked for the key of the
    call. *)
Definition cache_after_read (c : Client) (options : ChatCompletionOptions) (st : State)
  : LLMCache.t Completion :=
  if enableCaching c
  then snd (LLMCache.get (hash c (cacheOptions options)) (Some (requestId c)) (cache st))
  else cache st.

(** The assignments on record once a call is past the cache. *)
Definition assigned_after (options : ChatCompletionOptions) (st : State)
  : list ChatCompletionOptions :=
  assigned st ++ match image options with
                 | Some _ => [with_screenshot options]
                 | None => []
                 end.

Definition after_attempt (c : Client) (options : ChatCompletionOptions)
           (response : ProviderResponse) (st : State) : State :=
  let request := providerRequest options in
  mkState (cache_after_read c options st)
          (logged st
           ++ [CreatingChatCompletion (without_image options)]
           ++ (if enableCaching c then [CacheMiss] else [])
           ++ [Response response;
               Transformed (transformedResponse (now c (sent st ++ [request])) response)])
          (sent st ++ [request])
          (assigned_after options st).

(** The options of the retried call. *)
Definition retry_options (options : ChatCompletionOptions) : ChatCompletionOptions :=
  with_retries (with_screenshot options) (Some (nullish (retries options) 0 + 1)%Z).

Definition cold (c : Client) (st : State) : Prop :=
  enableCaching c = true -> forall key, LLMCache.lookup key (cache st) = None.


(** The block is a [tool_use] block. *)
Definition is_tool_use (b : ContentBlock) : bool :=
  match b with
  | ToolUseBlock _ _ _ => true
  | TextBlock _ => false
  end.

(** The response holds no [tool_use] block. *)
Definition without_tool_use (response : ProviderResponse) : Prop :=
  Forall (fun b => is_tool_use b = false) (resp_content response).

(** The first [tool_use] block of the response carries [input]. *)
Definition first_tool_use (response : ProviderResponse) (input : Json) : Prop :=
  exists before id name after,
    resp_content response = before ++ ToolUseBlock id name input :: after
    /\ Forall (fun b => is_tool_use b = false) before.

(** A provider that never answers with a tool-use block. *)
Definition never_tool_use (c : Client) : Prop :=
  forall hist r, exists response,
    create c hist r = Resolved response
    /\ without_tool_use response.

(** The six fields the specification lists for the cache key. *)
Definition agree_on_listed_fields (o1 o2 : ChatCompletionOptions) : Prop :=
  model o1 = model o2
  /\ messages o1 = messages o2
  /\ temperature o1 = temperature o2
  /\ is_Some (image o1) = is_Some (image o2)
  /\ response_model o1 = response_model o2
  /\ tools o1 = tools o2.

End AnthropicClient.


(** * [Stagehand] (lib/index.ts) *)
Module Stagehand.

(** *** Data exchanged with the page and the inference layer *)

(** An object with named fields, as extraction content is. *)
Definition Content : Type := list (string * Json).

Record LogLine := mkLog {
  category : option string;
  message : string;
  level : Z
}.

(** What [processDom] and [processAllOfDom] return. *)
Record DomResult := mkDom {
  outputString : string;
  selectorMap : gmap Z (list string);
  chunk : Z;
  chunks : list Z
}.

Record ExtractRequest := mkExtractRequest {
  ex_instruction : string;
  ex_progress : string;
  ex_previouslyExtractedContent : Content;
  ex_domElements : string;
  ex_schema : AnthropicClient.JsonSchema;
  ex_modelName : string;
  ex_chunksSeen : nat;
  ex_chunksTotal : nat;
  ex_requestId : option string
}.

(** [{ metadata: { progress, completed }, ...output }] *)
Record ExtractionResponse := mkExtraction {
  output : Content;
  metadata_progress : string;
  metadata_completed : bool
}.

Record ObserveRequest := mkObserveRequest {
  ob_instruction : string;
  ob_domElements : string;
  ob_modelName : string;
  ob_image : option (list N);
  ob_requestId : option string
}.

Record Element := mkElement { elementId : Z; el_description : string }.

Record ObservationResponse := mkObservation { elements : list Element }.

Record ObserveResult := mkObserveResult { description : string; selector : string }.

Record Observation := mkRecorded {
  result : list ObserveResult;
  obs_instruction : string
}.

Inductive UseVision : Type := Fallback | Vision (b : bool).

(** The argument of [actHandler.act]. *)
Record ActHandlerParams := mkActParams {
  ah_action : string;
  ah_modelName : option string;
  ah_chunksSeen : list Z;
  ah_useVision : UseVision;
  ah_verifierUseVision : bool;
  ah_requestId : string;
  ah_variables : gmap string string;
  ah_previousSelectors : list string;
  ah_skipActionCacheForThisStep : bool;
  ah_domSettleTimeoutMs : option Z
}.

Record ActResult := mkActResult {
  success : bool;
  act_message : string;
  action : string
}.

(** *** The page during a DOM-settle wait *)

Inductive Settles : Type :=
| Never
| FulfilsAt (t : Z)
| RejectsAt (t : Z) (e : Error).

(** The three page promises that are raced against the timer. *)
Record PageBehaviour := mkBehaviour {
  waitForDomSettle : Settles;   (* page.evaluate(() => window.waitForDomSettle()) *)
  waitForLoadState : Settles;   (* page.waitForLoadState("domcontentloaded") *)
  waitForSelector : Settles     (* page.waitForSelector("body") *)
}.

(** *** Calls that leave the class *)

Inductive Event : Type :=
| MathRandom
| SettleWait (timeout : Z)
| DebugDom
| CleanupDebug
| ProcessDom (chunksSeen : list Z)
| ProcessAllOfDom
| Screenshot (fullPage : bool)
| InferenceExtract (r : ExtractRequest)
| InferenceObserve (r : ObserveRequest)
| ActHandlerAct (p : ActHandlerParams)
| CleanRequestCache (requestId : string).

(** The answer of the inference layer together with the cache entries the
    LLM client stored or hit while producing it (fingerprint and value). *)
Record Inference (A : Type) := mkInference {
  answer : Outcome A;
  cached : list (string * Json)
}.
Arguments mkInference {A} answer cached.
Arguments answer {A} i.
Arguments cached {A} i.

(** Everything outside the class, as a function of the calls made so far. *)
Record World := mkWorld {
  random_id : list Event -> string;
  settle : list Event -> PageBehaviour;
  processDom : list Event -> list Z -> Outcome DomResult;
  processAllOfDom : list Event -> Outcome DomResult;
  getAnnotatedScreenshot : list Event -> bool -> Outcome (list N);
  inference_extract : list Event -> ExtractRequest -> Inference ExtractionResponse;
  inference_observe : list Event -> ObserveRequest -> Inference ObservationResponse;
  actHandler_act : list Event -> ActHandlerParams -> Outcome ActResult;
  (** the constant [modelsWithVision] of lib/llm/LLMClient.ts *)
  modelsWithVision : list string;
  (** [generateId] of lib/utils.ts *)
  generateId : string -> string
}.

(** *** The fields of a [Stagehand] object *)

Record State := mkState {
  page : bool;                      (* [this.page] is set *)
  defaultModelName : string;
  domSettleTimeoutMs : Z;
  debugDom : bool;
  enableCaching : bool;
  variables : gmap string string;
  observations : gmap string Observation;
  logs : list LogLine;              (* what [this.log] received *)
  cache : LLMCache.t Json;          (* the cache of [this.llmProvider] *)
  history : list Event
}.

Definition set_logs (f : list LogLine -> list LogLine) (st : State) : State :=
  mkState (page st) (defaultModelName st) (domSettleTimeoutMs st) (debugDom st)
          (enableCaching st) (variables st) (observations st) (f (logs st))
          (cache st) (history st).

Definition set_cache (f : LLMCache.t Json -> LLMCache.t Json) (st : State) : State :=
  mkState (page st) (defaultModelName st) (domSettleTimeoutMs st) (debugDom st)
          (enableCaching st) (variables st) (observations st) (logs st)
          (f (cache st)) (history st).

Definition set_variables (f : gmap string string -> gmap string string)
           (st : State) : State :=
  mkState (page st) (defaultModelName st) (domSettleTimeoutMs st) (debugDom st)
          (enableCaching st) (f (variables st)) (observations st) (logs st)
          (cache st) (history st).

Definition set_observations
           (f : gmap string Observation -> gmap string Observation)
           (st : State) : State :=
  mkState (page st) (defaultModelName st) (domSettleTimeoutMs st) (debugDom st)
          (enableCaching st) (variables st) (f (observations st)) (logs st)
          (cache st) (history st).

Definition record (e : Event) (st : State) : State :=
  mkState (page st) (defaultModelName st) (domSettleTimeoutMs st) (debugDom st)
          (enableCaching st) (variables st) (observations st) (logs st)
          (cache st) (history st ++ [e]).

(** Call an oracle on the history so far and note the call. *)
Definition external {A} (e : Event) (f : list Event -> Outcome A) : Async State A :=
  fun st => Some (record e st, f (history st)).

(** A call through [this.page]: a [TypeError] when no page is attached. *)
Definition on_page {A} (method : string) (m : Async State A) : Async State A :=
  fun st => if page st then m st else Some (st, Rejected (TypeError_undefined method)).

(** *** Logging *)

(** [log]: the level defaults to 1, also when 0 is passed.  The mirroring
    of the line into the remote session is fire-and-forget and swallows its
    errors; it is left out. *)
Definition log (category : option string) (message : string) (level : option Z)
  : Async State unit :=
  let level := match level with Some 0%Z | None => 1%Z | Some l => l end in
  modify (set_logs (fun ls => ls ++ [mkLog category message level])).

(** [this.logger] is [this.log] bound to the object. *)
Definition logger (category : string) (message : string) : Async State unit :=
  log (Some category) message None.

(** *** [_waitForSettledDom] *)

Inductive RaceResult : Type :=
| Fulfilled
| Failed (e : Error)
| TimedOut.

Definition settle_time (s : Settles) : option Z :=
  match s with
  | Never => None
  | FulfilsAt t | RejectsAt t _ => Some t
  end.

Definition settle_result (s : Settles) : RaceResult :=
  match s with
  | Never => TimedOut
  | FulfilsAt _ => Fulfilled
  | RejectsAt _ e => Failed e
  end.

(** The earlier of two racers; on a tie the one listed first. *)
Definition earlier (a b : Settles) : Settles :=
  match settle_time a, settle_time b with
  | Some ta, Some tb => if (ta <=? tb)%Z then a else b
  | Some _, None => a
  | None, _ => b
  end.

(** The longest delay a timer of Node takes. *)
Definition TIMEOUT_MAX : Z := 2147483647.

(** The delay after which a timer armed with [setTimeout(callback, after)]
    fires: Node arms it with 1 ms when [after] is not between 1 and
    [TIMEOUT_MAX]. *)
Definition timer_delay (after : Z) : Z :=
  if ((1 <=? after) && (after <=? TIMEOUT_MAX))%Z then after else 1%Z.

(** [Promise.race] of the three page promises and the timer armed with
    [setTimeout(..., timeout)], which fires unless one of them settled by
    then. *)
Definition race (p : PageBehaviour) (timeout : Z) : RaceResult :=
  let first := earlier (waitForDomSettle p)
                       (earlier (waitForLoadState p) (waitForSelector p)) in
  match settle_time first with
  | Some t => if (t <=? timer_delay timeout)%Z then settle_result first else TimedOut
  | None => TimedOut
  end.

Definition _waitForSettledDom (w : World) (timeoutMs : option Z) : Async State unit :=
  catch
    (timeout <- gets (fun st => nullish timeoutMs (domSettleTimeoutMs st));;
     behaviour <- on_page "evaluate"
                    (external (SettleWait timeout) (fun h => Resolved (settle w h)));;
     match race behaviour timeout with
     | TimedOut =>
         log (Some "dom")
             ("DOM settle timeout of " +:+ pretty timeout
              +:+ "ms exceeded, continuing anyway") (Some 1%Z)
     | Fulfilled => ret tt
     | Failed e => throw e
     end)
    (fun e =>
       log (Some "dom")
           ("Error in waitForSettledDom: " +:+ err_message e +:+ nl
            +:+ "Trace: " +:+ err_stack e) (Some 1%Z)).

(** [startDomDebug]: a failure inside the page is swallowed by the inner
    [.catch]; only the missing page reaches the outer handler. *)
Definition startDomDebug : Async State unit :=
  catch
    (on_page "evaluate" (external DebugDom (fun _ => Resolved tt)))
    (fun e =>
       log (Some "dom")
           ("Error in startDomDebug: " +:+ err_message e +:+ nl
            +:+ "Trace: " +:+ err_stack e) (Some 1%Z)).

Definition cleanupDomDebug : Async State unit :=
  debug <- gets debugDom;;
  if debug then on_page "evaluate" (external CleanupDebug (fun _ => Resolved tt))
  else ret tt.

Definition _recordObservation (w : World) (instruction : string)
           (result : list ObserveResult) : Async State string :=
  let id := generateId w instruction in
  modify (set_observations (fun o => <[id := mkRecorded result instruction]> o));;
  ret id.

(** *** The inference layer and the provider's cache

    [extract] and [observe] of lib/inference.ts, [LLMProvider] and the
    clients behind it are reached through the [World]; what they do to the
    cache is written down from the specification. *)

(** Modelled from the spec: the cache writes of the LLM client behind
    [inference.extract] and [inference.observe], which are missing from the
    sources.  Spec, section 4.3: when caching is enabled, every cache entry
    a call stores or hits is indexed under the request id the call was
    given. *)
Definition index_cached (requestId : option string) (entries : list (string * Json))
  : Async State unit :=
  caching <- gets enableCaching;;
  when caching
       (modify (set_cache (fun c =>
          fold_left (fun c kv => LLMCache.set (fst kv) (snd kv) requestId c)
                    entries c))).

(** The call [extract({...})] of the inference layer. *)
Definition extract_inference (w : World) (r : ExtractRequest)
  : Async State ExtractionResponse :=
  i <- (fun st => Some (record (InferenceExtract r) st,
                        Resolved (inference_extract w (history st) r)));;
  index_cached (ex_requestId r) (cached i);;
  await (answer i).

(** The call [observe({...})] of the inference layer. *)
Definition observe_inference (w : World) (r : ObserveRequest)
  : Async State ObservationResponse :=
  i <- (fun st => Some (record (InferenceObserve r) st,
                        Resolved (inference_observe w (history st) r)));;
  index_cached (ob_requestId r) (cached i);;
  await (answer i).

(** Modelled from the spec: [LLMProvider.cleanRequestCache], which is
    missing from the sources.  Spec, sections 3 and 7: entries are deleted
    by request id; a failing request invalidates the cache entries tied to
    its id. *)
Definition cleanRequestCache (requestId : string) : Async State unit :=
  modify (fun st =>
    record (CleanRequestCache requestId)
           (set_cache (LLMCache.deleteCacheForRequestId requestId) st)).

(** *** [_extract] *)

Record ExtractParams := mkExtractParams {
  x_instruction : string;
  x_schema : AnthropicClient.JsonSchema;
  x_progress : string;              (* default: the empty string *)
  x_content : Content;              (* default: the empty object *)
  x_chunksSeen : list Z;            (* default: the empty array *)
  x_modelName : option string;
  x_requestId : option string;
  x_domSettleTimeoutMs : option Z
}.

(** The response as [JSON.stringify] sees it. *)
Definition extraction_json (r : ExtractionResponse) : Json :=
  JObj (output r
        ++ [("metadata", JObj [("progress", JStr (metadata_progress r));
                               ("completed", JBool (metadata_completed r))])]).

Fixpoint _extract (fuel : nat) (w : World) (p : ExtractParams)
  : Async State Content :=
  match fuel with
  | O => fun _ => None
  | S fuel' =>
      log (Some "extraction")
          ("starting extraction '" +:+ x_instruction p +:+ "'") (Some 1%Z);;
      _waitForSettledDom w (x_domSettleTimeoutMs p);;
      startDomDebug;;
      dom <- on_page "evaluate"
               (external (ProcessDom (x_chunksSeen p))
                         (fun h => processDom w h (x_chunksSeen p)));;
      log (Some "extraction")
          ("received output from processDom. Current chunk index: "
           +:+ pretty (chunk dom) +:+ ", Number of chunks left: "
           +:+ pretty (Z.of_nat (length (chunks dom))
                       - Z.of_nat (length (x_chunksSeen p)))%Z)
          (Some 1%Z);;
      defaultModel <- gets defaultModelName;;
      extractionResponse <-
        extract_inference w
          {| ex_instruction := x_instruction p;
             ex_progress := x_progress p;
             ex_previouslyExtractedContent := x_content p;
             ex_domElements := outputString dom;
             ex_schema := x_schema p;
             ex_modelName := or_string (x_modelName p) defaultModel;
             ex_chunksSeen := length (x_chunksSeen p);
             ex_chunksTotal := length (chunks dom);
             ex_requestId := x_requestId p |};;
      let newProgress := metadata_progress extractionResponse in
      let completed := metadata_completed extractionResponse in
      let output := output extractionResponse in
      cleanupDomDebug;;
      log (Some "extraction")
          ("received extraction response: "
           +:+ JSON_stringify (extraction_json extractionResponse)) (Some 1%Z);;
      (* chunksSeen.push(chunk) *)
      let chunksSeen := x_chunksSeen p ++ [chunk dom] in
      if completed || (length chunksSeen =? length (chunks dom))%nat
      then
        log (Some "extraction")
            ("response: " +:+ JSON_stringify (extraction_json extractionResponse))
            (Some 1%Z);;
        ret output
      else
        log (Some "extraction")
            ("continuing extraction, progress: '" +:+ newProgress +:+ "'")
            (Some 1%Z);;
        _waitForSettledDom w (x_domSettleTimeoutMs p);;
        (* the recursive call names every parameter but requestId *)
        _extract fuel' w
          {| x_instruction := x_instruction p;
             x_schema := x_schema p;
             x_progress := newProgress;
             x_content := output;
             x_chunksSeen := chunksSeen;
             x_modelName := x_modelName p;
             x_requestId := None;
             x_domSettleTimeoutMs := x_domSettleTimeoutMs p |}
  end.

(** *** [_observe] *)

Record ObserveParams := mkObserveParams {
  o_instruction : string;
  o_useVision : bool;
  o_fullPage : bool;
  o_modelName : option string;
  o_requestId : option string;
  o_domSettleTimeoutMs : option Z
}.

Definition default_instruction : string :=
  "Find elements that can be used for any future actions in the page. These may be navigation links, related pages, section/subsection links, buttons, or other interactive elements. Be comprehensive: if there are multiple elements that may be relevant for future actions, return all of them.".

Definition image_placeholder : string := "n/a. use the image to find the elements.".

Definition skip_message (model : string) : string :=
  model +:+ " does not support vision. Skipping vision processing.".

(** [`xpath=${selectorMap[elementId][0]}`]: reading [[0]] of a missing
    entry throws, an empty locator list renders as [undefined]. *)
Definition with_selector (selectorMap : gmap Z (list string)) (element : Element)
  : Outcome ObserveResult :=
  match selectorMap !! elementId element with
  | None => Rejected (TypeError_undefined "0")
  | Some xpaths =>
      Resolved {| description := el_description element;
                  selector := "xpath=" +:+ match xpaths with
                                           | x :: _ => x
                                           | [] => "undefined"
                                           end |}
  end.

(** [elements.map(...)]: the first throwing element aborts the map. *)
Fixpoint elementsWithSelectors (selectorMap : gmap Z (list string))
         (elements : list Element) : Outcome (list ObserveResult) :=
  match elements with
  | [] => Resolved []
  | element :: rest =>
      match with_selector selectorMap element with
      | Rejected e => Rejected e
      | Resolved r =>
          match elementsWithSelectors selectorMap rest with
          | Rejected e => Rejected e
          | Resolved rs => Resolved (r :: rs)
          end
      end
  end.

Definition results_json (rs : list ObserveResult) : Json :=
  JArr (List.map (fun r => JObj [("description", JStr (description r));
                                 ("selector", JStr (selector r))]) rs).

Definition supports_vision (w : World) (model : string) : bool :=
  existsb (string_eqb model) (modelsWithVision w).

Definition _observe (w : World) (p : ObserveParams)
  : Async State (list ObserveResult) :=
  let instruction :=
    match o_instruction p with
    | EmptyString => default_instruction
    | s => s
    end in
  model <- gets (fun st => nullish (o_modelName p) (defaultModelName st));;
  log (Some "observation") ("starting observation: " +:+ instruction) (Some 1%Z);;
  _waitForSettledDom w (o_domSettleTimeoutMs p);;
  startDomDebug;;
  dom <- on_page "evaluate"
           (if o_fullPage p
            then external ProcessAllOfDom (processAllOfDom w)
            else external (ProcessDom []) (fun h => processDom w h []));;
  let selectorMap := selectorMap dom in
  vision <-
    (if o_useVision p
     then
       if negb (supports_vision w model)
       then
         log (Some "observation") (skip_message model) (Some 1%Z);;
         ret (None, outputString dom)
       else
         annotatedScreenshot <-
           external (Screenshot (o_fullPage p))
                    (fun h => getAnnotatedScreenshot w h (o_fullPage p));;
         ret (Some annotatedScreenshot, image_placeholder)
     else ret (None, outputString dom));;
  let annotatedScreenshot := fst vision in
  let outputString := snd vision in
  defaultModel <- gets defaultModelName;;
  observationResponse <-
    observe_inference w
      {| ob_instruction := instruction;
         ob_domElements := outputString;
         ob_modelName := or_string (o_modelName p) defaultModel;
         ob_image := annotatedScreenshot;
         ob_requestId := o_requestId p |};;
  elementsWithSelectors <-
    await (elementsWithSelectors selectorMap (elements observationResponse));;
  cleanupDomDebug;;
  _recordObservation w instruction elementsWithSelectors;;
  log (Some "observation")
      ("found element " +:+ JSON_stringify (results_json elementsWithSelectors))
      (Some 1%Z);;
  _recordObservation w instruction elementsWithSelectors;;
  ret elementsWithSelectors.

(** *** The public operations *)

Definition Math_random (w : World) : Async State string :=
  external MathRandom (fun h => Resolved (random_id w h)).

Record ActParams := mkAct {
  a_action : string;
  a_modelName : option string;
  a_useVision : option UseVision;       (* default: fallback *)
  a_variables : gmap string string;     (* default: the empty object *)
  a_domSettleTimeoutMs : option Z
}.

(** The argument [act] passes to the handler. *)
Definition handler_params (p : ActParams) (requestId : string) : ActHandlerParams :=
  let useVision := nullish (a_useVision p) Fallback in
  {| ah_action := a_action p;
     ah_modelName := a_modelName p;
     ah_chunksSeen := [];
     ah_useVision := useVision;
     ah_verifierUseVision :=
       match useVision with Vision false => false | _ => true end;
     ah_requestId := requestId;
     ah_variables := a_variables p;
     ah_previousSelectors := [];
     ah_skipActionCacheForThisStep := false;
     ah_domSettleTimeoutMs := a_domSettleTimeoutMs p |}.

Definition act (w : World) (p : ActParams) : Async State ActResult :=
  let action := a_action p in
  requestId <- Math_random w;;
  logger "act" ("Running act with action: " +:+ action
                +:+ ", requestId: " +:+ requestId);;
  modify (set_variables (fun vs => a_variables p ∪ vs));;
  let params := handler_params p requestId in
  catch
    (external (ActHandlerAct params) (fun h => actHandler_act w h params))
    (fun e =>
       logger "act" ("Error acting: " +:+ err_message e +:+ nl
                     +:+ "Trace: " +:+ err_stack e);;
       ret {| success := false;
              act_message := "Internal error: Error acting: " +:+ err_message e;
              action := action |}).

Record ExtractOptions := mkExtractOptions {
  e_instruction : string;
  e_schema : AnthropicClient.JsonSchema;
  e_modelName : option string;
  e_domSettleTimeoutMs : option Z
}.

(** The call [extract] makes to [_extract] once the request id is drawn. *)
Definition extract_params (p : ExtractOptions) (requestId : string) : ExtractParams :=
  {| x_instruction := e_instruction p;
     x_schema := e_schema p;
     x_progress := "";
     x_content := [];
     x_chunksSeen := [];
     x_modelName := e_modelName p;
     x_requestId := Some requestId;
     x_domSettleTimeoutMs := e_domSettleTimeoutMs p |}.

(** The handler of the [.catch] of [extract] and [observe]. *)
Definition on_failure {A} (category prefix : string) (requestId : string) (e : Error)
  : Async State A :=
  logger category (prefix +:+ err_message e +:+ nl +:+ "Trace: " +:+ err_stack e);;
  caching <- gets enableCaching;;
  when caching (cleanRequestCache requestId);;
  throw e.

Definition extract (fuel : nat) (w : World) (p : ExtractOptions)
  : Async State Content :=
  requestId <- Math_random w;;
  logger "extract" ("Running extract with instruction: " +:+ e_instruction p
                    +:+ ", requestId: " +:+ requestId);;
  catch (_extract fuel w (extract_params p requestId))
        (on_failure "extract" "Internal error: Error extracting: " requestId).

Record ObserveOptions := mkObserveOptions {
  oo_instruction : option string;
  oo_modelName : option string;
  oo_useVision : option bool;
  oo_domSettleTimeoutMs : option Z
}.

Definition observe_params (options : option ObserveOptions) (requestId : string)
  : ObserveParams :=
  {| o_instruction :=
       nullish (options ≫= oo_instruction)
               "Find actions that can be performed on this page.";
     o_useVision := nullish (options ≫= oo_useVision) false;
     o_fullPage := false;
     o_modelName := options ≫= oo_modelName;
     o_requestId := Some requestId;
     o_domSettleTimeoutMs := options ≫= oo_domSettleTimeoutMs |}.

Definition observe (w : World) (options : option ObserveOptions)
  : Async State (list ObserveResult) :=
  requestId <- Math_random w;;
  logger "observe" ("Running observe with instruction: "
                    +:+ nullish (options ≫= oo_instruction) "undefined"
                    +:+ ", requestId: " +:+ requestId);;
  catch (_observe w (observe_params options requestId))
        (on_failure "observe" "Error observing: " requestId).


(** *** Reading a run *)

(** The settings no operation of this file assigns. *)
Definition frame (st st' : State) : Prop :=
  page st' = page st
  /\ defaultModelName st' = defaultModelName st
  /\ domSettleTimeoutMs st' = domSettleTimeoutMs st
  /\ debugDom st' = debugDom st
  /\ enableCaching st' = enableCaching st.

(** A computation that leaves those settings alone and only adds to the
    history. *)
Definition steady {A} (m : Async State A) : Prop :=
  forall st st' o,
    m st = Some (st', o) ->
    frame st st' /\ exists evs, history st' = history st ++ evs.

Definition timeout_line (timeout : Z) : LogLine :=
  mkLog (Some "dom")
        ("DOM settle timeout of " +:+ pretty timeout
         +:+ "ms exceeded, continuing anyway") 1.

Definition settle_error_line (e : Error) : LogLine :=
  mkLog (Some "dom")
        ("Error in waitForSettledDom: " +:+ err_message e +:+ nl
         +:+ "Trace: " +:+ err_stack e) 1.

(** What a DOM-settle wait logs. *)
Definition settle_log (w : World) (timeoutMs : option Z) (st : State) : list LogLine :=
  let timeout := nullish timeoutMs (domSettleTimeoutMs st) in
  if page st
  then match race (settle w (history st)) timeout with
       | TimedOut => [timeout_line timeout]
       | Fulfilled => []
       | Failed e => [settle_error_line e]
       end
  else [settle_error_line (TypeError_undefined "evaluate")].

(** The state a DOM-settle wait leaves behind. *)
Definition after_wait (w : World) (timeoutMs : option Z) (st : State) : State :=
  set_logs (fun ls => ls ++ settle_log w timeoutMs st)
           (if page st
            then record (SettleWait (nullish timeoutMs (domSettleTimeoutMs st))) st
            else st).

(** The state in which a public operation starts its work: the request
    id is drawn and the opening line is logged. *)
Definition entered (category message : string) (st : State) : State :=
  set_logs (fun ls => ls ++ [mkLog (Some category) message 1])
           (record MathRandom st).

Definition extract_opening (p : ExtractOptions) (requestId : string) : string :=
  "Running extract with instruction: " +:+ e_instruction p
  +:+ ", requestId: " +:+ requestId.

Definition observe_opening (options : option ObserveOptions) (requestId : string)
  : string :=
  "Running observe with instruction: "
  +:+ nullish (options ≫= oo_instruction) "undefined"
  +:+ ", requestId: " +:+ requestId.

(** The state the [.catch] handler of [extract] and [observe] leaves. *)
Definition failed (category prefix requestId : string) (e : Error) (st : State)
  : State :=
  let st1 :=
    set_logs (fun ls => ls ++ [mkLog (Some category)
                                     (prefix +:+ err_message e +:+ nl
                                      +:+ "Trace: " +:+ err_stack e) 1]) st in
  if enableCaching st
  then record (CleanRequestCache requestId)
              (set_cache (LLMCache.deleteCacheForRequestId requestId) st1)
  else st1.

(** The state after an inference call that cached [entries] under
    [requestId]. *)
Definition inferred (requestId : option string) (entries : list (string * Json))
           (st : State) : State :=
  if enableCaching st
  then set_cache (fun c =>
         fold_left (fun c kv => LLMCache.set (fst kv) (snd kv) requestId c)
                   entries c) st
  else st.

(** The request [_extract] sends for a snapshot. *)
Definition extract_request (p : ExtractParams) (st : State) (dom : DomResult)
  : ExtractRequest :=
  {| ex_instruction := x_instruction p;
     ex_progress := x_progress p;
     ex_previouslyExtractedContent := x_content p;
     ex_domElements := outputString dom;
     ex_schema := x_schema p;
     ex_modelName := or_string (x_modelName p) (defaultModelName st);
     ex_chunksSeen := length (x_chunksSeen p);
     ex_chunksTotal := length (chunks dom);
     ex_requestId := x_requestId p |}.

(** The parameters of the recursive call of [_extract]. *)
Definition next_round (p : ExtractParams) (dom : DomResult)
           (response : ExtractionResponse) : ExtractParams :=
  {| x_instruction := x_instruction p;
     x_schema := x_schema p;
     x_progress := metadata_progress response;
     x_content := output response;
     x_chunksSeen := x_chunksSeen p ++ [chunk dom];
     x_modelName := x_modelName p;
     x_requestId := None;
     x_domSettleTimeoutMs := x_domSettleTimeoutMs p |}.

(** The page's chunker keeps its side of the contract for a page of
    [N] chunks: it answers, the total is always [N], and while fewer than
    [N] chunks have been seen the chunk it returns is not among them. *)
Definition chunker_contract (w : World) (N : nat) : Prop :=
  forall h seen, exists dom,
    processDom w h seen = Resolved dom
    /\ length (chunks dom) = N
    /\ (length seen < N -> ~ In (chunk dom) seen).

(** The extraction model answers every round and does not report
    completion before the last one. *)
Definition no_early_completion (w : World) : Prop :=
  forall h r, exists response,
    answer (inference_extract w h r) = Resolved response
    /\ (S (ex_chunksSeen r) < ex_chunksTotal r ->
        metadata_completed response = false).

(** The snapshot [_observe] takes, and the call that takes it. *)
Definition snapshot (w : World) (p : ObserveParams) (h : list Event)
  : Outcome DomResult :=
  if o_fullPage p then processAllOfDom w h else processDom w h [].

Definition snapshot_event (p : ObserveParams) : Event :=
  if o_fullPage p then ProcessAllOfDom else ProcessDom [].

(** The request [_observe] sends when no screenshot is attached. *)
Definition text_request (p : ObserveParams) (st : State) (dom : DomResult)
  : ObserveRequest :=
  {| ob_instruction := match o_instruction p with
                       | EmptyString => default_instruction
                       | s => s
                       end;
     ob_domElements := outputString dom;
     ob_modelName := or_string (o_modelName p) (defaultModelName st);
     ob_image := None;
     ob_requestId := o_requestId p |}.

(** The selector an element is given: [xpath=] and the first locator. *)
Definition resolved_from (selectorMap : gmap Z (list string)) (element : Element)
           (r : ObserveResult) : Prop :=
  description r = el_description element
  /\ exists xpaths,
       selectorMap !! elementId element = Some xpaths
       /\ selector r = "xpath=" +:+ match xpaths with
                                    | x :: _ => x
                                    | [] => "undefined"
                                    end.

Definition xpath_selector (r : ObserveResult) : Prop :=
  exists locator, selector r = "xpath=" +:+ locator.

(** Every value the computation can resolve with satisfies [Q]. *)
Definition resolves_with {A} (m : Async State A) (Q : A -> Prop) : Prop :=
  forall st st' a, m st = Some (st', Resolved a) -> Q a.

(** The batch the specification describes: elements whose id the snapshot
    does not know are dropped, the others get their selector. *)
Definition dropping_unknown_ids (selectorMap : gmap Z (list string))
           (elements : list Element) : list ObserveResult :=
  omap (fun element =>
          match with_selector selectorMap element with
          | Resolved r => Some r
          | Rejected _ => None
          end) elements.

(** No entry of the cache is indexed under the request id. *)
Definition purged (requestId : string) (c : LLMCache.t Json) : Prop :=
  forall entry, In entry c -> LLMCache.indexed_by (Some requestId) entry = false.

(** The calls to the page's chunker and to the extraction model, read off
    a history. *)
Definition dom_calls (h : list Event) : list (list Z) :=
  omap (fun e => match e with ProcessDom seen => Some seen | _ => None end) h.

Definition extract_calls (h : list Event) : list ExtractRequest :=
  omap (fun e => match e with InferenceExtract r => Some r | _ => None end) h.

Definition observe_calls (h : list Event) : list ObserveRequest :=
  omap (fun e => match e with InferenceObserve r => Some r | _ => None end) h.

Definition screenshots (h : list Event) : list bool :=
  omap (fun e => match e with Screenshot b => Some b | _ => None end) h.

End Stagehand.

(** * Reading the runs of [createChatCompletion] *)
Module AnthropicClientRuns.
Import AnthropicClient.

(** What [this.cache.get] answers when caching is on. *)
Definition cached_answer (c : Client) (options : ChatCompletionOptions) (st : State)
  : option Completion :=
  if enableCaching c
  then LLMCache.lookup (hash c (cacheOptions options)) (cache st)
  else None.

(** The answer the call takes from the cache: what [this.cache.get]
    answers, when that is truthy. *)
Definition usable_answer (c : Client) (options : ChatCompletionOptions) (st : State)
  : option Completion :=
  if_truthy (cached_answer c options st).

(** The state a call leaves when it is answered from the cache. *)
Definition after_hit (c : Client) (options : ChatCompletionOptions) (st : State)
  : State :=
  mkState (LLMCache.touch (hash c (cacheOptions options)) (Some (requestId c)) (cache st))
          (logged st ++ [CreatingChatCompletion (without_image options); CacheHit])
          (sent st) (assigned st).

(** The state a call leaves when the provider answered and the answer is
    kept: it is stored when caching is on. *)
Definition after_success (c : Client) (options : ChatCompletionOptions)
           (response : ProviderResponse) (v : Completion) (st : State) : State :=
  let st1 := after_attempt c options response st in
  if enableCaching c
  then mkState (LLMCache.set (hash c (cacheOptions options)) v
                             (Some (requestId c)) (cache st1))
               (logged st1) (sent st1) (assigned st1)
  else st1.

(** The state a call leaves when the provider call itself rejects. *)
Definition after_provider_error (c : Client) (options : ChatCompletionOptions)
           (st : State) : State :=
  mkState (cache_after_read c options st)
          (logged st ++ [CreatingChatCompletion (without_image options)]
           ++ (if enableCaching c then [CacheMiss] else []))
          (sent st ++ [providerRequest options])
          (assigned_after options st).

(** What a call does when the cache has no answer it can use. *)
Definition on_miss (fuel : nat) (c : Client) (options : ChatCompletionOptions)
           (st : State) : option (State * Outcome Completion) :=
  match create c (sent st) (providerRequest options) with
  | Rejected e => Some (after_provider_error c options st, Rejected e)
  | Resolved response =>
      match response_model options with
      | Some _ =>
          match find_tool_use (resp_content response) with
          | Some result =>
              Some (after_success c options response (Structured result) st,
                    Resolved (Structured result))
          | None =>
              if may_retry (retries options)
              then createChatCompletion fuel c (retry_options options)
                                        (after_attempt c options response st)
              else Some (after_attempt c options response st,
                         Rejected no_tool_use_error)
          end
      | None =>
          let r := Chat (transformedResponse
                           (now c (sent st ++ [providerRequest options])) response) in
          Some (after_success c options response r st, Resolved r)
      end
  end.

Definition is_image_message (m : ChatMessage) : bool :=
  match content m with
  | Text _ => false
  | Parts ps => existsb is_image_part ps
  end.

(** The number of messages of a request that carry an image. *)
Definition image_count (r : ProviderRequest) : nat :=
  length (List.filter is_image_message (req_messages r)).

(** The options of the [n]-th retry of a call. *)
Definition nth_retry (n : nat) (options : ChatCompletionOptions)
  : ChatCompletionOptions :=
  Nat.iter n retry_options options.

(** The answer is one the call keeps: any answer when no response model is
    given, an answer with a tool-use block otherwise. *)
Definition kept (options : ChatCompletionOptions) (c : Client) (st : State)
           (response : ProviderResponse) : option Completion :=
  match response_model options with
  | Some _ => Structured <$> find_tool_use (resp_content response)
  | None => Some (Chat (transformedResponse
                          (now c (sent st ++ [providerRequest options])) response))
  end.

(** The name under which a tool of the caller reaches the provider. *)
Definition name_of_tool (t : Tool) : string :=
  match t with
  | Function f => fn_name f
  | Other t => tool_name t
  end.

(** The requests of a call and its first [n - 1] retries. *)
Definition retry_requests (n : nat) (options : ChatCompletionOptions)
  : list ProviderRequest :=
  List.map (fun k => providerRequest (nth_retry k options)) (seq 0 n).

(** The keys and values a cache holds, in the order of its entries. *)
Definition stored (cache : LLMCache.t Completion) : list (string * Completion) :=
  List.map (fun e => (LLMCache.fingerprint e, LLMCache.value e)) cache.

End AnthropicClientRuns.

(** * Reading the runs of [Stagehand] *)
Module StagehandRuns.
Import Stagehand.

(** A page whose chunk total never exceeds what has been seen, as a page
    that reports no chunks at all, and a model that never reports
    completion. *)
Definition chunks_never_left (w : World) : Prop :=
  forall h seen, exists dom,
    processDom w h seen = Resolved dom
    /\ length (chunks dom) <= length seen.

Definition never_completed (w : World) : Prop :=
  forall h r, exists response,
    answer (inference_extract w h r) = Resolved response
    /\ metadata_completed response = false.

(** The history at the moment [_extract] asks the page for a chunk. *)
Definition at_snapshot (timeoutMs : option Z) (st : State) : list Event :=
  history st ++ [SettleWait (nullish timeoutMs (domSettleTimeoutMs st)); DebugDom].

(** The instruction [_observe] works with: the default one when the caller
    passed the empty string. *)
Definition effective_instruction (p : ObserveParams) : string :=
  match o_instruction p with
  | EmptyString => default_instruction
  | s => s
  end.

(** The state in which [_observe] has its snapshot. *)
Definition with_snapshot (w : World) (p : ObserveParams) (st : State) : State :=
  record (snapshot_event p)
    (record DebugDom
       (after_wait w (o_domSettleTimeoutMs p)
          (set_logs (fun ls => ls ++ [mkLog (Some "observation")
                                            ("starting observation: "
                                             +:+ effective_instruction p) 1]) st))).

(** The history at the moment [_observe] takes its snapshot. *)
Definition at_observe_snapshot (p : ObserveParams) (st : State) : list Event :=
  history st ++ [SettleWait (nullish (o_domSettleTimeoutMs p) (domSettleTimeoutMs st));
                 DebugDom].

(** The request [_observe] sends for what the vision step left. *)
Definition observe_request (p : ObserveParams) (st : State)
           (vision : option (list N) * string) : ObserveRequest :=
  {| ob_instruction := effective_instruction p;
     ob_domElements := snd vision;
     ob_modelName := or_string (o_modelName p) (defaultModelName st);
     ob_image := fst vision;
     ob_requestId := o_requestId p |}.

(** The state after a successful observation: the overlay is cleaned when
    it was drawn, the result is recorded and logged. *)
Definition observed (w : World) (p : ObserveParams) (rs : list ObserveResult)
           (s : State) : State :=
  let id := generateId w (effective_instruction p) in
  let entry := mkRecorded rs (effective_instruction p) in
  set_observations (fun o => <[id := entry]> o)
    (set_logs (fun ls => ls ++ [mkLog (Some "observation")
                                      ("found element "
                                       +:+ JSON_stringify (results_json rs)) 1])
       (set_observations (fun o => <[id := entry]> o)
          (if debugDom s then record CleanupDebug s else s))).

(** What [_observe] does from its model call on, in a state with a page. *)
Definition observe_outcome (w : World) (p : ObserveParams) (dom : DomResult)
           (vision : option (list N) * string) (s : State)
  : State * Outcome (list ObserveResult) :=
  let r := observe_request p s vision in
  let i := inference_observe w (history s) r in
  let s1 := inferred (ob_requestId r) (cached i) (record (InferenceObserve r) s) in
  match answer i with
  | Rejected e => (s1, Rejected e)
  | Resolved response =>
      match elementsWithSelectors (selectorMap dom) (elements response) with
      | Rejected e => (s1, Rejected e)
      | Resolved rs => (observed w p rs s1, Resolved rs)
      end
  end.

(** What the vision step of [_observe] leaves: the screenshot, if one is
    taken, and the text for the model. *)
Definition vision_step (w : World) (p : ObserveParams) (dom : DomResult) (s : State)
  : State * Outcome (option (list N) * string) :=
  let model := nullish (o_modelName p) (defaultModelName s) in
  if o_useVision p
  then
    if supports_vision w model
    then
      (record (Screenshot (o_fullPage p)) s,
       match getAnnotatedScreenshot w (history s) (o_fullPage p) with
       | Resolved shot => Resolved (Some shot, image_placeholder)
       | Rejected e => Rejected e
       end)
    else
      (set_logs (fun ls => ls ++ [mkLog (Some "observation") (skip_message model) 1]) s,
       Resolved (None, outputString dom))
  else (s, Resolved (None, outputString dom)).

(** [_observe] in a session with a page, once the snapshot is there. *)
Definition observe_with_snapshot (w : World) (p : ObserveParams) (dom : DomResult)
           (st : State) : State * Outcome (list ObserveResult) :=
  match vision_step w p dom (with_snapshot w p st) with
  | (s, Rejected e) => (s, Rejected e)
  | (s, Resolved vision) => observe_outcome w p dom vision s
  end.

(** The computation leaves [Q] behind whenever it resolves. *)
Definition leaves {A} (m : Async State A) (Q : State -> A -> Prop) : Prop :=
  forall st st' a, m st = Some (st', Resolved a) -> Q st' a.

(** Every call the computation makes outside the class satisfies [P]. *)
Definition emits {A} (P : Event -> Prop) (m : Async State A) : Prop :=
  forall st st' o,
    m st = Some (st', o) ->
    exists evs, history st' = history st ++ evs /\ Forall P evs.

(** The calls of an observation that looks at the first chunk only. *)
Definition first_chunk_only (e : Event) : Prop :=
  match e with
  | ProcessAllOfDom => False
  | ProcessDom seen => seen = []
  | Screenshot fullPage => fullPage = false
  | InferenceExtract _ => False
  | ActHandlerAct _ => False
  | _ => True
  end.

(** The three page promises of a DOM-settle wait, in the order in which
    they are handed to [Promise.race]. *)
Definition racers (p : PageBehaviour) : list Settles :=
  [waitForDomSettle p; waitForLoadState p; waitForSelector p].

(** The promise has not settled when the timer fires. *)
Definition late (timeout : Z) (s : Settles) : Prop :=
  match settle_time s with
  | Some t => (timeout < t)%Z
  | None => True
  end.

(** The promise fulfils after [t], or rejects, or stays pending. *)
Definition fulfils_after (t : Z) (s : Settles) : Prop :=
  match s with
  | FulfilsAt t' => (t < t')%Z
  | _ => True
  end.

(** The promise rejects after [t], or fulfils, or stays pending. *)
Definition rejects_after (t : Z) (s : Settles) : Prop :=
  match s with
  | RejectsAt t' _ => (t < t')%Z
  | _ => True
  end.

End StagehandRuns.

(** * [getBrowser], the constructor, [init] and [initFromPage] (lib/index.ts) *)
Module Launch.
Import Stagehand.

Inductive Env : Type := LOCAL | BROWSERBASE.

(** JavaScript truthiness of an optional string: [undefined] and the empty
    string are falsy. *)
Definition truthy (s : option string) : bool :=
  match s with
  | Some EmptyString | None => false
  | Some _ => true
  end.

(** A browser context with the pages it has open, and a browser with its
    contexts. *)
Record BrowserContext := mkContext { pages : list string }.

Record Browser := mkBrowser { contexts : list BrowserContext }.

(** What [browserbase.sessions.create] answers. *)
Record Session := mkSession { session_id : string; connectUrl : string }.

(** *** Calls that leave the file *)

Inductive Call : Type :=
| SessionsRetrieve (apiKey id : string)
| SessionsCreate (apiKey : string) (body : gmap string Json)
| ConnectOverCDP (url : string)
| SessionsDebug (apiKey id : string)
| MkdtempSync (prefix : string)
| MkdirSync (path : string)
| WriteFileSync (path data : string)
| LaunchPersistentContext (userDataDir : string) (headless : bool)
| AddStealthScript
| ConsoleError (e : Error)
| WaitForLoadState
| SetViewportSize (width height : Z)
| ReadFileSync (path : string)
| AddInitScript (path content : string)
| OriginalGoto (url : string).

(** The Browserbase service, Playwright, the file system and the process,
    as functions of the calls made so far. *)
Record Platform := mkPlatform {
  sessions_retrieve : list Call -> string -> string -> Outcome string;
  sessions_create : list Call -> string -> gmap string Json -> Outcome Session;
  connectOverCDP : list Call -> string -> Outcome Browser;
  sessions_debug : list Call -> string -> string -> Outcome string;
  mkdtempSync : list Call -> string -> Outcome string;
  mkdirSync : list Call -> string -> Outcome unit;
  writeFileSync : list Call -> string -> string -> Outcome unit;
  cwd : string;
  launchPersistentContext : list Call -> string -> bool -> Outcome BrowserContext;
  addInitScript : list Call -> Outcome unit;
  waitForLoadState : list Call -> Outcome unit;
  setViewportSize : list Call -> Outcome unit;
  readFileSync : list Call -> string -> Outcome string;
  (** [path.join(__dirname, "..", "dist", "dom", "build", file)] *)
  build_path : string -> string;
  originalGoto : list Call -> string -> Outcome Json
}.

(** The [Stagehand] object together with what surrounds it during the
    launch: [this.context] and the calls made so far. *)
Record Host := mkHost {
  object : State;
  context : option BrowserContext;
  calls : list Call
}.

Definition set_object (f : State -> State) (h : Host) : Host :=
  mkHost (f (object h)) (context h) (calls h).

Definition set_context (c : option BrowserContext) (h : Host) : Host :=
  mkHost (object h) c (calls h).

Definition call {A} (c : Call) (f : list Call -> Outcome A) : Async Host A :=
  fun h => Some (mkHost (object h) (context h) (calls h ++ [c]), f (calls h)).

(** A method of the [Stagehand] object run inside the launch. *)
Definition lift {A} (m : Async State A) : Async Host A :=
  fun h =>
    match m (object h) with
    | None => None
    | Some (st, o) => Some (mkHost st (context h) (calls h), o)
    end.

Definition Logger : Type := option string -> string -> option Z -> Async Host unit.

(** [this.logger], that is [this.log] bound to the object. *)
Definition this_logger : Logger := fun category message level => lift (log category message level).

(** *** [getBrowser] *)

Record Launched := mkLaunched {
  l_browser : option Browser;
  l_context : option BrowserContext;
  l_debugUrl : option string;
  l_sessionUrl : option string
}.

Definition not_running (id status : string) : Error :=
  mkError ("Session " +:+ id +:+ " is not running (status: " +:+ status +:+ ")") "Error".

Definition project_required : Error :=
  mkError "BROWSERBASE_PROJECT_ID is required for new Browserbase sessions." "Error".

Definition key_required : Error := mkError "BROWSERBASE_API_KEY is required." "Error".

Definition connect_url (apiKey sessionId : string) : string :=
  "wss://connect.browserbase.com?apiKey=" +:+ apiKey +:+ "&sessionId=" +:+ sessionId.

Definition session_url (sessionId : string) : string :=
  "https://www.browserbase.com/sessions/" +:+ sessionId.

(** [{ projectId, ...browserbaseSessionCreateParams }]: a later field wins. *)
Definition create_body (projectId : string) (params : gmap string Json)
  : gmap string Json :=
  params ∪ {[ "projectId" := JStr projectId ]}.

(** The branch that resumes a session: the status check, with its
    [try]/[catch] that logs and rethrows. *)
Definition resume_session (W : Platform) (logger : Logger) (apiKey id : string)
  : Async Host (string * string) :=
  catch
    (status <- call (SessionsRetrieve apiKey id)
                    (fun h => sessions_retrieve W h apiKey id);;
     if negb (string_eqb status "RUNNING")
     then throw (not_running id status)
     else
       logger (Some "Init") "Resuming existing Browserbase session..." (Some 0%Z);;
       ret (id, connect_url apiKey id))
    (fun error =>
       logger (Some "Init")
              ("Failed to resume session " +:+ id +:+ ": " +:+ err_message error)
              (Some 0%Z);;
       throw error).

(** The branch that creates a session. *)
Definition create_session (W : Platform) (logger : Logger) (apiKey : string)
           (projectId : option string) (params : gmap string Json)
  : Async Host (string * string) :=
  logger (Some "Init") "Creating new Browserbase session..." (Some 0%Z);;
  if negb (truthy projectId)
  then throw project_required
  else
    session <- call (SessionsCreate apiKey (create_body (nullish projectId "") params))
                    (fun h => sessions_create W h apiKey
                                (create_body (nullish projectId "") params));;
    ret (session_id session, connectUrl session).

Definition started_message (resumed : bool) (sessionUrl debugUrl : string) : string :=
  "Browserbase session " +:+ (if resumed then "resumed" else "started") +:+ "."
  +:+ nl +:+ nl +:+ "Session Url: " +:+ sessionUrl
  +:+ nl +:+ nl +:+ "Live debug accessible here: " +:+ debugUrl +:+ ".".

Definition defaultPreferences : Json :=
  JObj [("plugins", JObj [("always_open_pdf_externally", JBool true)])].

Definition launch_local (W : Platform) (logger : Logger) (headless : bool)
  : Async Host Launched :=
  logger (Some "Init")
         ("Launching local browser in "
          +:+ (if headless then "headless" else "headed") +:+ " mode")
         (Some 0%Z);;
  tmpDir <- call (MkdtempSync "/tmp/pwtest") (fun h => mkdtempSync W h "/tmp/pwtest");;
  call (MkdirSync (tmpDir +:+ "/userdir/Default"))
       (fun h => mkdirSync W h (tmpDir +:+ "/userdir/Default"));;
  call (WriteFileSync (tmpDir +:+ "/userdir/Default/Preferences")
                      (JSON_stringify defaultPreferences))
       (fun h => writeFileSync W h (tmpDir +:+ "/userdir/Default/Preferences")
                               (JSON_stringify defaultPreferences));;
  call (MkdirSync (cwd W +:+ "/downloads"))
       (fun h => mkdirSync W h (cwd W +:+ "/downloads"));;
  ctx <- call (LaunchPersistentContext (tmpDir +:+ "/userdir") headless)
              (fun h => launchPersistentContext W h (tmpDir +:+ "/userdir") headless);;
  logger (Some "Init") "Local browser started successfully." None;;
  call AddStealthScript (addInitScript W);;
  ret (mkLaunched None (Some ctx) None None).

Definition launch_remote (W : Platform) (logger : Logger) (apiKey projectId : option string)
           (params : gmap string Json) (resumeID : option string)
  : Async Host Launched :=
  if negb (truthy apiKey)
  then throw key_required
  else
    let key := nullish apiKey "" in
    target <- (if truthy resumeID
               then resume_session W logger key (nullish resumeID "")
               else create_session W logger key projectId params);;
    let '(sessionId, url) := target in
    browser <- call (ConnectOverCDP url) (fun h => connectOverCDP W h url);;
    debuggerUrl <- call (SessionsDebug key sessionId)
                        (fun h => sessions_debug W h key sessionId);;
    logger (Some "Init")
           (started_message (truthy resumeID) (session_url sessionId) debuggerUrl)
           (Some 0%Z);;
    ret (mkLaunched (Some browser) (List.head (contexts browser))
                    (Some debuggerUrl) (Some (session_url sessionId))).

Definition getBrowser (W : Platform) (apiKey projectId : option string) (env : Env)
           (headless : bool) (logger : Logger) (params : gmap string Json)
           (resumeID : option string) : Async Host Launched :=
  env <- match env with
         | BROWSERBASE =>
             env <- (if negb (truthy apiKey)
                     then
                       logger (Some "Init")
                              "BROWSERBASE_API_KEY is required to use BROWSERBASE env. Defaulting to LOCAL."
                              (Some 0%Z);;
                       ret LOCAL
                     else ret BROWSERBASE);;
             when (negb (truthy projectId))
                  (logger (Some "Init")
                          "BROWSERBASE_PROJECT_ID is required for some Browserbase features that may not work without it."
                          (Some 1%Z));;
             ret env
         | LOCAL => ret LOCAL
         end;;
  match env with
  | BROWSERBASE => launch_remote W logger apiKey projectId params resumeID
  | LOCAL => launch_local W logger headless
  end.

(** *** The constructor *)

Record Options := mkOptions {
  opt_env : Env;
  opt_apiKey : option string;
  opt_projectId : option string;
  opt_debugDom : option bool;
  opt_headless : option bool;
  opt_browserBaseSessionCreateParams : gmap string Json;
  opt_domSettleTimeoutMs : option Z;
  opt_enableCaching : option bool;
  opt_browserbaseResumeSessionID : option string
}.

(** The fields of the object that only the launch reads. *)
Record Config := mkConfig {
  env : Env;
  apiKey : option string;
  projectId : option string;
  headless : bool;
  browserBaseSessionCreateParams : gmap string Json;
  browserbaseResumeSessionID : option string
}.

(** [process.env.BROWSERBASE_API_KEY] and [process.env.BROWSERBASE_PROJECT_ID] *)
Record Environ := mkEnviron {
  BROWSERBASE_API_KEY : option string;
  BROWSERBASE_PROJECT_ID : option string
}.

Definition or_else {A} (a b : option A) : option A :=
  match a with Some _ => a | None => b end.

Definition constructor (o : Options) (environ : Environ) (provider_cache : LLMCache.t Json)
  : Config * Host :=
  (mkConfig (opt_env o)
            (or_else (opt_apiKey o) (BROWSERBASE_API_KEY environ))
            (or_else (opt_projectId o) (BROWSERBASE_PROJECT_ID environ))
            (nullish (opt_headless o) false)
            (opt_browserBaseSessionCreateParams o)
            (opt_browserbaseResumeSessionID o),
   mkHost {| page := false;
             defaultModelName := "gpt-4o";
             domSettleTimeoutMs := nullish (opt_domSettleTimeoutMs o) 30000%Z;
             debugDom := nullish (opt_debugDom o) false;
             enableCaching := nullish (opt_enableCaching o) false;
             variables := ∅;
             observations := ∅;
             logs := [];
             cache := provider_cache;
             history := [] |}
          None []).

(** *** [init] and [initFromPage] *)

Definition set_page (b : bool) (st : State) : State :=
  mkState b (defaultModelName st) (domSettleTimeoutMs st) (debugDom st)
          (enableCaching st) (variables st) (observations st) (logs st)
          (cache st) (history st).

Definition set_defaultModelName (m : string) (st : State) : State :=
  mkState (page st) m (domSettleTimeoutMs st) (debugDom st)
          (enableCaching st) (variables st) (observations st) (logs st)
          (cache st) (history st).

Definition set_domSettleTimeoutMs (t : Z) (st : State) : State :=
  mkState (page st) (defaultModelName st) t (debugDom st)
          (enableCaching st) (variables st) (observations st) (logs st)
          (cache st) (history st).

(** A call through [this.page] during the launch. *)
Definition with_page {A} (method : string) (m : Async Host A) : Async Host A :=
  fun h => if page (object h) then m h else Some (h, Rejected (TypeError_undefined method)).

(** [this.context.addInitScript({ path, content: fs.readFileSync(path, "utf8") })] *)
Definition add_script (W : Platform) (file : string) : Async Host unit :=
  content <- call (ReadFileSync (build_path W file))
                  (fun h => readFileSync W h (build_path W file));;
  call (AddInitScript (build_path W file) content) (addInitScript W).

Record InitResult := mkInitResult { debugUrl : option string; sessionUrl : option string }.

Definition init (W : Platform) (w : World) (cfg : Config)
           (modelName : option string) (timeoutMs : option Z)
  : Async Host InitResult :=
  launched <- catch
                (getBrowser W (apiKey cfg) (projectId cfg) (env cfg) (headless cfg)
                            this_logger (browserBaseSessionCreateParams cfg)
                            (browserbaseResumeSessionID cfg))
                (fun e =>
                   call (ConsoleError e) (fun _ => Resolved tt);;
                   ret (mkLaunched None None None None));;
  modify (set_context (l_context launched));;
  match l_context launched with
  | None => throw (TypeError_undefined "pages")
  | Some ctx =>
      modify (set_object (set_page (bool_decide (pages ctx <> []))));;
      with_page "waitForLoadState" (call WaitForLoadState (waitForLoadState W));;
      lift (_waitForSettledDom w None);;
      modify (set_object (set_defaultModelName (nullish modelName "gpt-4o")));;
      old <- gets (fun h => domSettleTimeoutMs (object h));;
      modify (set_object (set_domSettleTimeoutMs (nullish timeoutMs old)));;
      when (headless cfg)
           (with_page "setViewportSize"
                      (call (SetViewportSize 1280 720) (setViewportSize W)));;
      add_script W "xpathUtils.js";;
      add_script W "process.js";;
      add_script W "utils.js";;
      add_script W "debug.js";;
      ret (mkInitResult (l_debugUrl launched) (l_sessionUrl launched))
  end.

(** [page.goto] as [init] and [initFromPage] replace it. *)
Definition goto (W : Platform) (w : World) (url : string) : Async Host Json :=
  result <- call (OriginalGoto url) (fun h => originalGoto W h url);;
  with_page "waitForLoadState" (call WaitForLoadState (waitForLoadState W));;
  lift (_waitForSettledDom w None);;
  ret result.

(** [initFromPage(page, modelName)], given the context of the page. *)
Definition initFromPage (W : Platform) (cfg : Config) (page_context : BrowserContext)
           (modelName : option string) : Async Host BrowserContext :=
  modify (set_object (set_page true));;
  modify (set_context (Some page_context));;
  old <- gets (fun h => defaultModelName (object h));;
  modify (set_object (set_defaultModelName (or_string modelName old)));;
  when (headless cfg)
       (with_page "setViewportSize"
                  (call (SetViewportSize 1280 720) (setViewportSize W)));;
  add_script W "xpathUtils.js";;
  add_script W "process.js";;
  add_script W "utils.js";;
  add_script W "debug.js";;
  ret page_context.

End Launch.

(** *** Reading a launch *)
Module LaunchRuns.
Import Stagehand Launch.

Definition logged (lines : list LogLine) (h : Host) : Host :=
  set_object (set_logs (fun ls => ls ++ lines)) h.

Definition called (cs : list Call) (h : Host) : Host :=
  mkHost (object h) (context h) (calls h ++ cs).

Definition key_line : LogLine :=
  mkLog (Some "Init")
        "BROWSERBASE_API_KEY is required to use BROWSERBASE env. Defaulting to LOCAL." 1.

Definition project_line : LogLine :=
  mkLog (Some "Init")
        "BROWSERBASE_PROJECT_ID is required for some Browserbase features that may not work without it."
        1.

Definition creating_line : LogLine :=
  mkLog (Some "Init") "Creating new Browserbase session..." 1.

Definition resuming_line : LogLine :=
  mkLog (Some "Init") "Resuming existing Browserbase session..." 1.

Definition failed_resume_line (id : string) (e : Error) : LogLine :=
  mkLog (Some "Init") ("Failed to resume session " +:+ id +:+ ": " +:+ err_message e) 1.

(** The lines [getBrowser] logs before it branches on the environment. *)
Definition preamble (apiKey projectId : option string) : list LogLine :=
  (if truthy apiKey then [] else [key_line])
  ++ (if truthy projectId then [] else [project_line]).

(** A call to the Browserbase service or to a remote browser. *)
Definition remote (c : Call) : bool :=
  match c with
  | SessionsRetrieve _ _ | SessionsCreate _ _ | ConnectOverCDP _ | SessionsDebug _ _ => true
  | _ => false
  end.

(** Every call of the computation satisfies [P]. *)
Definition makes {A} (P : Call -> Prop) (m : Async Host A) : Prop :=
  forall h h' o,
    m h = Some (h', o) -> exists cs, calls h' = calls h ++ cs /\ Forall P cs.

(** The computation changes the [Stagehand] object in its log only. *)
Definition only_logs {A} (m : Async Host A) : Prop :=
  forall h h' o,
    m h = Some (h', o) ->
    exists lines, object h' = set_logs (fun ls => ls ++ lines) (object h).

(** The outcome of the status check of a session that is to be resumed. *)
Definition status_check (W : Platform) (h : list Call) (apiKey id : string)
  : Outcome unit :=
  match sessions_retrieve W h apiKey id with
  | Resolved status =>
      if string_eqb status "RUNNING" then Resolved tt
      else Rejected (not_running id status)
  | Rejected e => Rejected e
  end.

(** What a resolving computation does to the host. *)
Definition moves {A} (m : Async Host A) (R : Host -> A -> Host -> Prop) : Prop :=
  forall h h' a, m h = Some (h', Resolved a) -> R h a h'.

End LaunchRuns.

(** * Mirroring the log into the page (lib/index.ts)

    [log] is synchronous and starts [_run_browserbase_log_processing_cycle]
    without awaiting it, so calls to [log] interleave with the cycle
    wherever the cycle awaits.  The object is a state machine here; the
    actions are the calls to [log] and the moments at which the suspended
    cycle goes on. *)
Module LogMirror.

Record Entry := mkEntry {
  e_category : option string;
  e_message : string;
  e_level : nat;
  e_id : string
}.

(** [logObj.level || 1] *)
Definition or_one (level : option nat) : nat :=
  match level with
  | Some 0 | None => 1
  | Some l => l
  end.

(** Where the running cycle is suspended. *)
Inductive Task : Type :=
| InFlight (e : Entry) (rest : list Entry)  (* [page.evaluate] for [e] has not settled *)
| Returned (rest : list Entry).             (* [_log_to_browserbase] is done, the loop
                                               has not gone on yet *)

Record Mirror := mkMirror {
  page : bool;                 (* [this.page] is set *)
  verbose : nat;
  externalLogger : bool;       (* a logger was passed to the constructor *)
  received : list (option string * string * nat);   (* what it was called with *)
  console : list string;       (* [console.log] of this process *)
  pending_logs_to_send_to_browserbase : list Entry;
  is_processing_browserbase_logs : bool;
  task : option Task;
  evaluated : list Entry       (* the entries handed to [page.evaluate] *)
}.

Definition set_task (t : option Task) (m : Mirror) : Mirror :=
  mkMirror (page m) (verbose m) (externalLogger m) (received m) (console m)
           (pending_logs_to_send_to_browserbase m) (is_processing_browserbase_logs m)
           t (evaluated m).

Definition set_processing (b : bool) (m : Mirror) : Mirror :=
  mkMirror (page m) (verbose m) (externalLogger m) (received m) (console m)
           (pending_logs_to_send_to_browserbase m) b (task m) (evaluated m).

Definition set_pending (f : list Entry -> list Entry) (m : Mirror) : Mirror :=
  mkMirror (page m) (verbose m) (externalLogger m) (received m) (console m)
           (f (pending_logs_to_send_to_browserbase m))
           (is_processing_browserbase_logs m) (task m) (evaluated m).

Definition set_page (b : bool) (m : Mirror) : Mirror :=
  mkMirror b (verbose m) (externalLogger m) (received m) (console m)
           (pending_logs_to_send_to_browserbase m) (is_processing_browserbase_logs m)
           (task m) (evaluated m).

Definition evaluate (e : Entry) (m : Mirror) : Mirror :=
  mkMirror (page m) (verbose m) (externalLogger m) (received m) (console m)
           (pending_logs_to_send_to_browserbase m) (is_processing_browserbase_logs m)
           (task m) (evaluated m ++ [e]).

Definition normal_logging (category : option string) (message : string) (level : nat)
           (m : Mirror) : Mirror :=
  if externalLogger m
  then mkMirror (page m) (verbose m) (externalLogger m)
                (received m ++ [(category, message, level)]) (console m)
                (pending_logs_to_send_to_browserbase m)
                (is_processing_browserbase_logs m) (task m) (evaluated m)
  else mkMirror (page m) (verbose m) (externalLogger m) (received m)
                (console m ++ ["[stagehand"
                               +:+ match category with
                                   | Some EmptyString | None => ""
                                   | Some c => ":" +:+ c
                                   end
                               +:+ "] " +:+ message])
                (pending_logs_to_send_to_browserbase m)
                (is_processing_browserbase_logs m) (task m) (evaluated m).

(** [_log_to_browserbase(logObj)] up to the point where it awaits or
    returns; [rest] is what the loop of the cycle still has to do.  The
    entries come from [log], which has set their level already, so that
    setting it again changes nothing. *)
Definition _log_to_browserbase (e : Entry) (rest : list Entry) (m : Mirror) : Mirror :=
  let level := or_one (Some (e_level e)) in
  if negb (page m) then set_task (Some (Returned rest)) m
  else if (level <=? verbose m)%nat
       then set_task (Some (InFlight e rest)) (evaluate e m)
       else set_task (Some (Returned rest)) m.

(** The loop of the cycle over its copy of the queue. *)
Definition continue_cycle (rest : list Entry) (m : Mirror) : Mirror :=
  match rest with
  | [] => set_processing false (set_task None m)
  | e :: rest' => _log_to_browserbase e rest' m
  end.

Definition _run_browserbase_log_processing_cycle (m : Mirror) : Mirror :=
  if is_processing_browserbase_logs m then m
  else continue_cycle (pending_logs_to_send_to_browserbase m) (set_processing true m).

(** [log]; [id] is what [Math.random().toString(36).substring(2, 15)]
    gives. *)
Definition log (category : option string) (message : string) (level : option nat)
           (id : string) (m : Mirror) : Mirror :=
  let level := or_one level in
  _run_browserbase_log_processing_cycle
    (set_pending (fun q => q ++ [mkEntry category message level id])
                 (normal_logging category message level m)).

(** The [.then] of [page.evaluate]: drop the entries with the id sent. *)
Definition delivered (e : Entry) (m : Mirror) : Mirror :=
  set_pending (List.filter (fun x => negb (string_eqb (e_id x) (e_id e)))) m.

Inductive Action : Type :=
| Log (category : option string) (message : string) (level : option nat) (id : string)
| Settle (ok : bool)        (* the [page.evaluate] in flight fulfils or rejects *)
| Resume                    (* the cycle goes on after [_log_to_browserbase] *)
| SetPage (attached : bool).  (* [this.page] is assigned *)

Definition step (a : Action) (m : Mirror) : Mirror :=
  match a with
  | Log category message level id => log category message level id m
  | Settle ok =>
      match task m with
      | Some (InFlight e rest) =>
          set_task (Some (Returned rest)) (if ok then delivered e m else m)
      | _ => m
      end
  | Resume =>
      match task m with
      | Some (Returned rest) => continue_cycle rest m
      | _ => m
      end
  | SetPage attached => set_page attached m
  end.

Definition run (actions : list Action) (m : Mirror) : Mirror :=
  List.fold_left (fun m a => step a m) actions m.

(** The object as the constructor leaves it. *)
Definition constructed (verbosity : option nat) (logger : bool) : Mirror :=
  mkMirror false (nullish verbosity 0) logger [] [] [] false None [].

(** *** Reading a run *)

(** The entries the calls to [log] in a run push. *)
Definition pushed (actions : list Action) : list Entry :=
  omap (fun a => match a with
                 | Log category message level id =>
                     Some (mkEntry category message (or_one level) id)
                 | _ => None
                 end) actions.

Definition is_log (a : Action) : bool :=
  match a with Log _ _ _ _ => true | _ => false end.

(** What the running cycle still has in hand. *)
Definition work (m : Mirror) : list Entry :=
  match task m with
  | Some (InFlight e rest) => e :: rest
  | Some (Returned rest) => rest
  | None => []
  end.

(** No cycle is running. *)
Definition idle (m : Mirror) : Prop :=
  is_processing_browserbase_logs m = false /\ task m = None.

(** The entry passes the verbosity filter. *)
Definition sendable (v : nat) (e : Entry) : Prop := (1 <= e_level e <= v)%nat.

(** One delivery: the page accepts the entry and the cycle goes on. *)
Definition deliveries (n : nat) : list Action :=
  List.concat (List.repeat [Settle true; Resume] n).

(** The cycle is not waiting for the page. *)
Definition not_in_flight (m : Mirror) : Prop :=
  match task m with Some (InFlight _ _) => False | _ => True end.

(** While a cycle works off [W0]: it has nothing else in hand, the entry
    [e] is still in the queue, and what went to the page since [E0] came
    from [W0]. *)
Definition stays (e : Entry) (W0 E0 : list Entry) (s : Mirror) : Prop :=
  incl (work s) W0
  /\ In e (pending_logs_to_send_to_browserbase s)
  /\ exists sent, evaluated s = E0 ++ sent /\ incl sent W0.

End LogMirror.

(** ** Objects that log *)
Module LogMirrorExamples.
Import LogMirror.

(** A verbose object with a page, one line on its way to the page. *)
Definition sending : Mirror :=
  run [SetPage true; Log (Some "act") "clicking" None "k3f9"]
      (constructed (Some 1) false).

(** A verbose object with a page and nothing to do. *)
Definition ready : Mirror := run [SetPage true] (constructed (Some 2) true).

End LogMirrorExamples.
Module AnthropicExamples.
Import AnthropicClient.

Definition text_only : ProviderResponse :=
  mkResponse "msg_1" "claude-3-5-sonnet-20240620"
             [TextBlock "I cannot see it."] (Some "end_turn") 10 5.

Definition with_tool : ProviderResponse :=
  mkResponse "msg_2" "claude-3-5-sonnet-20240620"
             [TextBlock "Here."; ToolUseBlock "tu_1" "print_extracted_data" (JObj [("title", JStr "Home")])]
             (Some "tool_use") 10 5.

Definition silent_client : Client :=
  mkClient false "req1" (fun _ => "k") (fun _ _ => Resolved text_only) (fun _ => 1700000000000%Z).

(** Answers with a tool-use block from the third request on. *)
Definition third_time_client : Client :=
  mkClient false "req1" (fun _ => "k")
           (fun hist _ => Resolved (if (length hist <? 2)%nat then text_only else with_tool))
           (fun _ => 1700000000000%Z).

Definition title_model : ResponseModel :=
  mkResponseModel "Extraction"
    (mkJsonSchema None (mkSchemaObject (Some (JObj [("title", JObj [("type", JStr "string")])]))
                                       (Some (JArr [JStr "title"])))).

Definition o_extract : ChatCompletionOptions :=
  mkOptions "claude-3-5-sonnet-20240620"
            [mkMessage "system" (Text "You extract data.");
             mkMessage "user" (Text "Extract the title.")]
            (Some (Q2Qc (1 # 10))) None (Some title_model) None None None.

Definition o_vision : ChatCompletionOptions :=
  mkOptions "claude-3-5-sonnet-20240620"
            [mkMessage "system" (Text "You find elements.");
             mkMessage "user" (Text "Find the search button.")]
            (Some (Q2Qc (1 # 10)))
            (Some (mkImage [77; 97; 110]%N (Some "annotated screenshot")))
            None None None None.

Definition st0 : State := mkState [] [] [] [].
End AnthropicExamples.

(** * Example pages and models for [Stagehand] *)
Module StagehandExamples.
Import Stagehand.

Definition quiet_page : PageBehaviour :=
  mkBehaviour (FulfilsAt 120) (FulfilsAt 40) (FulfilsAt 45).

Definition stuck_page : PageBehaviour := mkBehaviour Never Never Never.

Definition crashing_page : PageBehaviour :=
  mkBehaviour Never (RejectsAt 12 (mkError "Target closed" "at Page.waitForLoadState"))
              (FulfilsAt 30).

Definition button_map : gmap Z (list string) :=
  {[ 7%Z := ["//button[1]"; "//html/body/button"] ]}.

(** The next chunk of a two-chunk page that has not been seen. *)
Definition next_unseen (seen : list Z) : Z :=
  if bool_decide (0%Z ∈ seen) then 1%Z else 0%Z.

Definition two_chunk_dom (seen : list Z) : DomResult :=
  mkDom ("chunk " +:+ pretty (next_unseen seen)) button_map (next_unseen seen) [0; 1]%Z.

Definition title_schema : AnthropicClient.JsonSchema :=
  AnthropicClient.schema AnthropicExamples.title_model.

(** Extraction: the first chunk gives the title, the second completes. *)
Definition staged_extraction (r : ExtractRequest) : Inference ExtractionResponse :=
  mkInference
    (Resolved (if (ex_chunksSeen r =? 0)%nat
               then mkExtraction [("title", JStr "Home")] "found title" false
               else mkExtraction [("title", JStr "Home"); ("price", JNum 12)] "done" true))
    [("extract-" +:+ pretty (ex_chunksSeen r), JStr "cached answer")].

(** Extraction that breaks on the second chunk. *)
Definition failing_extraction (r : ExtractRequest) : Inference ExtractionResponse :=
  mkInference
    (if (ex_chunksSeen r =? 0)%nat
     then Resolved (mkExtraction [("title", JStr "Home")] "found title" false)
     else Rejected (mkError "Connection reset" "at extract"))
    [("extract-" +:+ pretty (ex_chunksSeen r), JStr "cached answer")].

Definition one_button : Inference ObservationResponse :=
  mkInference (Resolved (mkObservation [mkElement 7 "the search button"]))
              [("observe-0", JStr "cached answer")].

(** The model names an element the snapshot does not have. *)
Definition stale_button : Inference ObservationResponse :=
  mkInference (Resolved (mkObservation [mkElement 7 "the search button";
                                        mkElement 99 "the login link"]))
              [("observe-0", JStr "cached answer")].

Definition vision_models : list string :=
  ["gpt-4o"; "gpt-4o-mini"; "claude-3-5-sonnet-latest";
   "claude-3-5-sonnet-20240620"; "gpt-4o-2024-08-06"].

Definition world (page : PageBehaviour)
           (extraction : ExtractRequest -> Inference ExtractionResponse)
           (observation : Inference ObservationResponse)
           (handler : Outcome ActResult) : World :=
  {| random_id := fun h => "r" +:+ pretty (length h);
     settle := fun _ => page;
     processDom := fun _ seen => Resolved (two_chunk_dom seen);
     processAllOfDom := fun _ => Resolved (mkDom "whole page" button_map 0 [0]%Z);
     getAnnotatedScreenshot := fun _ _ => Resolved [255; 216; 255]%N;
     inference_extract := fun _ r => extraction r;
     inference_observe := fun _ _ => observation;
     actHandler_act := fun _ _ => handler;
     modelsWithVision := vision_models;
     generateId := fun s => "id:" +:+ s |}.

Definition clicked : Outcome ActResult :=
  Resolved (mkActResult true "Action completed successfully" "click the search button").

Definition handler_broke : Outcome ActResult :=
  Rejected (mkError "locator.click: Timeout 30000ms exceeded" "at StagehandActHandler.act").

(** Extraction that never reports completion. *)
Definition patient_extraction (r : ExtractRequest) : Inference ExtractionResponse :=
  mkInference (Resolved (mkExtraction [("title", JStr "Home")] "still reading" false))
              [("extract-" +:+ pretty (ex_chunksSeen r), JStr "cached answer")].

Definition w_ok : World := world quiet_page staged_extraction one_button clicked.
Definition w_stuck : World := world stuck_page staged_extraction one_button clicked.
Definition w_crash : World := world crashing_page staged_extraction one_button clicked.
Definition w_extract_fails : World := world quiet_page failing_extraction one_button clicked.
Definition w_stale : World := world quiet_page staged_extraction stale_button clicked.
Definition w_patient : World := world quiet_page patient_extraction one_button clicked.
Definition w_act_fails : World := world quiet_page staged_extraction one_button handler_broke.

(** A session after [init], with or without caching. *)
Definition session (caching : bool) (model : string) : State :=
  {| page := true;
     defaultModelName := model;
     domSettleTimeoutMs := 30000;
     debugDom := false;
     enableCaching := caching;
     variables := ∅;
     observations := ∅;
     logs := [];
     cache := [];
     history := [] |}.

Definition extract_title : ExtractOptions :=
  mkExtractOptions "extract the title and the price" title_schema None None.


Definition click_search : ActParams :=
  mkAct "click the search button" None None ∅ None.

(** A cached session whose extraction breaks on the second chunk. *)
Definition broken_extraction : option (State * Outcome Content) :=
  extract 5 w_extract_fails extract_title (session true "gpt-4o").

Definition broken_observation : option (State * Outcome (list ObserveResult)) :=
  observe w_stale None (session true "gpt-4o").
End StagehandExamples.

(** * Further example clients *)
Module AnthropicMoreExamples.
Import AnthropicClient AnthropicExamples.

(** A fingerprint that tells the retry counters and the number of messages
    apart. *)
Definition toy_hash (k : CacheOptions) : string :=
  co_model k +:+ "/" +:+ pretty (length (co_messages k))
  +:+ "/" +:+ pretty (nullish (co_retries k) 0%Z).

(** Caching on; answers in prose first, with the tool from the second
    request on. *)
Definition second_time_client : Client :=
  mkClient true "req1" toy_hash
           (fun hist _ => Resolved (if (length hist <? 1)%nat then text_only else with_tool))
           (fun _ => 1700000000000%Z).

(** Caching on; always answers with the tool. *)
Definition caching_client : Client :=
  mkClient true "req1" toy_hash (fun _ _ => Resolved with_tool)
           (fun _ => 1700000000000%Z).

(** Caching on; only ever answers in prose. *)
Definition prose_client : Client :=
  mkClient true "req1" toy_hash (fun _ _ => Resolved text_only)
           (fun _ => 1700000000000%Z).

(** The provider is unreachable. *)
Definition offline_client : Client :=
  mkClient true "req1" toy_hash
           (fun _ _ => Rejected (mkError "Connection error." "at Anthropic.request"))
           (fun _ => 1700000000000%Z).

Definition warm : State :=
  mkState [LLMCache.mkEntry (toy_hash (cacheOptions o_extract))
                            (Structured (JObj [("title", JStr "Cached")]))
                            [Some "req0"]]
          [] [] [].

(** A cache that holds [null] under the key of [o_extract]. *)
Definition stale : State :=
  mkState [LLMCache.mkEntry (toy_hash (cacheOptions o_extract)) (Structured JNull)
                            [Some "req0"]]
          [] [] [].

(** The tool is used, with [null] for its input. *)
Definition with_null_tool : ProviderResponse :=
  mkResponse "msg_3" "claude-3-5-sonnet-20240620"
             [ToolUseBlock "tu_2" "print_extracted_data" JNull]
             (Some "tool_use") 10 5.

(** Caching on; always answers with the tool and the input [null]. *)
Definition null_client : Client :=
  mkClient true "req1" toy_hash (fun _ _ => Resolved with_null_tool)
           (fun _ => 1700000000000%Z).

Definition o_vision_extract : ChatCompletionOptions :=
  mkOptions "claude-3-5-sonnet-20240620"
            [mkMessage "system" (Text "You find elements.");
             mkMessage "user" (Text "Find the search button.")]
            (Some (Q2Qc (1 # 10)))
            (Some (mkImage [77; 97; 110]%N (Some "annotated screenshot")))
            (Some title_model) None None None.

Definition search_tool : Tool :=
  Function (mkFunctionTool "search" "Searches the page."
                           (JObj [("query", JObj [("type", JStr "string")])])
                           (JArr [JStr "query"])).

Definition o_tools : ChatCompletionOptions :=
  mkOptions "claude-3-5-sonnet-20240620"
            [mkMessage "system" (Text "First."); mkMessage "user" (Text "Hello.");
             mkMessage "system" (Text "Second."); mkMessage "assistant" (Text "Hi.")]
            None None (Some title_model) (Some [search_tool]) (Some 0%Z) None.

(** An extraction whose key the cache [warm] does not hold. *)
Definition o_fresh : ChatCompletionOptions :=
  mkOptions "claude-3-5-sonnet-20240620"
            [mkMessage "user" (Text "Extract the title.")]
            None None (Some title_model) None None None.
End AnthropicMoreExamples.

(** * Further example pages *)
Module StagehandMoreExamples.
Import Stagehand StagehandExamples.

(** A page that reports no chunks. *)
Definition empty_dom : DomResult := mkDom "" ∅ 0 [].

Definition w_empty : World :=
  {| random_id := fun h => "r" +:+ pretty (length h);
     settle := fun _ => quiet_page;
     processDom := fun _ _ => Resolved empty_dom;
     processAllOfDom := fun _ => Resolved empty_dom;
     getAnnotatedScreenshot := fun _ _ => Resolved [255; 216; 255]%N;
     inference_extract := fun _ r => patient_extraction r;
     inference_observe := fun _ _ => one_button;
     actHandler_act := fun _ _ => clicked;
     modelsWithVision := vision_models;
     generateId := fun s => "id:" +:+ s |}.

(** A model that reports completion at once. *)
Definition eager_extraction (r : ExtractRequest) : Inference ExtractionResponse :=
  mkInference (Resolved (mkExtraction [("title", JStr "Home")] "done" true)) [].

Definition w_eager : World := world quiet_page eager_extraction one_button clicked.

(** A page whose chunker breaks. *)
Definition w_no_chunker : World :=
  {| random_id := fun h => "r" +:+ pretty (length h);
     settle := fun _ => quiet_page;
     processDom := fun _ _ => Rejected (mkError "window.processDom is not a function"
                                               "at Page.evaluate");
     processAllOfDom := fun _ => Rejected (mkError "window.processAllOfDom is not a function"
                                                   "at Page.evaluate");
     getAnnotatedScreenshot := fun _ _ => Resolved [255; 216; 255]%N;
     inference_extract := fun _ r => staged_extraction r;
     inference_observe := fun _ _ => one_button;
     actHandler_act := fun _ _ => clicked;
     modelsWithVision := vision_models;
     generateId := fun s => "id:" +:+ s |}.

(** A session that draws the debug overlay. *)
Definition debugging (caching : bool) : State :=
  {| page := true;
     defaultModelName := "gpt-4o";
     domSettleTimeoutMs := 30000;
     debugDom := true;
     enableCaching := caching;
     variables := {[ "user" := "alice" ]};
     observations := ∅;
     logs := [];
     cache := [];
     history := [] |}.

(** The model cannot be reached. *)
Definition model_down (r : ExtractRequest) : Inference ExtractionResponse :=
  mkInference (Rejected (mkError "Connection reset" "at extract")) [].

Definition w_model_down : World := world quiet_page model_down one_button clicked.

Definition first_round : ExtractParams :=
  extract_params extract_title "r0".
End StagehandMoreExamples.

(** ** A platform to launch on *)
Module LaunchExamples.
Import Stagehand Launch.

(** A platform on which everything works; the one session that can be
    resumed is [sess-1]. *)
Definition cloud : Platform :=
  {| sessions_retrieve := fun _ _ id =>
       Resolved (if string_eqb id "sess-1" then "RUNNING" else "COMPLETED");
     sessions_create := fun _ _ _ => Resolved (mkSession "sess-2" "wss://connect.example/sess-2");
     connectOverCDP := fun _ _ => Resolved (mkBrowser [mkContext ["page-1"]]);
     sessions_debug := fun _ _ id => Resolved ("https://debug.example/" +:+ id);
     mkdtempSync := fun _ prefix => Resolved (prefix +:+ "a1b2c3");
     mkdirSync := fun _ _ => Resolved tt;
     writeFileSync := fun _ _ _ => Resolved tt;
     cwd := "/srv/app";
     launchPersistentContext := fun _ _ _ => Resolved (mkContext ["page-0"]);
     addInitScript := fun _ => Resolved tt;
     waitForLoadState := fun _ => Resolved tt;
     setViewportSize := fun _ => Resolved tt;
     readFileSync := fun _ path => Resolved ("// " +:+ path);
     build_path := fun file => "/srv/app/dist/dom/build/" +:+ file;
     originalGoto := fun _ url => Resolved (JStr url) |}.

(** The same platform with the Browserbase service unreachable. *)
Definition offline : Platform :=
  {| sessions_retrieve := fun _ _ _ => Rejected (mkError "Connection error." "at Browserbase");
     sessions_create := fun _ _ _ => Rejected (mkError "Connection error." "at Browserbase");
     connectOverCDP := fun _ _ => Rejected (mkError "connect ECONNREFUSED" "at connectOverCDP");
     sessions_debug := fun _ _ _ => Rejected (mkError "Connection error." "at Browserbase");
     mkdtempSync := mkdtempSync cloud;
     mkdirSync := mkdirSync cloud;
     writeFileSync := writeFileSync cloud;
     cwd := cwd cloud;
     launchPersistentContext := launchPersistentContext cloud;
     addInitScript := addInitScript cloud;
     waitForLoadState := waitForLoadState cloud;
     setViewportSize := setViewportSize cloud;
     readFileSync := readFileSync cloud;
     build_path := build_path cloud;
     originalGoto := fun _ _ => Rejected (mkError "net::ERR_NAME_NOT_RESOLVED" "at Page.goto") |}.

Definition options (e : Env) (key project resume : option string) : Options :=
  {| opt_env := e;
     opt_apiKey := key;
     opt_projectId := project;
     opt_debugDom := None;
     opt_headless := None;
     opt_browserBaseSessionCreateParams := ∅;
     opt_domSettleTimeoutMs := Some 5000%Z;
     opt_enableCaching := None;
     opt_browserbaseResumeSessionID := resume |}.

Definition no_environ : Environ := mkEnviron None None.

(** The object as the constructor leaves it. *)
Definition built : Host := snd (constructor (options LOCAL None None None) no_environ []).

(** The object with a page attached. *)
Definition attached : Host :=
  mkHost (StagehandExamples.session false "gpt-4o") (Some (mkContext ["page-0"])) [].

End LaunchExamples.
(** * Sanity checks of the auxiliary functions *)

Example base64_Man : base64 [77; 97; 110]%N = "TWFu".
Proof. reflexivity. Qed.

Example base64_Ma : base64 [77; 97]%N = "TWE=".
Proof. reflexivity. Qed.



Example JSON_stringify_object :
  JSON_stringify (JObj [("title", JStr ("a" +:+ dquote));
                        ("n", JArr [JNum 1; JNull; JBool true])])
  = "{" +:+ dquote +:+ "title" +:+ dquote +:+ ":" +:+ dquote +:+ "a\" +:+ dquote
    +:+ dquote +:+ "," +:+ dquote +:+ "n" +:+ dquote +:+ ":[1,null,true]}".
Proof. reflexivity. Qed.

(** * The examples at work *)

Example third_time_lucky :
  option_map (fun r => (snd r, length (AnthropicClient.sent (fst r)),
                        AnthropicClient.logged_retries (fst r)))
             (AnthropicClient.createChatCompletion
                10 AnthropicExamples.third_time_client AnthropicExamples.o_extract
                AnthropicExamples.st0)
  = Some (Resolved (AnthropicClient.Structured (JObj [("title", JStr "Home")])),
          3, [None; Some 1%Z; Some 2%Z]).
Proof. reflexivity. Qed.

Example settle_timeout_is_logged :
  option_map (fun r => (snd r, List.map Stagehand.message (Stagehand.logs (fst r))))
             (Stagehand._waitForSettledDom
                StagehandExamples.w_stuck (Some 500%Z)
                (StagehandExamples.session false "gpt-4o"))
  = Some (Resolved tt, ["DOM settle timeout of 500ms exceeded, continuing anyway"]).
Proof. reflexivity. Qed.

Example settle_error_is_logged :
  option_map (fun r => (snd r, List.map Stagehand.message (Stagehand.logs (fst r))))
             (Stagehand._waitForSettledDom
                StagehandExamples.w_crash None
                (StagehandExamples.session false "gpt-4o"))
  = Some (Resolved tt,
          ["Error in waitForSettledDom: Target closed" +:+ nl
           +:+ "Trace: at Page.waitForLoadState"]).
Proof. reflexivity. Qed.

Example act_reports_handler_failure :
  option_map snd (Stagehand.act StagehandExamples.w_act_fails
                                StagehandExamples.click_search
                                (StagehandExamples.session false "gpt-4o"))
  = Some (Resolved
            (Stagehand.mkActResult
               false
               "Internal error: Error acting: locator.click: Timeout 30000ms exceeded"
               "click the search button")).
Proof. reflexivity. Qed.

Example act_passes_handler_result :
  option_map snd (Stagehand.act StagehandExamples.w_ok
                                StagehandExamples.click_search
                                (StagehandExamples.session false "gpt-4o"))
  = Some StagehandExamples.clicked.
Proof. reflexivity. Qed.

Example extract_two_chunks :
  option_map (fun r => (snd r, List.map Stagehand.ex_chunksSeen
                                        (Stagehand.extract_calls
                                           (Stagehand.history (fst r)))))
             (Stagehand.extract 5 StagehandExamples.w_ok
                                StagehandExamples.extract_title
                                (StagehandExamples.session false "gpt-4o"))
  = Some (Resolved [("title", JStr "Home"); ("price", JNum 12)], [0; 1]).
Proof. reflexivity. Qed.

Example observe_one_button :
  option_map snd (Stagehand.observe StagehandExamples.w_ok None
                                    (StagehandExamples.session false "gpt-4o"))
  = Some (Resolved [Stagehand.mkObserveResult "the search button" "xpath=//button[1]"]).
Proof. reflexivity. Qed.

(** * Properties of [AnthropicClient.createChatCompletion] *)
Module AnthropicClientProofs.
Import AnthropicClient AnthropicClientRuns.

Ltac run_async :=
  unfold logger, cache_get, cache_set, messages_create, assign_messages, when in *;
  unfold bind, catch, ret, throw, modify, gets, await in *;
  cbn [fst snd cache logged sent assigned] in *.

(** ** The content of a response *)


Lemma find_tool_use_without response :
  without_tool_use response ->
  find_tool_use (resp_content response) = None.
Proof.
  unfold without_tool_use. intros H.
  induction H as [|b blocks Hb _ IH]; [reflexivity|].
  destruct b; [exact IH|discriminate Hb].
Qed.

Lemma find_tool_use_cases response :
  match find_tool_use (resp_content response) with
  | Some input => first_tool_use response input
  | None => without_tool_use response
  end.
Proof.
  unfold first_tool_use, without_tool_use.
  induction (resp_content response) as [|b blocks IH]; [constructor|].
  destruct b as [t|id name input]; cbn.
  - destruct (find_tool_use blocks) as [input|].
    + destruct IH as (before & id & name & rest & -> & Hbefore).
      exists (TextBlock t :: before), id, name, rest.
      split; [reflexivity|]. constructor; [reflexivity|exact Hbefore].
    + constructor; [reflexivity|exact IH].
  - exists [], id, name, blocks. split; [reflexivity|constructor].
Qed.

(** ** Reading the cache *)

Lemma lookup_touch key key' requestId (c : LLMCache.t Completion) :
  LLMCache.lookup key (LLMCache.touch key' requestId c) = LLMCache.lookup key c.
Proof.
  unfold LLMCache.lookup, LLMCache.touch.
  induction c as [|e c IH]; [reflexivity|].
  cbn [List.map List.find].
  destruct (string_eqb (LLMCache.fingerprint e) key'); cbn [LLMCache.fingerprint];
    destruct (string_eqb (LLMCache.fingerprint e) key); cbn; try reflexivity; exact IH.
Qed.

Lemma lookup_after_read key c options st :
  LLMCache.lookup key (cache_after_read c options st) = LLMCache.lookup key (cache st).
Proof.
  unfold cache_after_read, LLMCache.get. destruct (enableCaching c); [|reflexivity].
  destruct (LLMCache.lookup (hash c (cacheOptions options)) (cache st)); cbn [snd];
    [apply lookup_touch|reflexivity].
Qed.

Lemma cache_after_read_miss c options st :
  cached_answer c options st = None ->
  cache_after_read c options st = cache st.
Proof.
  unfold cached_answer, cache_after_read, LLMCache.get.
  destruct (enableCaching c); [|reflexivity]. intros ->. reflexivity.
Qed.

Lemma cache_after_read_cold c options st :
  cold c st -> cache_after_read c options st = cache st.
Proof.
  intros Hcold. apply cache_after_read_miss. unfold cached_answer.
  destruct (enableCaching c) eqn:E; [apply (Hcold E)|reflexivity].
Qed.


Lemma cold_usable c options st : cold c st -> usable_answer c options st = None.
Proof.
  intros Hcold. unfold usable_answer, cached_answer.
  destruct (enableCaching c) eqn:E; [rewrite (Hcold E)|]; reflexivity.
Qed.

(** ** One call *)

(** The cache is asked: what it answers and what it is afterwards. *)
Lemma read_run c options s :
  (if enableCaching c then cache_get c (cacheOptions options) else ret None) s
  = Some (mkState (cache_after_read c options s) (logged s) (sent s) (assigned s),
          Resolved (cached_answer c options s)).
Proof.
  unfold cache_get, cache_after_read, cached_answer, LLMCache.get, ret.
  destruct (enableCaching c); [|destruct s; reflexivity].
  destruct (LLMCache.lookup (hash c (cacheOptions options)) (cache s)); reflexivity.
Qed.

(** One call, whatever the cache holds: it is answered from the cache, or
    it goes to the provider with the request built from the messages as
    they were on entry. *)
Lemma attempt_cases fuel c options st :
  createChatCompletion (S fuel) c options st =
  match usable_answer c options st with
  | Some v => Some (after_hit c options st, Resolved v)
  | None => on_miss fuel c options st
  end.
Proof.
  assert (Hreq : forall ms,
             request (mkOptions (model options) ms (temperature options) (image options)
                                (response_model options) (tools options)
                                (max_tokens options) (retries options))
                     (List.find is_system (messages options))
                     (List.filter (fun msg => negb (is_system msg)) (messages options))
             = providerRequest options) by reflexivity.
  cbn [createChatCompletion]. cbv zeta.
  unfold bind at 1. unfold logger at 1, modify at 1.
  unfold bind at 1. rewrite read_run. cbn [cache logged sent assigned].
  fold (usable_answer c options st).
  assert (Hread : cache_after_read c options
                    (mkState (cache st)
                             (logged st ++ [CreatingChatCompletion (without_image options)])
                             (sent st) (assigned st))
                  = cache_after_read c options st) by reflexivity.
  rewrite Hread. clear Hread.
  change (cached_answer c options
            (mkState (cache st)
                     (logged st ++ [CreatingChatCompletion (without_image options)])
                     (sent st) (assigned st)))
    with (cached_answer c options st).
  fold (usable_answer c options st).
  destruct (usable_answer c options st) as [v|] eqn:Hu.
  - unfold after_hit. run_async.
    assert (Hc : cache_after_read c options st
                 = LLMCache.touch (hash c (cacheOptions options)) (Some (requestId c))
                                  (cache st)).
    { unfold usable_answer, cached_answer in Hu. unfold cache_after_read, LLMCache.get.
      destruct (enableCaching c); [|discriminate Hu].
      destruct (LLMCache.lookup (hash c (cacheOptions options)) (cache st));
        [reflexivity|discriminate Hu]. }
    rewrite Hc, <- app_assoc. reflexivity.
  - unfold on_miss, after_success, after_provider_error, after_attempt, retry_options,
           assigned_after, with_screenshot, with_messages, with_retries.
    generalize (cache_after_read c options st). intros cr.
    run_async.
    destruct (enableCaching c); cbn [fst snd cache logged sent assigned];
      (destruct (image options) as [img|] eqn:Hi;
       cbn [fst snd cache logged sent assigned response_model retries model messages
            temperature image tools max_tokens];
       [rewrite Hreq | fold (providerRequest options)]);
      (destruct (create c (sent st) (providerRequest options)) as [response|e];
       cbn [fst snd cache logged sent assigned];
       rewrite <- ?app_assoc, ?app_nil_r; cbn [app]; [|reflexivity]);
      (destruct (response_model options); cbn [fst snd cache logged sent assigned];
       [|reflexivity]);
      (destruct (find_tool_use (resp_content response));
       cbn [fst snd cache logged sent assigned]; [reflexivity|]);
      destruct (may_retry (retries options)); reflexivity.
Qed.

Lemma retry_options_response_model options :
  response_model (retry_options options) = response_model options.
Proof. unfold retry_options, with_screenshot. destruct (image options); reflexivity. Qed.

Lemma retry_options_retries options :
  retries (retry_options options) = Some (nullish (retries options) 0 + 1)%Z.
Proof. reflexivity. Qed.

Lemma cold_after_attempt c options response st :
  cold c st -> cold c (after_attempt c options response st).
Proof.
  intros H E key. unfold after_attempt. cbn [cache].
  rewrite lookup_after_read. exact (H E key).
Qed.


Lemma sent_after_attempt c options response st :
  sent (after_attempt c options response st) = sent st ++ [providerRequest options].
Proof. reflexivity. Qed.





(** The request is built from the messages the caller passed, whatever
    [options.image] holds. *)
Lemma providerRequest_messages options :
  req_messages (providerRequest options)
  = List.filter (fun m => negb (is_system m)) (messages options).
Proof.
  unfold providerRequest, request. cbn [req_messages].
  induction (List.filter _ (messages options)) as [|[r0 c0] l IHl];
    [reflexivity | cbn; f_equal; exact IHl].
Qed.

Lemma providerRequest_with_image options img :
  providerRequest (mkOptions (model options) (messages options) (temperature options)
                             img (response_model options) (tools options)
                             (max_tokens options) (retries options))
  = providerRequest options.
Proof. reflexivity. Qed.


Lemma silent_client_never_tool_use : never_tool_use AnthropicExamples.silent_client.
Proof.
  intros hist r. exists AnthropicExamples.text_only.
  split; [reflexivity|repeat constructor].
Defined.


Lemma st0_cold c : cold c AnthropicExamples.st0.
Proof. intros _ key. reflexivity. Defined.


(** C6, evaluated on a call with a screenshot attached: the request that
    reaches the provider holds the caller's text message only; the
    multimodal message was built but added to [options.messages] after
    [userMessages] had been taken from it. *)
Theorem createChatCompletion_image_not_sent :
  image AnthropicExamples.o_vision
  = Some (mkImage [77; 97; 110]%N (Some "annotated screenshot"))
  /\ exists st' r request,
    createChatCompletion 1 AnthropicExamples.silent_client
                         AnthropicExamples.o_vision AnthropicExamples.st0
    = Some (st', Resolved r)
    /\ sent st' = [request]
    /\ req_messages request = [mkMessage "user" (Text "Find the search button.")]
    /\ carries_image request = false.
Proof.
  split; [reflexivity|].
  eexists _, _, _. split; [lazy; reflexivity|].
  repeat split; reflexivity.
Qed.

(** The screenshot message is only ever seen by a retried call. *)
Example retry_carries_image :
  List.map carries_image
           (List.map providerRequest
              [AnthropicExamples.o_vision;
               retry_options AnthropicExamples.o_vision])
  = [false; true].
Proof. reflexivity. Qed.

(** The object handed to the cache as the key of a call is determined by
    seven fields of the options, the image as a whole and the retry
    counter among them: two calls hand over equal objects if and only if
    they agree on all seven; [max_tokens] takes no part.  The fingerprint
    the cache computes from the object is the cache's own. *)
Lemma cacheOptions_fields o1 o2 :
  cacheOptions o1 = cacheOptions o2
  <-> (model o1 = model o2
       /\ messages o1 = messages o2
       /\ temperature o1 = temperature o2
       /\ image o1 = image o2
       /\ response_model o1 = response_model o2
       /\ tools o1 = tools o2
       /\ retries o1 = retries o2).
Proof.
  unfold cacheOptions. split.
  - intros H. injection H. intuition.
  - intros (-> & -> & -> & -> & -> & -> & ->). reflexivity.
Qed.

(** A first call and its retry agree on the six fields the specification
    lists and hand different objects to the cache. *)
Lemma cacheOptions_not_only_listed_fields :
  ~ (forall o1 o2, agree_on_listed_fields o1 o2 -> cacheOptions o1 = cacheOptions o2).
Proof.
  intros H.
  specialize (H AnthropicExamples.o_extract
                (with_retries AnthropicExamples.o_extract (Some 1%Z))).
  assert (Hagree : agree_on_listed_fields AnthropicExamples.o_extract
                     (with_retries AnthropicExamples.o_extract (Some 1%Z))).
  { repeat split. }
  specialize (H Hagree). discriminate H.
Qed.
End AnthropicClientProofs.

(** * Properties of [Stagehand] *)
Module StagehandProofs.
Import Stagehand StagehandRuns.

Ltac run :=
  unfold logger, log, Math_random, external, on_page, when, index_cached,
         cleanRequestCache in *;
  unfold bind, catch, ret, throw, modify, gets, await in *;
  cbn [fst snd page defaultModelName domSettleTimeoutMs debugDom enableCaching
       variables observations logs cache history record set_logs set_cache
       set_variables set_observations] in *.

(** ** The DOM-settle wait *)

Lemma wait_run w timeoutMs st :
  _waitForSettledDom w timeoutMs st = Some (after_wait w timeoutMs st, Resolved tt).
Proof.
  unfold _waitForSettledDom, after_wait, settle_log. run.
  destruct st as [pg dm ds dd ec vs os ls ch h]; cbn.
  destruct pg; cbn.
  - destruct (race (settle w h) (nullish timeoutMs ds));
      unfold set_logs, record; cbn; rewrite ?app_nil_r; reflexivity.
  - reflexivity.
Qed.

Lemma after_wait_frame w timeoutMs st : frame st (after_wait w timeoutMs st).
Proof. unfold after_wait, frame. destruct (page st) eqn:E; cbn; rewrite ?E; auto. Qed.

Lemma after_wait_history w timeoutMs st :
  history (after_wait w timeoutMs st)
  = history st ++ (if page st
                   then [SettleWait (nullish timeoutMs (domSettleTimeoutMs st))]
                   else []).
Proof. unfold after_wait. destruct (page st); cbn; rewrite ?app_nil_r; reflexivity. Qed.

Lemma after_wait_logs w timeoutMs st :
  logs (after_wait w timeoutMs st) = logs st ++ settle_log w timeoutMs st.
Proof. unfold after_wait. destruct (page st); reflexivity. Qed.

Lemma after_wait_cache w timeoutMs st : cache (after_wait w timeoutMs st) = cache st.
Proof. unfold after_wait. destruct (page st); reflexivity. Qed.

(** C10. [_waitForSettledDom] resolves for every page and every timeout:
    when the timer wins it logs the timeout and resolves, when a raced
    page promise rejects (or no page is attached) the error is caught and
    logged, and whatever a caller sequences after the wait is run. *)
Theorem waitForSettledDom_never_rejects w timeoutMs st :
  _waitForSettledDom w timeoutMs st = Some (after_wait w timeoutMs st, Resolved tt)
  /\ (forall e, _waitForSettledDom w timeoutMs st
                <> Some (after_wait w timeoutMs st, Rejected e))
  /\ (let timeout := nullish timeoutMs (domSettleTimeoutMs st) in
      logs (after_wait w timeoutMs st)
      = logs st
        ++ if page st
           then match race (settle w (history st)) timeout with
                | TimedOut => [timeout_line timeout]
                | Fulfilled => []
                | Failed e => [settle_error_line e]
                end
           else [settle_error_line (TypeError_undefined "evaluate")])
  /\ (forall A (k : Async State A),
        bind (_waitForSettledDom w timeoutMs) (fun _ => k) st
        = k (after_wait w timeoutMs st)).
Proof.
  split; [apply wait_run|]. split; [|split].
  - intros e. rewrite wait_run. discriminate.
  - apply after_wait_logs.
  - intros A k. unfold bind. rewrite wait_run. reflexivity.
Qed.

(** ** [act] *)

(** C1. [act] never rejects: it resolves with what the handler resolved
    with, and when the handler's promise rejects with [e] it resolves with
    [success: false], the message built from [e.message], and the
    instruction it was given as [action]. *)
Theorem act_never_raises w p st :
  exists st' r,
    act w p st = Some (st', Resolved r)
    /\ let requestId := random_id w (history st) in
       match actHandler_act w (history st ++ [MathRandom]) (handler_params p requestId) with
       | Resolved r0 => r = r0
       | Rejected e =>
           r = {| success := false;
                  act_message := "Internal error: Error acting: " +:+ err_message e;
                  action := a_action p |}
       end.
Proof.
  unfold act. run.
  destruct (actHandler_act w (history st ++ [MathRandom])
              (handler_params p (random_id w (history st)))) as [r0|e] eqn:E;
    eexists _, _; (split; [reflexivity|]); cbn; reflexivity.
Qed.

(** ** What every operation leaves alone *)

Lemma frame_refl st : frame st st.
Proof. unfold frame. auto. Qed.

Lemma frame_trans st1 st2 st3 : frame st1 st2 -> frame st2 st3 -> frame st1 st3.
Proof. unfold frame. intuition congruence. Qed.

Lemma steady_ret {A} (a : A) : steady (ret a).
Proof.
  intros st st' o H. injection H as <- <-.
  split; [apply frame_refl | exists []; symmetry; apply app_nil_r].
Qed.

Lemma steady_await {A} (o : Outcome A) : steady (await o).
Proof.
  intros st st' o' H. injection H as <- <-.
  split; [apply frame_refl | exists []; symmetry; apply app_nil_r].
Qed.

Lemma steady_throw {A} (e : Error) : steady (throw (A := A) e).
Proof. apply (steady_await (Rejected e)). Qed.

Lemma steady_gets {A} (f : State -> A) : steady (gets f).
Proof.
  intros st st' o H. injection H as <- <-.
  split; [apply frame_refl | exists []; symmetry; apply app_nil_r].
Qed.

Lemma steady_bind {A B} (m : Async State A) (k : A -> Async State B) :
  steady m -> (forall a, steady (k a)) -> steady (bind m k).
Proof.
  intros Hm Hk st st' o H. unfold bind in H.
  destruct (m st) as [[s1 [a|e]]|] eqn:E; [| |discriminate].
  - destruct (Hm _ _ _ E) as (F1 & evs1 & H1).
    destruct (Hk a _ _ _ H) as (F2 & evs2 & H2).
    split; [eapply frame_trans; eassumption|].
    exists (evs1 ++ evs2). rewrite H2, H1, app_assoc. reflexivity.
  - injection H as <- <-. apply (Hm _ _ _ E).
Qed.

Lemma steady_catch {A} (m : Async State A) (h : Error -> Async State A) :
  steady m -> (forall e, steady (h e)) -> steady (catch m h).
Proof.
  intros Hm Hh st st' o H. unfold catch in H.
  destruct (m st) as [[s1 [a|e]]|] eqn:E; [| |discriminate].
  - injection H as <- <-. apply (Hm _ _ _ E).
  - destruct (Hm _ _ _ E) as (F1 & evs1 & H1).
    destruct (Hh e _ _ _ H) as (F2 & evs2 & H2).
    split; [eapply frame_trans; eassumption|].
    exists (evs1 ++ evs2). rewrite H2, H1, app_assoc. reflexivity.
Qed.

Ltac untouched :=
  split; [unfold frame; cbn; auto | exists []; cbn; symmetry; apply app_nil_r].

Lemma steady_modify (f : State -> State) :
  (forall st, frame st (f st) /\ exists evs, history (f st) = history st ++ evs) ->
  steady (modify f).
Proof. intros Hf st st' o H. injection H as <- <-. apply Hf. Qed.

Lemma steady_log c m l : steady (log c m l).
Proof.
  apply steady_modify. intros st.
  untouched.
Qed.

Lemma steady_external {A} e (f : list Event -> Outcome A) : steady (external e f).
Proof.
  intros st st' o H. injection H as <- <-.
  split; [unfold frame; cbn; auto | exists [e]; reflexivity].
Qed.

Lemma steady_on_page {A} s (m : Async State A) : steady m -> steady (on_page s m).
Proof.
  intros Hm st st' o H. unfold on_page in H. destruct (page st).
  - apply (Hm _ _ _ H).
  - injection H as <- <-.
    untouched.
Qed.

Lemma steady_when b (m : Async State unit) : steady m -> steady (when b m).
Proof. intros Hm. destruct b; [exact Hm | apply steady_ret]. Qed.

Lemma steady_wait w timeoutMs : steady (_waitForSettledDom w timeoutMs).
Proof.
  intros st st' o H. rewrite wait_run in H. injection H as <- <-.
  split; [apply after_wait_frame|].
  rewrite after_wait_history. eauto.
Qed.

Lemma steady_startDomDebug : steady startDomDebug.
Proof.
  apply steady_catch.
  - apply steady_on_page, steady_external.
  - intros e. apply steady_log.
Qed.

Lemma steady_cleanupDomDebug : steady cleanupDomDebug.
Proof.
  apply steady_bind; [apply steady_gets|].
  intros [|]; [apply steady_on_page, steady_external | apply steady_ret].
Qed.

Lemma steady_index_cached rid entries : steady (index_cached rid entries).
Proof.
  apply steady_bind; [apply steady_gets|]. intros b.
  apply steady_when, steady_modify. intros st.
  untouched.
Qed.

Lemma steady_extract_inference w r : steady (extract_inference w r).
Proof.
  apply steady_bind.
  - intros st st' o H. injection H as <- <-.
    split; [unfold frame; cbn; auto | eexists; reflexivity].
  - intros i. apply steady_bind; [apply steady_index_cached|].
    intros _. apply steady_await.
Qed.

Lemma steady_observe_inference w r : steady (observe_inference w r).
Proof.
  apply steady_bind.
  - intros st st' o H. injection H as <- <-.
    split; [unfold frame; cbn; auto | eexists; reflexivity].
  - intros i. apply steady_bind; [apply steady_index_cached|].
    intros _. apply steady_await.
Qed.

Lemma steady_recordObservation w i r : steady (_recordObservation w i r).
Proof.
  apply steady_bind; [|intros _; apply steady_ret].
  apply steady_modify. intros st.
  untouched.
Qed.

Create HintDb steady.
#[local] Hint Resolve steady_ret steady_await steady_throw steady_gets steady_log
  steady_external steady_on_page steady_when steady_wait steady_startDomDebug
  steady_cleanupDomDebug steady_index_cached steady_extract_inference
  steady_observe_inference steady_recordObservation : steady.

Ltac steady_steps :=
  repeat first
    [ apply steady_bind; [solve [auto with steady] | intros ? ]
    | solve [auto with steady] ].

Lemma steady_extract w : forall fuel p, steady (_extract fuel w p).
Proof.
  induction fuel as [|fuel IH]; intros p.
  - intros st st' o H. discriminate H.
  - cbn [_extract]. steady_steps.
    match goal with |- steady (if ?c then _ else _) => destruct c end.
    + steady_steps.
    + steady_steps; apply IH.
Qed.

Lemma steady_observe w p : steady (_observe w p).
Proof.
  unfold _observe. steady_steps.
  apply steady_bind.
  - destruct (o_fullPage p); auto with steady.
  - intros dom. apply steady_bind.
    + destruct (o_useVision p); [|auto with steady].
      match goal with |- steady (if ?c then _ else _) => destruct c end;
        steady_steps.
    + intros vision. steady_steps.
Qed.

(** ** Failure of [extract] and [observe] *)

Lemma deleteCacheForRequestId_purged requestId (c : LLMCache.t Json) :
  purged requestId (LLMCache.deleteCacheForRequestId requestId c).
Proof.
  intros entry Hin. unfold LLMCache.deleteCacheForRequestId in Hin.
  apply filter_In in Hin as [_ Hkeep]. apply negb_true_iff in Hkeep. exact Hkeep.
Qed.

Lemma on_failure_run {A} category prefix requestId e st :
  on_failure (A := A) category prefix requestId e st
  = Some (failed category prefix requestId e st, Rejected e).
Proof.
  unfold on_failure, failed. run. destruct (enableCaching st); reflexivity.
Qed.

Lemma failed_purged category prefix requestId e st :
  enableCaching st = true ->
  purged requestId (cache (failed category prefix requestId e st)).
Proof.
  intros Hc. unfold failed. rewrite Hc. cbn.
  apply deleteCacheForRequestId_purged.
Qed.

(** How the public operations wrap the private ones. *)
Lemma extract_unfold fuel w p st :
  let requestId := random_id w (history st) in
  extract fuel w p st
  = match _extract fuel w (extract_params p requestId)
                   (entered "extract" (extract_opening p requestId) st) with
    | None => None
    | Some (st2, Resolved c) => Some (st2, Resolved c)
    | Some (st2, Rejected e) =>
        Some (failed "extract" "Internal error: Error extracting: " requestId e st2,
              Rejected e)
    end.
Proof.
  cbv zeta. unfold extract, Math_random, external, logger, log, bind, modify, catch.
  fold (extract_opening p (random_id w (history st))).
  fold (entered "extract" (extract_opening p (random_id w (history st))) st).
  destruct (_extract fuel w _ _) as [[st2 [c|e]]|]; try reflexivity.
  apply on_failure_run.
Qed.

Lemma observe_unfold w options st :
  let requestId := random_id w (history st) in
  observe w options st
  = match _observe w (observe_params options requestId)
                   (entered "observe" (observe_opening options requestId) st) with
    | None => None
    | Some (st2, Resolved c) => Some (st2, Resolved c)
    | Some (st2, Rejected e) =>
        Some (failed "observe" "Error observing: " requestId e st2, Rejected e)
    end.
Proof.
  cbv zeta. unfold observe, Math_random, external, logger, log, bind, modify, catch.
  fold (observe_opening options (random_id w (history st))).
  fold (entered "observe" (observe_opening options (random_id w (history st))) st).
  destruct (_observe w _ _) as [[st2 [c|e]]|]; try reflexivity.
  apply on_failure_run.
Qed.

Lemma entered_frame category message st : frame st (entered category message st).
Proof. unfold frame. cbn. auto. Qed.

(** C4. When [extract] (or [observe]) rejects, it rejects with the very
    error its inner run failed with, and with caching enabled no cache
    entry indexed under the request id of the call is left; and every
    failure of the inner run is passed on this way. *)
Theorem failure_invalidates_cache fuel w p options st :
  let requestId := random_id w (history st) in
  let inner_extract :=
    _extract fuel w (extract_params p requestId)
             (entered "extract" (extract_opening p requestId) st) in
  let inner_observe :=
    _observe w (observe_params options requestId)
             (entered "observe" (observe_opening options requestId) st) in
  (forall st3 e,
      extract fuel w p st = Some (st3, Rejected e) ->
      (exists st2, inner_extract = Some (st2, Rejected e))
      /\ (enableCaching st = true -> purged requestId (cache st3)))
  /\ (forall st2 e,
      inner_extract = Some (st2, Rejected e) ->
      exists st3, extract fuel w p st = Some (st3, Rejected e))
  /\ (forall st3 e,
      observe w options st = Some (st3, Rejected e) ->
      (exists st2, inner_observe = Some (st2, Rejected e))
      /\ (enableCaching st = true -> purged requestId (cache st3)))
  /\ (forall st2 e,
      inner_observe = Some (st2, Rejected e) ->
      exists st3, observe w options st = Some (st3, Rejected e)).
Proof.
  cbv zeta. repeat split.
  - pose proof (extract_unfold fuel w p st) as U. cbv zeta in U.
    rewrite U in H. clear U.
    destruct (_extract fuel w _ _) as [[st2 [c|e0]]|]; try discriminate.
    injection H as _ <-. eauto.
  - intros Hc.
    pose proof (extract_unfold fuel w p st) as U. cbv zeta in U.
    rewrite U in H. clear U.
    destruct (_extract fuel w _ _) as [[st2 [c|e0]]|] eqn:E; try discriminate.
    injection H as <- _.
    apply failed_purged.
    destruct (steady_extract w fuel _ _ _ _ E) as ((_ & _ & _ & _ & ->) & _).
    exact Hc.
  - intros st2 e E.
    pose proof (extract_unfold fuel w p st) as U. cbv zeta in U.
    rewrite U, E. eauto.
  - pose proof (observe_unfold w options st) as U. cbv zeta in U.
    rewrite U in H. clear U.
    destruct (_observe w _ _) as [[st2 [c|e0]]|]; try discriminate.
    injection H as _ <-. eauto.
  - intros Hc.
    pose proof (observe_unfold w options st) as U. cbv zeta in U.
    rewrite U in H. clear U.
    destruct (_observe w _ _) as [[st2 [c|e0]]|] eqn:E; try discriminate.
    injection H as <- _.
    apply failed_purged.
    destruct (steady_observe w _ _ _ _ E) as ((_ & _ & _ & _ & ->) & _).
    exact Hc.
  - intros st2 e E.
    pose proof (observe_unfold w options st) as U. cbv zeta in U.
    rewrite U, E. eauto.
Qed.

(** A cached session whose extraction breaks on the second chunk: the
    error comes back and nothing stays indexed under the request id. *)
Lemma failure_invalidates_cache_witness :
  exists st3 e,
    StagehandExamples.broken_extraction = Some (st3, Rejected e)
    /\ err_message e = "Connection reset"
    /\ purged "r0" (cache st3).
Proof.
  unfold StagehandExamples.broken_extraction.
  destruct (extract 5 StagehandExamples.w_extract_fails
                    StagehandExamples.extract_title
                    (StagehandExamples.session true "gpt-4o"))
    as [[st3 [c|e]]|] eqn:E;
    [vm_compute in E; discriminate E | | vm_compute in E; discriminate E].
  exists st3, e. split; [reflexivity|]. split.
  - vm_compute in E. injection E as _ <-. reflexivity.
  - destruct (failure_invalidates_cache
                5 StagehandExamples.w_extract_fails
                StagehandExamples.extract_title None
                (StagehandExamples.session true "gpt-4o")) as (Hfail & _).
    destruct (Hfail st3 e E) as (_ & Hpurged).
    exact (Hpurged eq_refl).
Defined.

(** ** The rounds of [_extract] *)

Lemma bind_run {A B} (m : Async State A) (k : A -> Async State B) st s1 a :
  m st = Some (s1, Resolved a) -> bind m k st = k a s1.
Proof. intros H. unfold bind. rewrite H. reflexivity. Qed.

Lemma bind_fail {A B} (m : Async State A) (k : A -> Async State B) st s1 e :
  m st = Some (s1, Rejected e) -> bind m k st = Some (s1, Rejected e).
Proof. intros H. unfold bind. rewrite H. reflexivity. Qed.

Lemma log_run c m l st :
  log c m l st
  = Some (set_logs (fun ls => ls ++ [mkLog c m match l with
                                               | Some 0%Z | None => 1%Z
                                               | Some l => l
                                               end]) st, Resolved tt).
Proof. reflexivity. Qed.

Lemma startDomDebug_run st :
  page st = true -> startDomDebug st = Some (record DebugDom st, Resolved tt).
Proof. intros Hp. unfold startDomDebug. run. rewrite Hp. reflexivity. Qed.

Lemma cleanupDomDebug_run st :
  page st = true ->
  cleanupDomDebug st
  = Some (if debugDom st then record CleanupDebug st else st, Resolved tt).
Proof.
  intros Hp. unfold cleanupDomDebug. run.
  destruct (debugDom st); [rewrite Hp|]; reflexivity.
Qed.

Lemma processDom_run w seen st :
  page st = true ->
  on_page "evaluate" (external (ProcessDom seen) (fun h => processDom w h seen)) st
  = Some (record (ProcessDom seen) st, processDom w (history st) seen).
Proof. intros Hp. run. rewrite Hp. reflexivity. Qed.

Lemma extract_inference_run w r st :
  let i := inference_extract w (history st) r in
  extract_inference w r st
  = Some (inferred (ex_requestId r) (cached i) (record (InferenceExtract r) st),
          answer i).
Proof.
  cbv zeta. unfold extract_inference, inferred. run.
  destruct (enableCaching st); reflexivity.
Qed.
Lemma inferred_frame requestId entries st : frame st (inferred requestId entries st).
Proof. unfold inferred, frame. destruct (enableCaching st) eqn:E; cbn; rewrite ?E; auto. Qed.

Lemma inferred_history requestId entries st :
  history (inferred requestId entries st) = history st.
Proof. unfold inferred. destruct (enableCaching st); reflexivity. Qed.

Lemma extract_round w fuel p st dom response :
  page st = true ->
  let t := nullish (x_domSettleTimeoutMs p) (domSettleTimeoutMs st) in
  let h1 := history st ++ [SettleWait t; DebugDom] in
  let req := extract_request p st dom in
  processDom w h1 (x_chunksSeen p) = Resolved dom ->
  answer (inference_extract w (h1 ++ [ProcessDom (x_chunksSeen p)]) req)
  = Resolved response ->
  exists st1,
    frame st st1
    /\ (exists evs, history st1 = history st ++ evs
                    /\ dom_calls evs = [x_chunksSeen p]
                    /\ extract_calls evs = [req])
    /\ _extract (S fuel) w p st
       = if metadata_completed response
            || (length (x_chunksSeen p ++ [chunk dom]) =? length (chunks dom))%nat
         then Some (st1, Resolved (output response))
         else _extract fuel w (next_round p dom response) st1.
Proof.
  intros Hp t h1 req Hdom Hresp.
  cbn [_extract].
  erewrite bind_run by apply log_run.
  erewrite bind_run by apply wait_run.
  match goal with |- context [after_wait w ?a ?s] =>
    remember (after_wait w a s) as s1 eqn:Es1 end.
  assert (Hp1 : page s1 = true).
  { subst s1. rewrite (proj1 (after_wait_frame _ _ _)). exact Hp. }
  assert (Hh1 : history s1 = history st ++ [SettleWait t]).
  { subst s1. rewrite after_wait_history. cbn. rewrite Hp. reflexivity. }
  assert (Hf1 : frame st s1).
  { subst s1. eapply frame_trans; [|apply after_wait_frame]. unfold frame. cbn. auto. }
  erewrite bind_run by (apply startDomDebug_run; exact Hp1).
  erewrite bind_run.
  2:{ rewrite processDom_run by exact Hp1. cbn [history record].
      rewrite Hh1, <- app_assoc. cbn [app]. fold h1. rewrite Hdom. reflexivity. }
  erewrite bind_run by apply log_run.
  erewrite bind_run by reflexivity.
  match goal with |- context [extract_inference w ?r] =>
    replace r with req
      by (unfold req, extract_request; f_equal; cbn;
          rewrite (proj1 (proj2 Hf1)); reflexivity)
  end.
  match goal with |- context [bind (extract_inference w req) _ ?s] => set (s2 := s) end.
  assert (Hh2 : history s2 = h1 ++ [ProcessDom (x_chunksSeen p)]).
  { subst s2 h1. cbn [history record set_logs]. rewrite Hh1, <- !app_assoc. reflexivity. }
  assert (Hp2 : page s2 = true) by exact Hp1.
  erewrite bind_run.
  2:{ rewrite extract_inference_run. cbv zeta. rewrite Hh2, Hresp. reflexivity. }
  match goal with |- context [bind cleanupDomDebug _ ?s] => set (s3 := s) end.
  assert (Hp3 : page s3 = true).
  { subst s3. unfold inferred. destruct (enableCaching _); exact Hp2. }
  erewrite bind_run by (apply cleanupDomDebug_run; exact Hp3).
  erewrite bind_run by apply log_run.
  match goal with |- context [set_logs ?f (if debugDom s3 then ?a else ?b)] =>
    remember (set_logs f (if debugDom s3 then a else b)) as s4 eqn:Es4 end.
  assert (Hf4 : frame st s4).
  { assert (Hf2 : frame s1 s2) by (subst s2; unfold frame; cbn; auto).
    assert (Hf3 : frame s2 s3).
    { subst s3. eapply frame_trans; [|apply inferred_frame]. unfold frame; cbn; auto. }
    assert (Hf34 : frame s3 s4).
    { subst s4. destruct (debugDom s3); unfold frame; cbn; auto. }
    eauto using frame_trans. }
  assert (Hh4 : exists evs, history s4 = history st ++ evs
                            /\ dom_calls evs = [x_chunksSeen p]
                            /\ extract_calls evs = [req]).
  { exists ([SettleWait t; DebugDom; ProcessDom (x_chunksSeen p); InferenceExtract req]
            ++ if debugDom s3 then [CleanupDebug] else []).
    split; [|split].
    - assert (Hh3 : history s3 = h1 ++ [ProcessDom (x_chunksSeen p); InferenceExtract req]).
      { subst s3. rewrite inferred_history. cbn [history record].
        rewrite Hh2, <- app_assoc. reflexivity. }
      subst s4. cbn [history set_logs].
      destruct (debugDom s3); cbn [history record]; rewrite Hh3; subst h1;
        rewrite <- ?app_assoc; cbn [app]; rewrite ?app_nil_r; reflexivity.
    - destruct (debugDom s3); reflexivity.
    - destruct (debugDom s3); reflexivity. }
  destruct (metadata_completed response
            || (length (x_chunksSeen p ++ [chunk dom]) =? length (chunks dom))%nat).
  - erewrite bind_run by apply log_run.
    eexists. split; [|split; [|reflexivity]].
    + unfold frame in *. cbn. exact Hf4.
    + cbn. exact Hh4.
  - erewrite bind_run by apply log_run.
    erewrite bind_run by apply wait_run.
    eexists. split; [|split; [|reflexivity]].
    + eapply frame_trans; [|apply after_wait_frame]. unfold frame in *. cbn. exact Hf4.
    + rewrite after_wait_history. cbn [history set_logs page].
      destruct Hh4 as (evs & -> & Hd & He).
      rewrite (proj1 Hf4), Hp. rewrite <- app_assoc.
      eexists. split; [reflexivity|].
      unfold dom_calls, extract_calls in *. rewrite !omap_app, Hd, He. split; reflexivity.
Qed.

Lemma take_cons_map {A} (seen : list A) c cs n :
  List.map (fun i => (seen ++ [c]) ++ take i cs) (seq 0 n)
  = List.map (fun i => seen ++ take i (c :: cs)) (seq 1 n).
Proof.
  rewrite <- seq_shift, List.map_map. apply List.map_ext. intros i.
  cbn [take]. rewrite <- app_assoc. reflexivity.
Qed.

(** With [S k] chunks left, [_extract] makes [S k] more rounds. *)
Lemma extract_rounds w N :
  chunker_contract w N ->
  no_early_completion w ->
  forall k p st fuel,
    page st = true ->
    S k <= fuel ->
    length (x_chunksSeen p) + S k = N ->
    NoDup (x_chunksSeen p) ->
    exists st' out cs evs,
      _extract fuel w p st = Some (st', Resolved out)
      /\ frame st st'
      /\ history st' = history st ++ evs
      /\ length cs = S k
      /\ NoDup (x_chunksSeen p ++ cs)
      /\ dom_calls evs
         = List.map (fun i => x_chunksSeen p ++ take i cs) (seq 0 (S k))
      /\ List.map ex_chunksSeen (extract_calls evs)
         = seq (length (x_chunksSeen p)) (S k)
      /\ Forall (fun r => ex_chunksTotal r = N) (extract_calls evs).
Proof.
  intros Hchunker Hmodel.
  induction k as [|k IH]; intros p st fuel Hp Hfuel Hlen Hnodup;
    (destruct fuel as [|fuel]; [lia|]);
    set (t := nullish (x_domSettleTimeoutMs p) (domSettleTimeoutMs st));
    destruct (Hchunker (history st ++ [SettleWait t; DebugDom]) (x_chunksSeen p))
      as (dom & Hdom & Htotal & Hfresh);
    destruct (Hmodel ((history st ++ [SettleWait t; DebugDom])
                        ++ [ProcessDom (x_chunksSeen p)])
                     (extract_request p st dom))
      as (response & Hresp & Hgoing);
    destruct (extract_round w fuel p st dom response Hp Hdom Hresp)
      as (st1 & Hf1 & (evs1 & Hh1 & Hd1 & He1) & Hrun);
    assert (Hnew : ~ In (chunk dom) (x_chunksSeen p)) by (apply Hfresh; lia);
    assert (Hnodup' : NoDup (x_chunksSeen p ++ [chunk dom]))
      by (apply NoDup_app; repeat split;
          [exact Hnodup
          | intros x Hx Hin; apply list_elem_of_singleton in Hin;
            subst; apply Hnew; apply list_elem_of_In; exact Hx
          | apply NoDup_singleton]).
  - (* the last chunk *)
    replace (length (x_chunksSeen p ++ [chunk dom]) =? length (chunks dom))%nat
      with true in Hrun
      by (symmetry; apply Nat.eqb_eq; rewrite length_app; cbn [length]; lia).
    rewrite orb_true_r in Hrun.
    exists st1, (output response), [chunk dom], evs1.
    repeat split; try assumption; try apply Hf1.
    + cbn. rewrite Hd1, app_nil_r. reflexivity.
    + rewrite He1. reflexivity.
    + rewrite He1. repeat constructor. exact Htotal.
  - (* an earlier chunk *)
    replace (length (x_chunksSeen p ++ [chunk dom]) =? length (chunks dom))%nat
      with false in Hrun
      by (symmetry; apply Nat.eqb_neq; rewrite length_app; cbn [length]; lia).
    rewrite Hgoing in Hrun by (cbn [extract_request ex_chunksSeen ex_chunksTotal]; lia).
    cbn [orb] in Hrun.
    destruct (IH (next_round p dom response) st1 fuel)
      as (st' & out & cs & evs & Hrun' & Hf' & Hh' & Hcs & Hnd & Hd & He & Ht).
    + rewrite (proj1 Hf1). exact Hp.
    + lia.
    + cbn [next_round x_chunksSeen]. rewrite length_app. cbn [length]. lia.
    + exact Hnodup'.
    + cbn [next_round x_chunksSeen] in *.
      exists st', out, (chunk dom :: cs), (evs1 ++ evs).
      split; [rewrite Hrun; exact Hrun'|].
      split; [eapply frame_trans; eassumption|].
      split; [rewrite Hh', Hh1, app_assoc; reflexivity|].
      split; [cbn [length]; lia|].
      split; [rewrite <- app_assoc in Hnd; exact Hnd|].
      unfold dom_calls, extract_calls in *. rewrite !omap_app.
      split; [|split].
      * rewrite Hd1, Hd, take_cons_map.
        cbn [seq List.map take app]. rewrite app_nil_r. reflexivity.
      * rewrite List.map_app, He1, He, length_app. cbn [length List.map app].
        cbn [extract_request ex_chunksSeen].
        replace (length (x_chunksSeen p) + 1) with (S (length (x_chunksSeen p))) by lia.
        reflexivity.
      * apply Forall_app. split; [|exact Ht].
        rewrite He1. repeat constructor. exact Htotal.
Qed.

(** C2. On a page of [N] chunks, with a chunker that keeps its contract
    and a model that does not report completion before the last round,
    [_extract] started with nothing seen resolves after exactly [N]
    inference rounds: round [i] starts with the [i] distinct chunks
    returned so far as [chunksSeen], reports [i] of [N] to the model, and
    adds one chunk not seen before; the run ends with the round that
    brings [chunksSeen] to [N] entries and not earlier. *)
Theorem extract_chunk_rounds w N p st :
  chunker_contract w N ->
  no_early_completion w ->
  page st = true ->
  0 < N ->
  x_chunksSeen p = [] ->
  forall fuel, N <= fuel ->
  exists st' out cs evs,
    _extract fuel w p st = Some (st', Resolved out)
    /\ history st' = history st ++ evs
    /\ length (extract_calls evs) = N
    /\ NoDup cs /\ length cs = N
    /\ dom_calls evs = List.map (fun i => take i cs) (seq 0 N)
    /\ List.map ex_chunksSeen (extract_calls evs) = seq 0 N
    /\ Forall (fun r => ex_chunksTotal r = N) (extract_calls evs).
Proof.
  intros Hchunker Hmodel Hp HN Hseen fuel Hfuel.
  destruct N as [|k]; [lia|].
  destruct (extract_rounds w (S k) Hchunker Hmodel k p st fuel Hp Hfuel)
    as (st' & out & cs & evs & Hrun & _ & Hh & Hcs & Hnd & Hd & He & Ht).
  - rewrite Hseen. reflexivity.
  - rewrite Hseen. constructor.
  - rewrite Hseen in *. cbn [app length] in *.
    exists st', out, cs, evs. repeat split; try assumption.
    rewrite <- (length_map ex_chunksSeen), He, length_seq. reflexivity.
Qed.

Lemma two_chunk_contract w :
  processDom w = (fun _ seen => Resolved (StagehandExamples.two_chunk_dom seen)) ->
  chunker_contract w 2.
Proof.
  intros Hw h seen. rewrite Hw. eexists. split; [reflexivity|].
  split; [reflexivity|]. intros Hlen.
  cbn [chunk StagehandExamples.two_chunk_dom]. unfold StagehandExamples.next_unseen.
  case_bool_decide as H0.
  - destruct seen as [|a [|b rest]]; cbn [length] in Hlen; try lia.
    + intros [].
    + apply list_elem_of_singleton in H0. subst a. intros [E|[]]. discriminate E.
  - intros Hin. apply H0, list_elem_of_In, Hin.
Qed.

Lemma patient_model : no_early_completion StagehandExamples.w_patient.
Proof. intros h r. eexists. split; [reflexivity|]. intros _. reflexivity. Qed.

(** Two chunks, a model that never says it is done: two rounds. *)
Lemma extract_chunk_rounds_witness :
  exists st' out cs evs,
    _extract 2 StagehandExamples.w_patient
             (extract_params StagehandExamples.extract_title "r0")
             (StagehandExamples.session false "gpt-4o")
    = Some (st', Resolved out)
    /\ history st' = history (StagehandExamples.session false "gpt-4o") ++ evs
    /\ length (extract_calls evs) = 2
    /\ NoDup cs /\ length cs = 2
    /\ dom_calls evs = List.map (fun i => take i cs) (seq 0 2)
    /\ List.map ex_chunksSeen (extract_calls evs) = seq 0 2
    /\ Forall (fun r => ex_chunksTotal r = 2) (extract_calls evs).
Proof.
  apply (extract_chunk_rounds
           StagehandExamples.w_patient 2
           (extract_params StagehandExamples.extract_title "r0")
           (StagehandExamples.session false "gpt-4o")
           (two_chunk_contract StagehandExamples.w_patient eq_refl) patient_model eq_refl).
  - lia.
  - reflexivity.
  - lia.
Defined.

(** C5, evaluated on a two-chunk extraction: the first inference call
    carries the request id of the call, the second carries none, because
    the recursive call of [_extract] does not pass [requestId] on; the
    entry cached in the second round is therefore not indexed under the
    id and survives the purge of a failed call. *)
Theorem extract_second_round_without_requestId :
  (exists st' out,
      extract 5 StagehandExamples.w_ok StagehandExamples.extract_title
              (StagehandExamples.session true "gpt-4o")
      = Some (st', Resolved out)
      /\ List.map ex_requestId (extract_calls (history st'))
         = [Some "r0"; None])
  /\ (exists st' e,
      StagehandExamples.broken_extraction = Some (st', Rejected e)
      /\ List.map ex_requestId (extract_calls (history st')) = [Some "r0"; None]
      /\ cache st' = [LLMCache.mkEntry "extract-1" (JStr "cached answer") [None]]).
Proof.
  split.
  - eexists _, _. split; [lazy; reflexivity|]. reflexivity.
  - eexists _, _. split; [lazy; reflexivity|]. split; reflexivity.
Qed.
Lemma observe_inference_run w r st :
  let i := inference_observe w (history st) r in
  observe_inference w r st
  = Some (inferred (ob_requestId r) (cached i) (record (InferenceObserve r) st),
          answer i).
Proof.
  cbv zeta. unfold observe_inference, inferred. run.
  destruct (enableCaching st); reflexivity.
Qed.





(** ** Resolving element ids *)

Lemma resolves_with_ret {A} (a : A) (Q : A -> Prop) : Q a -> resolves_with (ret a) Q.
Proof. intros HQ st st' a' H. injection H as _ <-. exact HQ. Qed.

Lemma resolves_with_bind {A B} (m : Async State A) (k : A -> Async State B)
      (P : A -> Prop) (Q : B -> Prop) :
  resolves_with m P ->
  (forall a, P a -> resolves_with (k a) Q) ->
  resolves_with (bind m k) Q.
Proof.
  intros Hm Hk st st' b H. unfold bind in H.
  destruct (m st) as [[s1 [a|e]]|] eqn:E; try discriminate.
  eapply Hk; [eapply Hm; exact E | exact H].
Qed.

Lemma resolves_with_any {A} (m : Async State A) : resolves_with m (fun _ => True).
Proof. intros st st' a _. exact I. Qed.

Lemma resolves_with_await {A} (o : Outcome A) :
  resolves_with (await o) (fun a => o = Resolved a).
Proof. intros st st' a H. injection H as _ ->. reflexivity. Qed.

Lemma with_selector_resolved selectorMap element r :
  with_selector selectorMap element = Resolved r ->
  resolved_from selectorMap element r.
Proof.
  unfold with_selector, resolved_from. intros H.
  destruct (selectorMap !! elementId element) as [xpaths|]; [|discriminate].
  injection H as <-. cbn. eauto.
Qed.

Lemma elementsWithSelectors_resolved selectorMap els rs :
  elementsWithSelectors selectorMap els = Resolved rs ->
  Forall2 (resolved_from selectorMap) els rs.
Proof.
  revert rs. induction els as [|el els IH]; intros rs H; cbn in H.
  - injection H as <-. constructor.
  - destruct (with_selector selectorMap el) as [r|e] eqn:E; [|discriminate].
    destruct (elementsWithSelectors selectorMap els) as [rs'|e]; [|discriminate].
    injection H as <-. constructor; [apply with_selector_resolved, E | apply IH; reflexivity].
Qed.

Lemma resolved_from_xpath selectorMap el r :
  resolved_from selectorMap el r -> xpath_selector r.
Proof. intros (_ & xpaths & _ & H). eexists. exact H. Qed.

Lemma observe_resolves_with_selectors w p :
  resolves_with (_observe w p) (Forall xpath_selector).
Proof.
  unfold _observe.
  do 8 (eapply resolves_with_bind; [apply resolves_with_any | intros ? _]).
  eapply resolves_with_bind; [apply resolves_with_await | intros rs Hrs].
  do 4 (eapply resolves_with_bind; [apply resolves_with_any | intros ? _]).
  apply resolves_with_ret.
  apply elementsWithSelectors_resolved in Hrs.
  induction Hrs; constructor; eauto using resolved_from_xpath.
Qed.

Lemma elementsWithSelectors_known selectorMap els :
  Forall (fun el => is_Some (selectorMap !! elementId el)) els ->
  exists rs, elementsWithSelectors selectorMap els = Resolved rs.
Proof.
  intros Hall. induction Hall as [|el els [xpaths Hx] _ (rs & IH)].
  - exists []. reflexivity.
  - cbn [elementsWithSelectors]. unfold with_selector. rewrite Hx, IH. eauto.
Qed.

Lemma elementsWithSelectors_unknown selectorMap els :
  Exists (fun el => selectorMap !! elementId el = None) els ->
  elementsWithSelectors selectorMap els = Rejected (TypeError_undefined "0").
Proof.
  intros Hex. induction Hex as [el els Hnone | el els _ IH]; cbn.
  - unfold with_selector. rewrite Hnone. reflexivity.
  - rewrite IH. destruct (with_selector selectorMap el) as [r|e] eqn:E; [reflexivity|].
    unfold with_selector in E.
    destruct (selectorMap !! elementId el); [discriminate|].
    injection E as <-. reflexivity.
Qed.

(** [_observe] in a session with a page, up to its snapshot. *)
Lemma observe_with_page w p st dom :
  page st = true ->
  snapshot w p (at_observe_snapshot p st) = Resolved dom ->
  _observe w p st = Some (observe_with_snapshot w p dom st).
Proof.
  intros Hp Hdom. unfold _observe, observe_with_snapshot.
  fold (effective_instruction p).
  erewrite bind_run by reflexivity.
  erewrite bind_run by apply log_run.
  erewrite bind_run by apply wait_run.
  match goal with |- context [bind startDomDebug _ ?s] =>
    remember s as s1 eqn:Es1 end.
  assert (Hf1 : frame st s1).
  { subst s1. eapply frame_trans; [|apply after_wait_frame]. unfold frame. cbn. auto. }
  assert (Hp1 : page s1 = true) by (rewrite (proj1 Hf1); exact Hp).
  assert (Hh1 : history s1
                = history st ++ [SettleWait (nullish (o_domSettleTimeoutMs p)
                                                     (domSettleTimeoutMs st))]).
  { subst s1. rewrite after_wait_history. cbn. rewrite Hp. reflexivity. }
  erewrite bind_run by (apply startDomDebug_run; exact Hp1).
  rewrite (bind_run _ _ _ (record (snapshot_event p) (record DebugDom s1)) dom).
  2:{ unfold on_page. cbn [page record]. rewrite Hp1.
      unfold snapshot, at_observe_snapshot in Hdom. unfold snapshot_event.
      destruct (o_fullPage p); unfold external; cbn [history record];
        rewrite Hh1, <- app_assoc; cbn [app]; rewrite Hdom; reflexivity. }
  assert (Hsnap : with_snapshot w p st = record (snapshot_event p) (record DebugDom s1)).
  { subst s1. reflexivity. }
  rewrite Hsnap.
  remember (record (snapshot_event p) (record DebugDom s1)) as s2 eqn:Es2.
  assert (Hp2 : page s2 = true) by (subst s2; exact Hp1).
  assert (Hm2 : defaultModelName s2 = defaultModelName st).
  { subst s2. cbn. apply (proj1 (proj2 Hf1)). }
  unfold vision_step. rewrite Hm2.
  assert (Htail : forall vision s,
             page s = true ->
             (defaultModel <- gets defaultModelName;;
              observationResponse <-
                observe_inference w
                  {| ob_instruction := effective_instruction p;
                     ob_domElements := snd vision;
                     ob_modelName := or_string (o_modelName p) defaultModel;
                     ob_image := fst vision;
                     ob_requestId := o_requestId p |};;
              elementsWithSelectors <-
                await (elementsWithSelectors (selectorMap dom)
                                             (elements observationResponse));;
              cleanupDomDebug;;
              _recordObservation w (effective_instruction p) elementsWithSelectors;;
              log (Some "observation")
                  ("found element "
                   +:+ JSON_stringify (results_json elementsWithSelectors))
                  (Some 1%Z);;
              _recordObservation w (effective_instruction p) elementsWithSelectors;;
              ret elementsWithSelectors) s
             = Some (observe_outcome w p dom vision s)).
  { intros vision s Hps. unfold observe_outcome.
    erewrite bind_run by reflexivity.
    fold (observe_request p s vision).
    pose proof (observe_inference_run w (observe_request p s vision) s) as Hinf.
    cbv zeta in Hinf. cbv zeta.
    remember (inferred _ _ _) as s3 eqn:Es3 in Hinf.
    assert (Hp3 : page s3 = true).
    { subst s3. rewrite (proj1 (inferred_frame _ _ _)). exact Hps. }
    rewrite <- Es3.
    destruct (answer (inference_observe w (history s) (observe_request p s vision)))
      as [response|e].
    - erewrite bind_run by exact Hinf.
      destruct (elementsWithSelectors (selectorMap dom) (elements response)) as [rs|e].
      + erewrite bind_run by reflexivity.
        erewrite bind_run by (apply cleanupDomDebug_run; exact Hp3).
        reflexivity.
      + erewrite bind_fail by reflexivity. reflexivity.
    - erewrite bind_fail by exact Hinf. reflexivity. }
  destruct (o_useVision p).
  - destruct (supports_vision w (nullish (o_modelName p) (defaultModelName st))); cbn [negb].
    + destruct (getAnnotatedScreenshot w (history s2) (o_fullPage p)) as [shot|e] eqn:Hshot.
      * erewrite bind_run.
        2:{ erewrite bind_run; [reflexivity|].
            unfold external. rewrite Hshot. reflexivity. }
        apply Htail. exact Hp2.
      * erewrite bind_fail; [reflexivity|].
        erewrite bind_fail; [reflexivity|].
        unfold external. rewrite Hshot. reflexivity.
    + erewrite bind_run by reflexivity.
      apply Htail. exact Hp2.
  - erewrite bind_run by reflexivity.
    apply Htail. exact Hp2.
Qed.

(** What the [.catch] of [observe] logs for an error. *)
Lemma failed_logs category prefix requestId e st :
  logs (failed category prefix requestId e st)
  = logs st ++ [mkLog (Some category)
                      (prefix +:+ err_message e +:+ nl +:+ "Trace: " +:+ err_stack e) 1].
Proof. unfold failed. destruct (enableCaching st); reflexivity. Qed.

(** C3, as the code has it.  Take an observation call, [_observe] with a
    page attached, whose snapshot [dom] was read, whose vision step went
    through and left the state [s], and whose model call answered with
    [response].  When every element id of the response is a key of the
    snapshot's [selectorMap], nothing is dropped: the call resolves with
    one entry per returned element, in order, each with the element's
    description and the selector [xpath=] followed by the first locator of
    its id, so that the list holds [xpath=] selectors only; the public
    [observe] that made the call resolves with the same list.  When some
    element id of the response is not in the map, nothing is dropped and
    no list comes back: the call rejects with the [TypeError] of the
    lookup, it has logged nothing since the vision step, so no warning,
    and has recorded no observation; the public [observe] that made the
    call rejects with the same error after logging it. *)
Theorem observe_all_or_nothing w p st dom s vision response :
  page st = true ->
  snapshot w p (at_observe_snapshot p st) = Resolved dom ->
  vision_step w p dom (with_snapshot w p st) = (s, Resolved vision) ->
  answer (inference_observe w (history s) (observe_request p s vision))
  = Resolved response ->
  (Forall (fun el => is_Some (selectorMap dom !! elementId el)) (elements response) ->
   exists st' rs,
     _observe w p st = Some (st', Resolved rs)
     /\ Forall2 (resolved_from (selectorMap dom)) (elements response) rs
     /\ Forall xpath_selector rs
     /\ (forall options st0,
           p = observe_params options (random_id w (history st0)) ->
           st = entered "observe"
                        (observe_opening options (random_id w (history st0))) st0 ->
           observe w options st0 = Some (st', Resolved rs)))
  /\ (Exists (fun el => selectorMap dom !! elementId el = None) (elements response) ->
      exists st',
        _observe w p st = Some (st', Rejected (TypeError_undefined "0"))
        /\ logs st' = logs s
        /\ observations st' = observations st
        /\ (forall options st0,
              p = observe_params options (random_id w (history st0)) ->
              st = entered "observe"
                           (observe_opening options (random_id w (history st0))) st0 ->
              exists st'',
                observe w options st0 = Some (st'', Rejected (TypeError_undefined "0"))
                /\ logs st''
                   = logs s
                     ++ [mkLog (Some "observe")
                               ("Error observing: "
                                +:+ err_message (TypeError_undefined "0") +:+ nl
                                +:+ "Trace: " +:+ err_stack (TypeError_undefined "0"))
                               1])).
Proof.
  intros Hp Hdom Hvision Hanswer.
  assert (Hrun : _observe w p st = Some (observe_outcome w p dom vision s)).
  { rewrite (observe_with_page w p st dom Hp Hdom).
    unfold observe_with_snapshot. rewrite Hvision. reflexivity. }
  unfold observe_outcome in Hrun. cbv zeta in Hrun. rewrite Hanswer in Hrun.
  split.
  - intros Hknown.
    destruct (elementsWithSelectors_known _ _ Hknown) as (rs & Hrs).
    rewrite Hrs in Hrun.
    pose proof (elementsWithSelectors_resolved _ _ _ Hrs) as Hall.
    eexists _, rs. split; [exact Hrun|]. split; [exact Hall|]. split.
    + clear Hrs Hrun Hknown Hanswer.
      induction Hall as [|el r els rs' Hr _ IH]; [constructor|].
      constructor; [exact (resolved_from_xpath _ _ _ Hr)|apply IH].
    + intros options st0 -> ->.
      pose proof (observe_unfold w options st0) as Hpublic. cbv zeta in Hpublic.
      rewrite Hrun in Hpublic. exact Hpublic.
  - intros Hunknown.
    rewrite (elementsWithSelectors_unknown _ _ Hunknown) in Hrun.
    assert (Hobs : observations s = observations st).
    { unfold vision_step in Hvision.
      assert (Hsnap : observations (with_snapshot w p st) = observations st).
      { unfold with_snapshot, after_wait. cbn [observations record set_logs].
        destruct (page _); reflexivity. }
      destruct (o_useVision p);
        [destruct (supports_vision _ _);
         [destruct (getAnnotatedScreenshot _ _ _); [|discriminate Hvision]|]|];
        injection Hvision as <- _; exact Hsnap. }
    eexists. split; [exact Hrun|].
    assert (Hlogs : forall rid entries ev,
               logs (inferred rid entries (record ev s)) = logs s).
    { intros rid entries ev. unfold inferred. destruct (enableCaching _); reflexivity. }
    assert (Hobs' : forall rid entries ev,
               observations (inferred rid entries (record ev s)) = observations s).
    { intros rid entries ev. unfold inferred. destruct (enableCaching _); reflexivity. }
    split; [apply Hlogs|]. split; [rewrite Hobs'; exact Hobs|].
    intros options st0 -> ->.
    pose proof (observe_unfold w options st0) as Hpublic. cbv zeta in Hpublic.
    rewrite Hrun in Hpublic.
    eexists. split; [exact Hpublic|]. rewrite failed_logs, Hlogs. reflexivity.
Qed.

Lemma observe_all_or_nothing_witness :
  (exists st' rs,
      _observe StagehandExamples.w_ok
               (mkObserveParams "find the search button" false false None (Some "r0") None)
               (StagehandExamples.session false "gpt-4o")
      = Some (st', Resolved rs)
      /\ Forall2 (resolved_from StagehandExamples.button_map)
                 [mkElement 7 "the search button"] rs
      /\ Forall xpath_selector rs)
  /\ (exists st',
         _observe StagehandExamples.w_stale
                  (mkObserveParams "find the search button" false false None
                                   (Some "r0") None)
                  (StagehandExamples.session false "gpt-4o")
         = Some (st', Rejected (TypeError_undefined "0"))
         /\ observations st' = observations (StagehandExamples.session false "gpt-4o")).
Proof.
  split.
  - destruct (observe_all_or_nothing
                StagehandExamples.w_ok
                (mkObserveParams "find the search button" false false None (Some "r0") None)
                (StagehandExamples.session false "gpt-4o")
                (StagehandExamples.two_chunk_dom [])
                _ _ (mkObservation [mkElement 7 "the search button"])
                eq_refl eq_refl eq_refl eq_refl) as [Hknown _].
    destruct Hknown as (st' & rs & Hrun & Hall & Hx & _).
    + repeat constructor. exists ["//button[1]"; "//html/body/button"]. reflexivity.
    + exists st', rs. split; [exact Hrun|]. split; [exact Hall|exact Hx].
  - destruct (observe_all_or_nothing
                StagehandExamples.w_stale
                (mkObserveParams "find the search button" false false None (Some "r0") None)
                (StagehandExamples.session false "gpt-4o")
                (StagehandExamples.two_chunk_dom [])
                _ _ (mkObservation [mkElement 7 "the search button";
                                    mkElement 99 "the login link"])
                eq_refl eq_refl eq_refl eq_refl) as [_ Hunknown].
    destruct Hunknown as (st' & Hrun & _ & Hobs & _).
    + right. left. reflexivity.
    + exists st'. split; [exact Hrun|exact Hobs].
Defined.

(** C3 as stated fails: the model names element 99, which the snapshot
    does not have; the element is not dropped and no list comes back,
    the observation rejects with the [TypeError] of the lookup, and the
    only line logged after it is the error report of [observe]. *)
Lemma observe_unknown_id_rejects :
  StagehandExamples.button_map !! 99%Z = None
  /\ dropping_unknown_ids StagehandExamples.button_map
       (elements (mkObservation [mkElement 7 "the search button";
                                 mkElement 99 "the login link"]))
     = [mkObserveResult "the search button" "xpath=//button[1]"]
  /\ exists st',
      observe StagehandExamples.w_stale None (StagehandExamples.session false "gpt-4o")
      = Some (st', Rejected (TypeError_undefined "0"))
      /\ List.map message (logs st')
         = ["Running observe with instruction: undefined, requestId: r0";
            "starting observation: Find actions that can be performed on this page.";
            "Error observing: Cannot read properties of undefined (reading '0')"
              +:+ nl +:+ "Trace: TypeError"].
Proof.
  split; [reflexivity|]. split; [reflexivity|].
  eexists. split; [lazy; reflexivity|]. reflexivity.
Qed.
End StagehandProofs.

(** * Further properties of [AnthropicClient.createChatCompletion] *)
Module AnthropicClientExtras.
Import AnthropicClient AnthropicClientRuns AnthropicClientProofs.

(** Whatever a call does, the requests sent and the lines logged before it
    are still there afterwards, in their order. *)
Lemma run_extends c :
  forall fuel options st st' out,
    createChatCompletion fuel c options st = Some (st', out) ->
    exists reqs lines, sent st' = sent st ++ reqs /\ logged st' = logged st ++ lines.
Proof.
  induction fuel as [|fuel IH]; intros options st st' out Hrun; [discriminate Hrun|].
  rewrite attempt_cases in Hrun.
  destruct (usable_answer c options st) as [v|].
  { injection Hrun as <- _. exists []. eexists. cbn [after_hit sent logged].
    rewrite app_nil_r. split; reflexivity. }
  unfold on_miss in Hrun.
  assert (Hok : forall response v,
             exists reqs lines,
               sent (after_success c options response v st) = sent st ++ reqs
               /\ logged (after_success c options response v st) = logged st ++ lines).
  { intros response v. unfold after_success, after_attempt.
    destruct (enableCaching c); cbn [sent logged]; eexists _, _; split; reflexivity. }
  destruct (create c (sent st) (providerRequest options)) as [response|e].
  - destruct (response_model options).
    + destruct (find_tool_use (resp_content response)).
      * injection Hrun as <- _. apply Hok.
      * destruct (may_retry (retries options)).
        -- apply IH in Hrun as (reqs & lines & Hs & Hl).
           exists (providerRequest options :: reqs). eexists.
           rewrite Hs, Hl. unfold after_attempt. cbn [sent logged].
           rewrite <- !app_assoc. split; reflexivity.
        -- injection Hrun as <- _. unfold after_attempt. cbn [sent logged].
           eexists _, _. split; reflexivity.
    + injection Hrun as <- _. apply Hok.
  - injection Hrun as <- _. unfold after_provider_error. cbn [sent logged].
    eexists _, _. split; reflexivity.
Qed.

(** A call that finds no usable answer sends its request first, after the
    line that announces it and, with caching on, the line for the miss. *)
Lemma miss_sends_request c fuel options st st' out :
  usable_answer c options st = None ->
  createChatCompletion (S fuel) c options st = Some (st', out) ->
  exists reqs lines,
    sent st' = sent st ++ providerRequest options :: reqs
    /\ logged st'
       = logged st
         ++ CreatingChatCompletion (without_image options)
         :: (if enableCaching c then [CacheMiss] else []) ++ lines.
Proof.
  intros Hmiss Hrun. rewrite attempt_cases, Hmiss in Hrun. unfold on_miss in Hrun.
  assert (Hok : forall response v,
             exists reqs lines,
               sent (after_success c options response v st)
               = sent st ++ providerRequest options :: reqs
               /\ logged (after_success c options response v st)
                  = logged st
                    ++ CreatingChatCompletion (without_image options)
                    :: (if enableCaching c then [CacheMiss] else []) ++ lines).
  { intros response v. unfold after_success, after_attempt.
    destruct (enableCaching c); cbn [sent logged app]; exists [];
      eexists; split; reflexivity. }
  destruct (create c (sent st) (providerRequest options)) as [response|e].
  - destruct (response_model options).
    + destruct (find_tool_use (resp_content response)).
      * injection Hrun as <- _. apply Hok.
      * destruct (may_retry (retries options)).
        -- apply run_extends in Hrun as (reqs & lines & Hs & Hl).
           exists reqs. eexists. rewrite Hs, Hl. unfold after_attempt. cbn [sent logged].
           rewrite <- ?app_assoc. cbn [app]. split; [reflexivity|].
           rewrite <- ?app_assoc. reflexivity.
        -- injection Hrun as <- _. unfold after_attempt. cbn [sent logged app].
           exists []. eexists. split; reflexivity.
    + injection Hrun as <- _. apply Hok.
  - injection Hrun as <- _. unfold after_provider_error. cbn [sent logged app].
    exists [], []. rewrite app_nil_r. split; reflexivity.
Qed.

(** X1. A call that finds a truthy value under its key in the cache
    resolves with that value and sends nothing to the provider; it logs
    the hit and assigns nothing to the options.  A falsy value found under
    the key is no hit: the miss is logged and the request is sent. *)
Theorem cache_hit_skips_provider fuel c options st v :
  cached_answer c options st = Some v ->
  (truthy v = true ->
   exists st',
     createChatCompletion (S fuel) c options st = Some (st', Resolved v)
     /\ sent st' = sent st
     /\ assigned st' = assigned st
     /\ logged st' = logged st ++ [CreatingChatCompletion (without_image options); CacheHit])
  /\ (truthy v = false ->
      forall st' out,
        createChatCompletion (S fuel) c options st = Some (st', out) ->
        exists reqs lines,
          sent st' = sent st ++ providerRequest options :: reqs
          /\ logged st'
             = logged st
               ++ [CreatingChatCompletion (without_image options); CacheMiss] ++ lines).
Proof.
  intros Hfound. split; intros Hv.
  - rewrite attempt_cases. unfold usable_answer. rewrite Hfound. cbn [if_truthy].
    rewrite Hv. eexists. split; [reflexivity|]. repeat split.
  - intros st' out Hrun.
    assert (Hon : enableCaching c = true).
    { unfold cached_answer in Hfound. destruct (enableCaching c); [reflexivity|discriminate]. }
    destruct (miss_sends_request c fuel options st st' out) as (reqs & lines & Hs & Hl).
    + unfold usable_answer. rewrite Hfound. cbn [if_truthy]. rewrite Hv. reflexivity.
    + exact Hrun.
    + rewrite Hon in Hl. exists reqs, lines. split; [exact Hs|exact Hl].
Qed.

Lemma cache_hit_skips_provider_witness :
  (exists st',
      createChatCompletion 1 AnthropicMoreExamples.caching_client
                           AnthropicExamples.o_extract AnthropicMoreExamples.warm
      = Some (st', Resolved (Structured (JObj [("title", JStr "Cached")])))
      /\ sent st' = sent AnthropicMoreExamples.warm
      /\ assigned st' = assigned AnthropicMoreExamples.warm
      /\ logged st'
         = logged AnthropicMoreExamples.warm
           ++ [CreatingChatCompletion (without_image AnthropicExamples.o_extract); CacheHit])
  /\ (exists st' reqs lines,
         createChatCompletion 1 AnthropicMoreExamples.caching_client
                              AnthropicExamples.o_extract AnthropicMoreExamples.stale
         = Some (st', Resolved (Structured (JObj [("title", JStr "Home")])))
         /\ sent st'
            = sent AnthropicMoreExamples.stale
              ++ providerRequest AnthropicExamples.o_extract :: reqs
         /\ logged st'
            = logged AnthropicMoreExamples.stale
              ++ [CreatingChatCompletion (without_image AnthropicExamples.o_extract);
                  CacheMiss] ++ lines).
Proof.
  split.
  - apply (cache_hit_skips_provider 0 AnthropicMoreExamples.caching_client
                                    AnthropicExamples.o_extract AnthropicMoreExamples.warm
                                    (Structured (JObj [("title", JStr "Cached")])));
      reflexivity.
  - destruct (createChatCompletion 1 AnthropicMoreExamples.caching_client
                                   AnthropicExamples.o_extract AnthropicMoreExamples.stale)
      as [[st' out]|] eqn:E; [|vm_compute in E; discriminate E].
    assert (Hout : out = Resolved (Structured (JObj [("title", JStr "Home")]))).
    { vm_compute in E. injection E as _ <-. reflexivity. }
    destruct (cache_hit_skips_provider 0 AnthropicMoreExamples.caching_client
                                       AnthropicExamples.o_extract AnthropicMoreExamples.stale
                                       (Structured JNull) eq_refl) as [_ Hfalsy].
    destruct (Hfalsy eq_refl st' out E) as (reqs & lines & Hs & Hl).
    exists st', reqs, lines. rewrite Hout. split; [reflexivity|]. split; assumption.
Defined.

(** X2. With caching off the cache is neither read nor written: whatever
    the provider answers and however the call ends, the cache is the one
    the call started with. *)
Theorem caching_off_leaves_cache fuel c :
  enableCaching c = false ->
  forall options st st' out,
    createChatCompletion fuel c options st = Some (st', out) ->
    cache st' = cache st.
Proof.
  intros Hoff. induction fuel as [|fuel IH]; intros options st st' out Hrun.
  - discriminate Hrun.
  - rewrite attempt_cases in Hrun.
    unfold usable_answer, cached_answer, on_miss, after_success, after_provider_error,
           after_attempt, cache_after_read in Hrun.
    rewrite Hoff in Hrun. cbn [if_truthy] in Hrun.
    destruct (create c (sent st) (providerRequest options)) as [response|e].
    + destruct (response_model options).
      * destruct (find_tool_use (resp_content response)).
        -- injection Hrun as <- _. reflexivity.
        -- destruct (may_retry (retries options)).
           ++ apply IH in Hrun. exact Hrun.
           ++ injection Hrun as <- _. reflexivity.
      * injection Hrun as <- _. reflexivity.
    + injection Hrun as <- _. reflexivity.
Qed.

Lemma caching_off_leaves_cache_witness :
  exists st' out,
    createChatCompletion 6 AnthropicExamples.silent_client AnthropicExamples.o_extract
                         AnthropicMoreExamples.warm
    = Some (st', out)
    /\ cache st' = cache AnthropicMoreExamples.warm.
Proof.
  destruct (createChatCompletion 6 AnthropicExamples.silent_client
                                 AnthropicExamples.o_extract AnthropicMoreExamples.warm)
    as [[st' out]|] eqn:E; [|vm_compute in E; discriminate E].
  exists st', out. split; [reflexivity|].
  exact (caching_off_leaves_cache 6 AnthropicExamples.silent_client eq_refl
                                  AnthropicExamples.o_extract AnthropicMoreExamples.warm
                                  st' out E).
Defined.

Lemma stored_touch key requestId (cache : LLMCache.t Completion) :
  stored (LLMCache.touch key requestId cache) = stored cache.
Proof.
  unfold stored, LLMCache.touch. rewrite List.map_map. apply List.map_ext.
  intros e. destruct (string_eqb (LLMCache.fingerprint e) key); reflexivity.
Qed.

Lemma stored_after_read c options st :
  stored (cache_after_read c options st) = stored (cache st).
Proof.
  unfold cache_after_read, LLMCache.get. destruct (enableCaching c); [|reflexivity].
  destruct (LLMCache.lookup (hash c (cacheOptions options)) (cache st)); cbn [snd];
    [apply stored_touch|reflexivity].
Qed.

Lemma lookup_in key (cache : LLMCache.t Completion) v :
  LLMCache.lookup key cache = Some v -> In v (List.map LLMCache.value cache).
Proof.
  unfold LLMCache.lookup. intros H.
  destruct (List.find _ cache) as [e|] eqn:E; [|discriminate H].
  injection H as <-. apply List.find_some in E as [Hin _].
  apply List.in_map. exact Hin.
Qed.

(** Where every stored value is truthy, a read that gives the call no
    answer has found nothing, and leaves the cache as it is. *)
Lemma cache_after_read_truthy c options st :
  Forall (fun v => truthy v = true) (List.map LLMCache.value (cache st)) ->
  usable_answer c options st = None ->
  cache_after_read c options st = cache st.
Proof.
  intros Hall Hmiss. apply cache_after_read_miss.
  unfold usable_answer in Hmiss.
  destruct (cached_answer c options st) as [v|] eqn:E; [|reflexivity].
  assert (Hv : truthy v = true).
  { unfold cached_answer in E. destruct (enableCaching c); [|discriminate E].
    apply lookup_in in E. rewrite List.Forall_forall in Hall. apply Hall, E. }
  cbn [if_truthy] in Hmiss. rewrite Hv in Hmiss. discriminate Hmiss.
Qed.

(** X3. A call that rejects has stored nothing: a provider error or the
    exhausted retry bound leaves the keys and the values of the cache as
    they were, with caching on as well as off; where no stored value is
    falsy the cache as a whole is the one the call started with. *)
Theorem rejection_caches_nothing fuel c :
  forall options st st' e,
    createChatCompletion fuel c options st = Some (st', Rejected e) ->
    stored (cache st') = stored (cache st)
    /\ (Forall (fun v => truthy v = true) (List.map LLMCache.value (cache st)) ->
        cache st' = cache st).
Proof.
  induction fuel as [|fuel IH]; intros options st st' e Hrun.
  - discriminate Hrun.
  - rewrite attempt_cases in Hrun.
    destruct (usable_answer c options st) eqn:Hmiss; [discriminate Hrun|].
    unfold on_miss, after_success, after_provider_error in Hrun.
    destruct (create c (sent st) (providerRequest options)) as [response|e0].
    + destruct (response_model options).
      * destruct (find_tool_use (resp_content response)); [discriminate Hrun|].
        destruct (may_retry (retries options)).
        -- apply IH in Hrun as [Hst Hall]. unfold after_attempt in Hst, Hall.
           cbn [cache] in Hst, Hall. rewrite stored_after_read in Hst.
           split; [exact Hst|]. intros Htruthy.
           rewrite (cache_after_read_truthy c options st Htruthy Hmiss) in Hall.
           apply Hall, Htruthy.
        -- injection Hrun as <- _. unfold after_attempt. cbn [cache].
           split; [apply stored_after_read|].
           intros Htruthy. apply cache_after_read_truthy; assumption.
      * discriminate Hrun.
    + injection Hrun as <- _. cbn [cache].
      split; [apply stored_after_read|].
      intros Htruthy. apply cache_after_read_truthy; assumption.
Qed.

Lemma rejection_caches_nothing_witness :
  exists st' e,
    createChatCompletion 6 AnthropicMoreExamples.prose_client
                         AnthropicMoreExamples.o_fresh AnthropicMoreExamples.warm
    = Some (st', Rejected e)
    /\ stored (cache st') = stored (cache AnthropicMoreExamples.warm)
    /\ cache st' = cache AnthropicMoreExamples.warm.
Proof.
  destruct (createChatCompletion 6 AnthropicMoreExamples.prose_client
                                 AnthropicMoreExamples.o_fresh AnthropicMoreExamples.warm)
    as [[st' [v|e]]|] eqn:E;
    [vm_compute in E; discriminate E | | vm_compute in E; discriminate E].
  exists st', e. split; [reflexivity|].
  destruct (rejection_caches_nothing 6 AnthropicMoreExamples.prose_client
                                     AnthropicMoreExamples.o_fresh AnthropicMoreExamples.warm
                                     st' e E) as [Hst Hall].
  split; [exact Hst|]. apply Hall. repeat constructor.
Defined.

(** A falsy value found under the key is read like any other: the entry
    is indexed under the reader's request id although the call goes on to
    the provider and, here, rejects. *)
Example falsy_read_is_indexed :
  exists st' e,
    createChatCompletion 1 AnthropicMoreExamples.offline_client
                         AnthropicExamples.o_extract AnthropicMoreExamples.stale
    = Some (st', Rejected e)
    /\ List.map LLMCache.requestIds (cache st') = [[Some "req1"; Some "req0"]]
    /\ List.map LLMCache.requestIds (cache AnthropicMoreExamples.stale) = [[Some "req0"]].
Proof. eexists _, _. split; [vm_compute; reflexivity|]. split; reflexivity. Qed.

(** X4. Retries are for a missing tool-use block only: when the provider
    call itself rejects, the call rejects with that error after this one
    request, whatever the retry counter and the response model. *)
Theorem provider_error_not_retried fuel c options st e :
  cached_answer c options st = None ->
  create c (sent st) (providerRequest options) = Rejected e ->
  exists st',
    createChatCompletion (S fuel) c options st = Some (st', Rejected e)
    /\ sent st' = sent st ++ [providerRequest options]
    /\ cache st' = cache st.
Proof.
  intros Hmiss Herr. rewrite attempt_cases. unfold usable_answer. rewrite Hmiss.
  cbn [if_truthy]. unfold on_miss. rewrite Herr.
  eexists. split; [reflexivity|]. split; [reflexivity|].
  cbn [after_provider_error cache]. apply cache_after_read_miss, Hmiss.
Qed.

Lemma provider_error_not_retried_witness :
  exists st',
    createChatCompletion 6 AnthropicMoreExamples.offline_client
                         AnthropicExamples.o_extract AnthropicExamples.st0
    = Some (st', Rejected (mkError "Connection error." "at Anthropic.request"))
    /\ sent st' = sent AnthropicExamples.st0 ++ [providerRequest AnthropicExamples.o_extract]
    /\ cache st' = cache AnthropicExamples.st0.
Proof.
  apply (provider_error_not_retried 5 AnthropicMoreExamples.offline_client
                                    AnthropicExamples.o_extract AnthropicExamples.st0);
    reflexivity.
Defined.

(** With the counter at [5 - n], a call settles within [n + 1] requests. *)
Lemma settles_within c :
  forall n options st fuel,
    retries options = Some (5 - Z.of_nat n)%Z ->
    (n <= 5)%nat ->
    (S n <= fuel)%nat ->
    exists st' out,
      createChatCompletion fuel c options st = Some (st', out)
      /\ exists reqs, sent st' = sent st ++ reqs /\ (length reqs <= S n)%nat.
Proof.
  induction n as [|n IH]; intros options st fuel Hr Hn Hfuel;
    (destruct fuel as [|fuel]; [lia|]);
    rewrite attempt_cases;
    (destruct (usable_answer c options st) as [v|];
     [eexists _, _; split; [reflexivity|]; exists []; cbn; rewrite app_nil_r; split; [reflexivity|lia]|]);
    unfold on_miss;
    (destruct (create c (sent st) (providerRequest options)) as [response|e];
     [|eexists _, _; split; [reflexivity|];
       exists [providerRequest options]; split; [reflexivity|cbn; lia]]);
    (destruct (response_model options) as [rm|];
     [|eexists _, _; split; [reflexivity|];
       exists [providerRequest options];
       split; [unfold after_success; destruct (enableCaching c); reflexivity|cbn; lia]]);
    (destruct (find_tool_use (resp_content response)) as [input|];
     [eexists _, _; split; [reflexivity|];
      exists [providerRequest options];
      split; [unfold after_success; destruct (enableCaching c); reflexivity|cbn; lia]|]);
    rewrite Hr.
  - replace (may_retry (Some (5 - Z.of_nat 0)%Z)) with false by reflexivity.
    eexists _, _. split; [reflexivity|].
    exists [providerRequest options]. split; [reflexivity|cbn; lia].
  - replace (may_retry (Some (5 - Z.of_nat (S n))%Z)) with true.
    2:{ symmetry. unfold may_retry. apply orb_true_iff. right. apply Z.ltb_lt. lia. }
    destruct (IH (retry_options options) (after_attempt c options response st) fuel)
      as (st' & out & Hrun & reqs & Hsent & Hlen).
    + cbn [retry_options with_retries retries]. rewrite Hr. cbn [nullish]. f_equal. lia.
    + lia.
    + lia.
    + exists st', out. split; [exact Hrun|].
      exists (providerRequest options :: reqs). split.
      * rewrite Hsent. cbn [after_attempt sent]. rewrite <- app_assoc. reflexivity.
      * cbn [length]. lia.
Qed.

(** X5. A call entered without a retry counter always settles, and it does
    so after at most six provider requests, whatever the provider answers
    and whatever the cache holds. *)
Theorem at_most_six_requests c options st fuel :
  retries options = None ->
  (6 <= fuel)%nat ->
  exists st' out reqs,
    createChatCompletion fuel c options st = Some (st', out)
    /\ sent st' = sent st ++ reqs
    /\ (length reqs <= 6)%nat.
Proof.
  intros Hfresh Hfuel. destruct fuel as [|fuel]; [lia|].
  rewrite attempt_cases.
  destruct (usable_answer c options st) as [v|].
  { eexists _, _, []. split; [reflexivity|]. cbn. rewrite app_nil_r. split; [reflexivity|lia]. }
  unfold on_miss.
  destruct (create c (sent st) (providerRequest options)) as [response|e].
  2:{ eexists _, _, [providerRequest options]. split; [reflexivity|].
      split; [reflexivity|cbn; lia]. }
  destruct (response_model options) as [rm|].
  2:{ eexists _, _, [providerRequest options]. split; [reflexivity|].
      split; [unfold after_success; destruct (enableCaching c); reflexivity|cbn; lia]. }
  destruct (find_tool_use (resp_content response)) as [input|].
  { eexists _, _, [providerRequest options]. split; [reflexivity|].
    split; [unfold after_success; destruct (enableCaching c); reflexivity|cbn; lia]. }
  rewrite Hfresh. cbn [may_retry].
  destruct (settles_within c 4 (retry_options options)
                           (after_attempt c options response st) fuel)
    as (st' & out & Hrun & reqs & Hsent & Hlen).
  - cbn [retry_options with_retries retries]. rewrite Hfresh. reflexivity.
  - lia.
  - lia.
  - exists st', out, (providerRequest options :: reqs).
    split; [exact Hrun|]. split.
    + rewrite Hsent. cbn [after_attempt sent]. rewrite <- app_assoc. reflexivity.
    + cbn [length]. lia.
Qed.

Lemma at_most_six_requests_witness :
  exists st' out reqs,
    createChatCompletion 6 AnthropicExamples.third_time_client
                         AnthropicExamples.o_extract AnthropicExamples.st0
    = Some (st', out)
    /\ sent st' = sent AnthropicExamples.st0 ++ reqs
    /\ (length reqs <= 6)%nat.
Proof.
  apply (at_most_six_requests AnthropicExamples.third_time_client
                              AnthropicExamples.o_extract AnthropicExamples.st0 6).
  - reflexivity.
  - lia.
Defined.

(** ** Retries and the screenshot message *)

Lemma retry_options_image options : image (retry_options options) = image options.
Proof.
  unfold retry_options, with_screenshot.
  destruct (image options) eqn:E; cbn; rewrite ?E; reflexivity.
Qed.

Lemma nth_retry_image n options : image (nth_retry n options) = image options.
Proof.
  induction n as [|n IH]; [reflexivity|].
  change (nth_retry (S n) options) with (retry_options (nth_retry n options)).
  rewrite retry_options_image. exact IH.
Qed.

Lemma nth_retry_messages n options img :
  image options = Some img ->
  messages (nth_retry n options) = messages options ++ repeat (screenshotMessage img) n.
Proof.
  intros Hi. induction n as [|n IH]; [cbn; rewrite app_nil_r; reflexivity|].
  change (nth_retry (S n) options) with (retry_options (nth_retry n options)).
  unfold retry_options, with_screenshot.
  rewrite nth_retry_image, Hi. cbn [with_retries with_messages messages].
  rewrite IH, <- app_assoc. f_equal.
  change (repeat (screenshotMessage img) n ++ [screenshotMessage img])
    with (repeat (screenshotMessage img) n ++ repeat (screenshotMessage img) 1).
  rewrite <- repeat_app. f_equal. lia.
Qed.

Lemma image_count_request options :
  image_count (providerRequest options)
  = length (List.filter is_image_message
              (List.filter (fun m => negb (is_system m)) (messages options))).
Proof.
  unfold image_count. rewrite providerRequest_messages. reflexivity.
Qed.

Lemma image_count_nth_retry n options img :
  image options = Some img ->
  image_count (providerRequest (nth_retry n options))
  = (image_count (providerRequest options) + n)%nat.
Proof.
  intros Hi. rewrite !image_count_request, (nth_retry_messages n options img Hi).
  rewrite !List.filter_app, length_app. f_equal.
  assert (Hs : is_system (screenshotMessage img) = false) by reflexivity.
  assert (Hm : is_image_message (screenshotMessage img) = true) by reflexivity.
  induction n as [|n IH]; [reflexivity|].
  cbn [repeat List.filter]. rewrite Hs. cbn [negb List.filter]. rewrite Hm.
  cbn [length]. rewrite IH. reflexivity.
Qed.

Lemma nth_retry_shift k options :
  nth_retry k (retry_options options) = nth_retry (S k) options.
Proof. unfold nth_retry. symmetry. apply Nat.iter_succ_r. Qed.

Lemma retry_requests_shift n options :
  providerRequest options :: retry_requests n (retry_options options)
  = retry_requests (S n) options.
Proof.
  unfold retry_requests. cbn [seq List.map]. f_equal.
  rewrite <- seq_shift, List.map_map. apply List.map_ext. intros k.
  rewrite nth_retry_shift. reflexivity.
Qed.

Lemma exhaust_requests c rm :
  never_tool_use c ->
  forall n options st,
    response_model options = Some rm ->
    cold c st ->
    retries options = Some (5 - Z.of_nat n)%Z ->
    (n <= 4)%nat ->
    forall fuel, (S n <= fuel)%nat ->
    exists st',
      createChatCompletion fuel c options st = Some (st', Rejected no_tool_use_error)
      /\ sent st' = sent st ++ retry_requests (S n) options.
Proof.
  intros Hnever n.
  induction n as [|n IH]; intros options st Hrm Hcold Hr Hn fuel Hfuel;
    (destruct fuel as [|fuel]; [lia|]);
    destruct (Hnever (sent st) (providerRequest options)) as (response & Hresp & Hnone);
    apply find_tool_use_without in Hnone;
    rewrite attempt_cases, (cold_usable c options st Hcold);
    unfold on_miss; rewrite Hresp, Hrm, Hnone, Hr.
  - replace (may_retry (Some (5 - Z.of_nat 0)%Z)) with false by reflexivity.
    eexists. split; reflexivity.
  - replace (may_retry (Some (5 - Z.of_nat (S n))%Z)) with true.
    2:{ symmetry. unfold may_retry. apply orb_true_iff. right. apply Z.ltb_lt. lia. }
    cbv zeta.
    destruct (IH (retry_options options) (after_attempt c options response st))
      with (fuel := fuel) as (st' & Hrun & Hsent).
    + rewrite retry_options_response_model. exact Hrm.
    + apply cold_after_attempt, Hcold.
    + rewrite retry_options_retries, Hr. cbn [nullish]. f_equal. lia.
    + lia.
    + lia.
    + exists st'. split; [exact Hrun|].
      rewrite Hsent, sent_after_attempt. rewrite <- app_assoc. cbn [app].
      rewrite retry_requests_shift. reflexivity.
Qed.

(** X6. With an image attached and a provider that never uses the tool,
    the first request carries no screenshot message of the call and each
    retry carries one more: the screenshot message is appended to the
    options again on every attempt, so the [k]-th retry sends [k] copies. *)
Theorem retries_pile_up_screenshots c options rm img st fuel :
  response_model options = Some rm ->
  image options = Some img ->
  retries options = None ->
  cold c st ->
  never_tool_use c ->
  (6 <= fuel)%nat ->
  exists st' reqs,
    createChatCompletion fuel c options st = Some (st', Rejected no_tool_use_error)
    /\ sent st' = sent st ++ reqs
    /\ List.map image_count reqs
       = List.map (fun k => (image_count (providerRequest options) + k)%nat) (seq 0 6).
Proof.
  intros Hrm Hi Hfresh Hcold Hnever Hfuel.
  destruct fuel as [|fuel]; [lia|].
  destruct (Hnever (sent st) (providerRequest options)) as (response & Hresp & Hnone).
  apply find_tool_use_without in Hnone.
  rewrite attempt_cases, (cold_usable c options st Hcold).
  unfold on_miss. rewrite Hresp, Hrm, Hnone, Hfresh. cbn [may_retry].
  destruct (exhaust_requests c rm Hnever 4 (retry_options options)
                             (after_attempt c options response st))
    with (fuel := fuel) as (st' & Hrun & Hsent).
  - rewrite retry_options_response_model. exact Hrm.
  - apply cold_after_attempt, Hcold.
  - rewrite retry_options_retries, Hfresh. reflexivity.
  - lia.
  - lia.
  - exists st', (retry_requests 6 options). split; [exact Hrun|]. split.
    + rewrite Hsent, sent_after_attempt. rewrite <- app_assoc. cbn [app].
      rewrite retry_requests_shift. reflexivity.
    + unfold retry_requests. rewrite List.map_map. apply List.map_ext. intros k.
      apply (image_count_nth_retry k options img Hi).
Qed.

Lemma retries_pile_up_screenshots_witness :
  exists st' reqs,
    createChatCompletion 6 AnthropicExamples.silent_client
                         AnthropicMoreExamples.o_vision_extract AnthropicExamples.st0
    = Some (st', Rejected no_tool_use_error)
    /\ sent st' = sent AnthropicExamples.st0 ++ reqs
    /\ List.map image_count reqs
       = List.map (fun k => (image_count
                               (providerRequest AnthropicMoreExamples.o_vision_extract)
                             + k)%nat) (seq 0 6).
Proof.
  apply (retries_pile_up_screenshots
           AnthropicExamples.silent_client AnthropicMoreExamples.o_vision_extract
           AnthropicExamples.title_model (mkImage [77; 97; 110]%N (Some "annotated screenshot"))
           AnthropicExamples.st0 6 eq_refl eq_refl eq_refl).
  - intros _ key. reflexivity.
  - exact silent_client_never_tool_use.
  - lia.
Defined.

(** ** What ends up in the cache *)

Lemma lookup_set_eq {V} key (v : V) rid c :
  LLMCache.lookup key (LLMCache.set key v rid c) = Some v.
Proof.
  unfold LLMCache.lookup, LLMCache.set. cbn [List.find LLMCache.fingerprint].
  unfold string_eqb. rewrite bool_decide_eq_true_2 by reflexivity. reflexivity.
Qed.

Lemma find_filter_other {V} key key' (c : LLMCache.t V) :
  key <> key' ->
  List.find (fun e => string_eqb (LLMCache.fingerprint e) key)
            (List.filter (fun e => negb (string_eqb (LLMCache.fingerprint e) key')) c)
  = List.find (fun e => string_eqb (LLMCache.fingerprint e) key) c.
Proof.
  intros Hne. induction c as [|e c IH]; [reflexivity|]. cbn.
  unfold string_eqb in *.
  destruct (bool_decide (LLMCache.fingerprint e = key')) eqn:E'; cbn.
  - apply bool_decide_eq_true_1 in E'.
    rewrite bool_decide_eq_false_2 by congruence. exact IH.
  - destruct (bool_decide (LLMCache.fingerprint e = key)); [reflexivity|exact IH].
Qed.

Lemma lookup_set_ne {V} key key' (v : V) rid c :
  key <> key' ->
  LLMCache.lookup key (LLMCache.set key' v rid c) = LLMCache.lookup key c.
Proof.
  intros Hne. unfold LLMCache.lookup, LLMCache.set. cbn [List.find LLMCache.fingerprint].
  unfold string_eqb at 1. rewrite bool_decide_eq_false_2 by congruence.
  rewrite find_filter_other by exact Hne. reflexivity.
Qed.

(** X7. A structured result obtained on a retry is stored under the key of
    the retried call, which holds the incremented counter, and not under
    the key of the call as the caller made it: a repetition of the
    original call does not find it. *)
Theorem retry_result_cached_under_retry_key c options rm st r1 r2 input fuel :
  enableCaching c = true ->
  cold c st ->
  response_model options = Some rm ->
  retries options = None ->
  create c (sent st) (providerRequest options) = Resolved r1 ->
  find_tool_use (resp_content r1) = None ->
  create c (sent st ++ [providerRequest options]) (providerRequest (retry_options options))
  = Resolved r2 ->
  find_tool_use (resp_content r2) = Some input ->
  hash c (cacheOptions options) <> hash c (cacheOptions (retry_options options)) ->
  exists st',
    createChatCompletion (S (S fuel)) c options st
    = Some (st', Resolved (Structured input))
    /\ LLMCache.lookup (hash c (cacheOptions (retry_options options))) (cache st')
       = Some (Structured input)
    /\ cached_answer c options st' = None.
Proof.
  intros Hon Hcold Hrm Hfresh H1 Hnone H2 Htool Hkeys.
  rewrite attempt_cases, (cold_usable c options st Hcold).
  unfold on_miss. rewrite H1, Hrm, Hnone, Hfresh. cbn [may_retry].
  rewrite attempt_cases, (cold_usable c _ _ (cold_after_attempt c options r1 st Hcold)).
  unfold on_miss. rewrite sent_after_attempt, H2.
  rewrite retry_options_response_model, Hrm, Htool.
  eexists. split; [reflexivity|]. unfold after_success. rewrite Hon. cbn [cache]. split.
  - apply lookup_set_eq.
  - unfold cached_answer. rewrite Hon. cbn [cache].
    rewrite lookup_set_ne by exact Hkeys.
    apply (cold_after_attempt c _ r2 _ (cold_after_attempt c options r1 st Hcold)), Hon.
Qed.

Lemma retry_result_cached_under_retry_key_witness :
  exists st',
    createChatCompletion 2 AnthropicMoreExamples.second_time_client
                         AnthropicExamples.o_extract AnthropicExamples.st0
    = Some (st', Resolved (Structured (JObj [("title", JStr "Home")])))
    /\ LLMCache.lookup
         (hash AnthropicMoreExamples.second_time_client
               (cacheOptions (retry_options AnthropicExamples.o_extract)))
         (cache st')
       = Some (Structured (JObj [("title", JStr "Home")]))
    /\ cached_answer AnthropicMoreExamples.second_time_client
                     AnthropicExamples.o_extract st' = None.
Proof.
  apply (retry_result_cached_under_retry_key
           AnthropicMoreExamples.second_time_client AnthropicExamples.o_extract
           AnthropicExamples.title_model AnthropicExamples.st0
           AnthropicExamples.text_only AnthropicExamples.with_tool
           (JObj [("title", JStr "Home")]) 0);
    try reflexivity.
  - intros _ key. reflexivity.
  - vm_compute. discriminate.
Defined.

(** X8. With caching on, an answer the call keeps is stored under the key
    of the options as they were passed.  With an image the call has by
    then assigned the messages with the screenshot message appended to the
    options object of the caller.  A call with options equal to those
    first passed is answered from the cache with the same value and sends
    nothing when the value is truthy; a falsy value, such as a tool input
    [null], is stored but not served, and the repeated call sends its
    request again.  A repetition through the options object as the first
    call left it looks under the key of the extended messages, where the
    first call has stored nothing. *)
Theorem repeated_call_served_from_cache c options st response v fuel fuel' :
  enableCaching c = true ->
  usable_answer c options st = None ->
  create c (sent st) (providerRequest options) = Resolved response ->
  kept options c st response = Some v ->
  exists st1,
    createChatCompletion (S fuel) c options st = Some (st1, Resolved v)
    /\ sent st1 = sent st ++ [providerRequest options]
    /\ assigned st1
       = assigned st
         ++ match image options with
            | Some img =>
                [with_messages options (messages options ++ [screenshotMessage img])]
            | None => []
            end
    /\ cached_answer c options st1 = Some v
    /\ (truthy v = true ->
        exists st2,
          createChatCompletion (S fuel') c options st1 = Some (st2, Resolved v)
          /\ sent st2 = sent st1
          /\ assigned st2 = assigned st1)
    /\ (truthy v = false ->
        forall st2 out,
          createChatCompletion (S fuel') c options st1 = Some (st2, out) ->
          exists reqs, sent st2 = sent st1 ++ providerRequest options :: reqs)
    /\ (hash c (cacheOptions (with_screenshot options)) <> hash c (cacheOptions options) ->
        cached_answer c (with_screenshot options) st1
        = cached_answer c (with_screenshot options) st).
Proof.
  intros Hon Hmiss Hresp Hkept.
  assert (Hfirst : createChatCompletion (S fuel) c options st
                   = Some (after_success c options response v st, Resolved v)).
  { rewrite attempt_cases, Hmiss. unfold on_miss, kept in *. rewrite Hresp.
    destruct (response_model options).
    - destruct (find_tool_use (resp_content response)); [|discriminate Hkept].
      injection Hkept as <-. reflexivity.
    - injection Hkept as <-. reflexivity. }
  assert (Hstored : cached_answer c options (after_success c options response v st) = Some v).
  { unfold cached_answer, after_success. rewrite Hon. cbn [cache]. apply lookup_set_eq. }
  exists (after_success c options response v st).
  split; [exact Hfirst|].
  split; [unfold after_success; rewrite Hon; reflexivity|].
  split.
  { unfold after_success, after_attempt, assigned_after, with_screenshot.
    rewrite Hon. cbn [assigned]. destruct (image options); reflexivity. }
  split; [exact Hstored|].
  split; [|split].
  - intros Hv. eexists. rewrite attempt_cases. unfold usable_answer.
    rewrite Hstored. cbn [if_truthy]. rewrite Hv.
    split; [reflexivity|]. split; reflexivity.
  - intros Hv st2 out Hrun.
    destruct (miss_sends_request c fuel' options
                                 (after_success c options response v st) st2 out)
      as (reqs & _ & Hs & _); [|exact Hrun|exists reqs; exact Hs].
    unfold usable_answer. rewrite Hstored. cbn [if_truthy]. rewrite Hv. reflexivity.
  - intros Hkeys. unfold cached_answer, after_success, after_attempt.
    rewrite Hon. cbn [cache].
    rewrite lookup_set_ne by exact Hkeys. apply lookup_after_read.
Qed.

Lemma repeated_call_served_from_cache_witness :
  (exists st1 st2,
      createChatCompletion 1 AnthropicMoreExamples.caching_client
                           AnthropicExamples.o_extract AnthropicExamples.st0
      = Some (st1, Resolved (Structured (JObj [("title", JStr "Home")])))
      /\ createChatCompletion 1 AnthropicMoreExamples.caching_client
                              AnthropicExamples.o_extract st1
         = Some (st2, Resolved (Structured (JObj [("title", JStr "Home")])))
      /\ sent st2 = sent st1
      /\ sent st1 = sent AnthropicExamples.st0 ++ [providerRequest AnthropicExamples.o_extract])
  /\ (exists st1 st2 reqs,
         createChatCompletion 1 AnthropicMoreExamples.null_client
                              AnthropicMoreExamples.o_vision_extract AnthropicExamples.st0
         = Some (st1, Resolved (Structured JNull))
         /\ assigned st1
            = [with_screenshot AnthropicMoreExamples.o_vision_extract]
         /\ createChatCompletion 1 AnthropicMoreExamples.null_client
                                 AnthropicMoreExamples.o_vision_extract st1
            = Some (st2, Resolved (Structured JNull))
         /\ sent st2
            = sent st1 ++ providerRequest AnthropicMoreExamples.o_vision_extract :: reqs).
Proof.
  split.
  - destruct (repeated_call_served_from_cache
                AnthropicMoreExamples.caching_client AnthropicExamples.o_extract
                AnthropicExamples.st0 AnthropicExamples.with_tool
                (Structured (JObj [("title", JStr "Home")])) 0 0
                eq_refl eq_refl eq_refl eq_refl)
      as (st1 & H1 & Hs & _ & _ & Htruthy & _).
    destruct (Htruthy eq_refl) as (st2 & H2 & Hs2 & _).
    exists st1, st2. repeat split; assumption.
  - destruct (repeated_call_served_from_cache
                AnthropicMoreExamples.null_client AnthropicMoreExamples.o_vision_extract
                AnthropicExamples.st0 AnthropicMoreExamples.with_null_tool
                (Structured JNull) 0 0
                eq_refl eq_refl eq_refl eq_refl)
      as (st1 & H1 & _ & Ha & _ & _ & Hfalsy & _).
    specialize (Hfalsy eq_refl).
    assert (H2 : option_map snd
                   (createChatCompletion 1 AnthropicMoreExamples.null_client
                                         AnthropicMoreExamples.o_vision_extract st1)
                 = Some (Resolved (Structured JNull))).
    { pose proof H1 as H1'. vm_compute in H1'. injection H1' as <-.
      vm_compute. reflexivity. }
    destruct (createChatCompletion 1 AnthropicMoreExamples.null_client
                                   AnthropicMoreExamples.o_vision_extract st1)
      as [[st2 out]|] eqn:E2; [|discriminate H2].
    cbn in H2. injection H2 as ->.
    destruct (Hfalsy st2 _ eq_refl) as (reqs & Hs2).
    exists st1, st2, reqs. split; [exact H1|]. split; [exact Ha|].
    split; [exact E2|exact Hs2].
Defined.

(** ** The shape of the request *)

Lemma is_system_role m : is_system m = true <-> role m = "system".
Proof. unfold is_system, string_eqb. apply bool_decide_eq_true. Qed.

Lemma find_first_system pre s post :
  Forall (fun m => role m <> "system") pre ->
  role s = "system" ->
  List.find is_system (pre ++ s :: post) = Some s.
Proof.
  intros Hpre Hs. induction Hpre as [|m pre Hm _ IH]; cbn.
  - apply is_system_role in Hs. rewrite Hs. reflexivity.
  - destruct (is_system m) eqn:E; [apply is_system_role in E; contradiction|exact IH].
Qed.

(** X9. System messages never travel in the message list: the request's
    messages are the caller's non-system messages in their order, the
    [system] field is the content of the first system message, and any
    further system message is dropped; without a system message the field
    is undefined. *)
Theorem system_messages_leave_the_list options :
  Forall (fun m => role m <> "system") (req_messages (providerRequest options))
  /\ req_messages (providerRequest options)
     = List.filter (fun m => negb (is_system m)) (messages options)
  /\ (forall pre s post,
        messages options = pre ++ s :: post ->
        Forall (fun m => role m <> "system") pre ->
        role s = "system" ->
        req_system (providerRequest options) = Some (content s))
  /\ (Forall (fun m => role m <> "system") (messages options) ->
      req_system (providerRequest options) = None).
Proof.
  split; [|split; [|split]].
  - rewrite providerRequest_messages.
    apply List.Forall_forall. intros m Hin. apply List.filter_In in Hin as [_ Hm].
    intros Hs. apply is_system_role in Hs. rewrite Hs in Hm. discriminate Hm.
  - apply providerRequest_messages.
  - intros pre s post Hms Hpre Hs. unfold providerRequest, request. cbn [req_system].
    rewrite Hms, (find_first_system pre s post Hpre Hs). reflexivity.
  - intros Hnone. unfold providerRequest, request. cbn [req_system].
    induction Hnone as [|m ms Hm _ IH]; [reflexivity|]. cbn.
    destruct (is_system m) eqn:E; [apply is_system_role in E; contradiction|exact IH].
Qed.

Lemma system_messages_leave_the_list_witness :
  req_system (providerRequest AnthropicMoreExamples.o_tools) = Some (Text "First.")
  /\ req_messages (providerRequest AnthropicMoreExamples.o_tools)
     = [mkMessage "user" (Text "Hello."); mkMessage "assistant" (Text "Hi.")].
Proof.
  destruct (system_messages_leave_the_list AnthropicMoreExamples.o_tools)
    as (_ & Hms & Hfirst & _).
  split.
  - apply (Hfirst [] (mkMessage "system" (Text "First."))
                  [mkMessage "user" (Text "Hello.");
                   mkMessage "system" (Text "Second.");
                   mkMessage "assistant" (Text "Hi.")]).
    + reflexivity.
    + constructor.
    + reflexivity.
  - rewrite Hms. reflexivity.
Defined.

(** X10. With a response model the tool list that is sent is never empty:
    it holds the caller's tools under their names, in their order, and
    last the extraction tool [print_extracted_data]. *)
Theorem extraction_tool_is_appended options rm :
  response_model options = Some rm ->
  exists sent_tools,
    req_tools (providerRequest options) = Some sent_tools
    /\ List.map tool_name sent_tools
       = List.map name_of_tool (nullish (tools options) []) ++ ["print_extracted_data"]
    /\ List.last sent_tools (toolDefinition rm) = toolDefinition rm.
Proof.
  intros Hrm. unfold providerRequest, request. cbn [req_tools].
  unfold anthropicTools. rewrite Hrm.
  eexists. split; [reflexivity|]. split.
  - rewrite List.map_app. f_equal.
    destruct (tools options) as [ts|]; [|reflexivity]. cbn [fmap option_fmap option_map nullish].
    rewrite List.map_map. apply List.map_ext. intros [f|t]; reflexivity.
  - apply List.last_last.
Qed.

Lemma extraction_tool_is_appended_witness :
  exists sent_tools,
    req_tools (providerRequest AnthropicMoreExamples.o_tools) = Some sent_tools
    /\ List.map tool_name sent_tools = ["search"; "print_extracted_data"]
    /\ List.last sent_tools (toolDefinition AnthropicExamples.title_model)
       = toolDefinition AnthropicExamples.title_model.
Proof.
  exact (extraction_tool_is_appended AnthropicMoreExamples.o_tools
                                     AnthropicExamples.title_model eq_refl).
Defined.

(** X11. The structured result of a call is the input of the first
    tool-use block of the response, that is, the arguments of the first
    tool call of the transformed response the client logs; the transformed
    response lists one tool call per tool-use block. *)
Theorem structured_result_is_first_tool_call created response :
  find_tool_use (resp_content response)
  = call_arguments <$> List.head (tr_tool_calls (transformedResponse created response))
  /\ length (tr_tool_calls (transformedResponse created response))
     = length (List.filter (fun b => match b with
                                     | ToolUseBlock _ _ _ => true
                                     | TextBlock _ => false
                                     end) (resp_content response)).
Proof.
  unfold transformedResponse. cbn [tr_tool_calls].
  induction (resp_content response) as [|b bs [IH1 IH2]]; [split; reflexivity|].
  destruct b as [t|id name input]; cbn.
  - split; [exact IH1|exact IH2].
  - split; [reflexivity|]. f_equal. exact IH2.
Qed.
End AnthropicClientExtras.

(** * Further properties of [Stagehand] *)
Module StagehandExtras.
Import Stagehand StagehandRuns.
Import StagehandProofs.

(** ** [_extract] *)

(** X12. [_extract] stops at the first response that reports completion,
    however many chunks are left: one inference call, and the value is that
    response without its metadata. *)
Theorem extract_stops_when_completed w fuel p st dom response :
  page st = true ->
  processDom w (at_snapshot (x_domSettleTimeoutMs p) st) (x_chunksSeen p) = Resolved dom ->
  answer (inference_extract w (at_snapshot (x_domSettleTimeoutMs p) st
                               ++ [ProcessDom (x_chunksSeen p)])
                            (extract_request p st dom))
  = Resolved response ->
  metadata_completed response = true ->
  exists st' evs,
    _extract (S fuel) w p st = Some (st', Resolved (output response))
    /\ history st' = history st ++ evs
    /\ extract_calls evs = [extract_request p st dom]
    /\ dom_calls evs = [x_chunksSeen p].
Proof.
  intros Hp Hdom Hresp Hdone.
  destruct (extract_round w fuel p st dom response Hp Hdom Hresp)
    as (st1 & _ & (evs & Hh & Hd & He) & Hrun).
  rewrite Hdone in Hrun. cbn [orb] in Hrun.
  exists st1, evs. repeat split; assumption.
Qed.

Lemma extract_stops_when_completed_witness :
  exists st' evs,
    _extract 1 StagehandMoreExamples.w_eager StagehandMoreExamples.first_round
             (StagehandExamples.session false "gpt-4o")
    = Some (st', Resolved [("title", JStr "Home")])
    /\ history st' = history (StagehandExamples.session false "gpt-4o") ++ evs
    /\ List.map ex_chunksTotal (extract_calls evs) = [2]
    /\ dom_calls evs = [[]].
Proof.
  destruct (extract_stops_when_completed
              StagehandMoreExamples.w_eager 0 StagehandMoreExamples.first_round
              (StagehandExamples.session false "gpt-4o")
              (StagehandExamples.two_chunk_dom [])
              (mkExtraction [("title", JStr "Home")] "done" true)
              eq_refl eq_refl eq_refl eq_refl)
    as (st' & evs & Hrun & Hh & He & Hd).
  exists st', evs. repeat split; try assumption. rewrite He. reflexivity.
Defined.

(** X13. The end test compares the lengths for equality after the push:
    on a page whose chunk total is not above the number of chunks already
    seen (a page reporting no chunks, to begin with) and with a model that
    never reports completion, [_extract] never returns, whatever the
    depth allowed to the recursion. *)
Theorem extract_never_returns_without_chunks w :
  chunks_never_left w ->
  never_completed w ->
  forall fuel p st, page st = true -> _extract fuel w p st = None.
Proof.
  intros Hchunks Hmodel. induction fuel as [|fuel IH]; intros p st Hp; [reflexivity|].
  destruct (Hchunks (at_snapshot (x_domSettleTimeoutMs p) st) (x_chunksSeen p))
    as (dom & Hdom & Hlen).
  destruct (Hmodel (at_snapshot (x_domSettleTimeoutMs p) st ++ [ProcessDom (x_chunksSeen p)])
                   (extract_request p st dom))
    as (response & Hresp & Hgoing).
  destruct (extract_round w fuel p st dom response Hp Hdom Hresp)
    as (st1 & Hf & _ & Hrun).
  rewrite Hrun, Hgoing. cbn [orb].
  replace (length (x_chunksSeen p ++ [chunk dom]) =? length (chunks dom))%nat with false.
  - apply IH. rewrite (proj1 Hf). exact Hp.
  - symmetry. apply Nat.eqb_neq. rewrite length_app. cbn [length]. lia.
Qed.

Lemma extract_never_returns_without_chunks_witness :
  _extract 1000 StagehandMoreExamples.w_empty
           (extract_params StagehandExamples.extract_title "r0")
           (StagehandExamples.session false "gpt-4o")
  = None.
Proof.
  apply (extract_never_returns_without_chunks StagehandMoreExamples.w_empty).
  - intros h seen. exists StagehandMoreExamples.empty_dom. split; [reflexivity|cbn; lia].
  - intros h r. eexists. split; reflexivity.
  - reflexivity.
Defined.

(** The first steps of a round, up to the call of the page's chunker. *)
Lemma extract_to_snapshot w fuel p st :
  page st = true ->
  exists s2,
    frame st s2
    /\ history s2 = at_snapshot (x_domSettleTimeoutMs p) st ++ [ProcessDom (x_chunksSeen p)]
    /\ _extract (S fuel) w p st
       = match processDom w (at_snapshot (x_domSettleTimeoutMs p) st) (x_chunksSeen p) with
         | Rejected e => Some (s2, Rejected e)
         | Resolved dom =>
             match answer (inference_extract w (history s2) (extract_request p st dom)) with
             | Rejected e =>
                 Some (inferred (x_requestId p)
                                (cached (inference_extract w (history s2)
                                                           (extract_request p st dom)))
                                (record (InferenceExtract (extract_request p st dom))
                                        (set_logs
                                           (fun ls => ls ++ [mkLog (Some "extraction")
                                              ("received output from processDom. Current chunk index: "
                                               +:+ pretty (chunk dom)
                                               +:+ ", Number of chunks left: "
                                               +:+ pretty (Z.of_nat (length (chunks dom))
                                                           - Z.of_nat (length (x_chunksSeen p)))%Z)
                                              1]) s2)),
                       Rejected e)
             | Resolved _ => _extract (S fuel) w p st
             end
         end.
Proof.
  intros Hp. cbn [_extract].
  erewrite bind_run by apply log_run.
  erewrite bind_run by apply wait_run.
  match goal with |- context [after_wait w ?a ?s] =>
    remember (after_wait w a s) as s1 eqn:Es1 end.
  assert (Hf1 : frame st s1).
  { subst s1. eapply frame_trans; [|apply after_wait_frame]. unfold frame. cbn. auto. }
  assert (Hp1 : page s1 = true) by (rewrite (proj1 Hf1); exact Hp).
  assert (Hh1 : history s1
                = history st ++ [SettleWait (nullish (x_domSettleTimeoutMs p)
                                                     (domSettleTimeoutMs st))]).
  { subst s1. rewrite after_wait_history. cbn. rewrite Hp. reflexivity. }
  erewrite bind_run by (apply startDomDebug_run; exact Hp1).
  exists (record (ProcessDom (x_chunksSeen p)) (record DebugDom s1)).
  split; [|split].
  - eapply frame_trans; [exact Hf1|]. unfold frame. cbn. auto.
  - cbn [history record]. unfold at_snapshot. rewrite Hh1, <- !app_assoc. reflexivity.
  - assert (Hsnap : history (record DebugDom s1) = at_snapshot (x_domSettleTimeoutMs p) st).
    { cbn [history record]. unfold at_snapshot. rewrite Hh1, <- app_assoc. reflexivity. }
    destruct (processDom w (at_snapshot (x_domSettleTimeoutMs p) st) (x_chunksSeen p))
      as [dom|e] eqn:Hdom.
    + erewrite bind_run.
      2:{ rewrite processDom_run by exact Hp1. rewrite Hsnap, Hdom. reflexivity. }
      erewrite bind_run by apply log_run.
      erewrite bind_run by reflexivity.
      match goal with |- context [extract_inference w ?r] =>
        replace r with (extract_request p st dom)
          by (unfold extract_request; f_equal; cbn;
              rewrite (proj1 (proj2 Hf1)); reflexivity)
      end.
      destruct (answer (inference_extract w _ (extract_request p st dom)))
        as [response|e] eqn:Hresp; [reflexivity|].
      erewrite bind_fail; [reflexivity|].
      rewrite extract_inference_run. cbv zeta.
      cbn [history record set_logs] in *. rewrite Hresp. reflexivity.
    + erewrite bind_fail; [reflexivity|].
      rewrite processDom_run by exact Hp1. rewrite Hsnap, Hdom. reflexivity.
Qed.

(** X14. A failure inside a round ends [_extract] at once with that error.
    When the page's chunker rejects, the model is not called; when the
    model call rejects, [cleanupDomDebug] is not reached, so the debug
    overlay that [startDomDebug] started is left in place. *)
Theorem extract_failure_skips_the_rest w fuel p st e :
  page st = true ->
  (processDom w (at_snapshot (x_domSettleTimeoutMs p) st) (x_chunksSeen p) = Rejected e ->
   exists st',
     _extract (S fuel) w p st = Some (st', Rejected e)
     /\ history st'
        = at_snapshot (x_domSettleTimeoutMs p) st ++ [ProcessDom (x_chunksSeen p)])
  /\ (forall dom,
        processDom w (at_snapshot (x_domSettleTimeoutMs p) st) (x_chunksSeen p)
        = Resolved dom ->
        answer (inference_extract w (at_snapshot (x_domSettleTimeoutMs p) st
                                     ++ [ProcessDom (x_chunksSeen p)])
                                  (extract_request p st dom))
        = Rejected e ->
        exists st',
          _extract (S fuel) w p st = Some (st', Rejected e)
          /\ history st'
             = at_snapshot (x_domSettleTimeoutMs p) st
               ++ [ProcessDom (x_chunksSeen p); InferenceExtract (extract_request p st dom)]).
Proof.
  intros Hp.
  destruct (extract_to_snapshot w fuel p st Hp) as (s2 & Hf & Hh & Hrun).
  split.
  - intros Hdom. rewrite Hdom in Hrun. exists s2. split; assumption.
  - intros dom Hdom Hresp. rewrite Hdom, Hh, Hresp in Hrun.
    eexists. split; [exact Hrun|].
    rewrite inferred_history. cbn [history record set_logs].
    rewrite Hh, <- app_assoc. reflexivity.
Qed.

Lemma extract_failure_skips_the_rest_witness :
  (exists st',
      _extract 3 StagehandMoreExamples.w_no_chunker StagehandMoreExamples.first_round
               (StagehandMoreExamples.debugging false)
      = Some (st', Rejected (mkError "window.processDom is not a function" "at Page.evaluate"))
      /\ history st' = [SettleWait 30000; DebugDom; ProcessDom []])
  /\ (exists st',
      _extract 3 StagehandMoreExamples.w_model_down StagehandMoreExamples.first_round
               (StagehandMoreExamples.debugging false)
      = Some (st', Rejected (mkError "Connection reset" "at extract"))
      /\ history st'
         = [SettleWait 30000; DebugDom; ProcessDom [];
            InferenceExtract (extract_request StagehandMoreExamples.first_round
                                              (StagehandMoreExamples.debugging false)
                                              (StagehandExamples.two_chunk_dom []))]).
Proof.
  split.
  - destruct (extract_failure_skips_the_rest
                StagehandMoreExamples.w_no_chunker 2 StagehandMoreExamples.first_round
                (StagehandMoreExamples.debugging false)
                (mkError "window.processDom is not a function" "at Page.evaluate") eq_refl)
      as (Hchunker & _).
    exact (Hchunker eq_refl).
  - destruct (extract_failure_skips_the_rest
                StagehandMoreExamples.w_model_down 2 StagehandMoreExamples.first_round
                (StagehandMoreExamples.debugging false)
                (mkError "Connection reset" "at extract") eq_refl)
      as (_ & Hmodel).
    exact (Hmodel (StagehandExamples.two_chunk_dom []) eq_refl eq_refl).
Defined.

(** X15. [_extract] does not merge what the rounds extract: the second
    request hands the first response's output and progress note to the
    model, and the value returned is the output of the last response
    alone. *)
Theorem extract_returns_last_output w fuel p st dom1 r1 dom2 r2 :
  page st = true ->
  (forall h, processDom w h (x_chunksSeen p) = Resolved dom1) ->
  (forall h, answer (inference_extract w h (extract_request p st dom1)) = Resolved r1) ->
  metadata_completed r1 = false ->
  length (x_chunksSeen p) + 1 <> length (chunks dom1) ->
  (forall h, processDom w h (x_chunksSeen p ++ [chunk dom1]) = Resolved dom2) ->
  (forall h, answer (inference_extract w h (extract_request (next_round p dom1 r1) st dom2))
             = Resolved r2) ->
  metadata_completed r2 = true ->
  exists st' evs,
    _extract (S (S fuel)) w p st = Some (st', Resolved (output r2))
    /\ history st' = history st ++ evs
    /\ extract_calls evs
       = [extract_request p st dom1; extract_request (next_round p dom1 r1) st dom2]
    /\ ex_previouslyExtractedContent (extract_request (next_round p dom1 r1) st dom2)
       = output r1
    /\ ex_progress (extract_request (next_round p dom1 r1) st dom2)
       = metadata_progress r1.
Proof.
  intros Hp Hdom1 Hr1 Hgoing Hleft Hdom2 Hr2 Hdone.
  destruct (extract_round w (S fuel) p st dom1 r1 Hp (Hdom1 _) (Hr1 _))
    as (st1 & Hf1 & (evs1 & Hh1 & _ & He1) & Hrun1).
  rewrite Hgoing in Hrun1. cbn [orb] in Hrun1.
  replace (length (x_chunksSeen p ++ [chunk dom1]) =? length (chunks dom1))%nat
    with false in Hrun1
    by (symmetry; apply Nat.eqb_neq; rewrite length_app; cbn [length]; lia).
  assert (Hp1 : page st1 = true) by (rewrite (proj1 Hf1); exact Hp).
  assert (Hreq : extract_request (next_round p dom1 r1) st1 dom2
                 = extract_request (next_round p dom1 r1) st dom2).
  { unfold extract_request. rewrite (proj1 (proj2 Hf1)). reflexivity. }
  destruct (extract_round w fuel (next_round p dom1 r1) st1 dom2 r2 Hp1)
    as (st2 & _ & (evs2 & Hh2 & _ & He2) & Hrun2).
  - apply Hdom2.
  - rewrite Hreq. apply Hr2.
  - rewrite Hdone in Hrun2. cbn [orb] in Hrun2.
    exists st2, (evs1 ++ evs2).
    split; [rewrite Hrun1; exact Hrun2|].
    split; [rewrite Hh2, Hh1, app_assoc; reflexivity|].
    split; [|split; reflexivity].
    unfold extract_calls in *. rewrite omap_app, He1, He2, Hreq. reflexivity.
Qed.

Lemma extract_returns_last_output_witness :
  exists st' evs,
    _extract 2 StagehandExamples.w_ok StagehandMoreExamples.first_round
             (StagehandExamples.session false "gpt-4o")
    = Some (st', Resolved [("title", JStr "Home"); ("price", JNum 12)])
    /\ history st' = history (StagehandExamples.session false "gpt-4o") ++ evs
    /\ List.map ex_previouslyExtractedContent (extract_calls evs)
       = [[]; [("title", JStr "Home")]].
Proof.
  destruct (extract_returns_last_output
              StagehandExamples.w_ok 0 StagehandMoreExamples.first_round
              (StagehandExamples.session false "gpt-4o")
              (StagehandExamples.two_chunk_dom [])
              (mkExtraction [("title", JStr "Home")] "found title" false)
              (StagehandExamples.two_chunk_dom [0%Z])
              (mkExtraction [("title", JStr "Home"); ("price", JNum 12)] "done" true)
              eq_refl)
    as (st' & evs & Hrun & Hh & He & _); try (intros; reflexivity); try reflexivity.
  - cbn. lia.
  - exists st', evs. repeat split; try assumption. rewrite He. reflexivity.
Defined.

(** ** [_observe] *)

Lemma with_snapshot_history w p st :
  page st = true ->
  history (with_snapshot w p st) = at_observe_snapshot p st ++ [snapshot_event p].
Proof.
  intros Hp. unfold with_snapshot, at_observe_snapshot. cbn [history record].
  rewrite after_wait_history. cbn [history set_logs page domSettleTimeoutMs].
  rewrite Hp, <- !app_assoc. reflexivity.
Qed.

Lemma with_snapshot_frame w p st : frame st (with_snapshot w p st).
Proof.
  unfold with_snapshot.
  match goal with |- frame st (record _ (record _ (after_wait w ?t ?s))) =>
    apply (frame_trans st s); [unfold frame; cbn; auto|];
    apply (frame_trans s (after_wait w t s)); [apply after_wait_frame|];
    unfold frame; cbn; auto
  end.
Qed.

Lemma observed_history w p rs s :
  history (observed w p rs s)
  = history s ++ (if debugDom s then [CleanupDebug] else []).
Proof.
  unfold observed. cbn [history set_observations set_logs].
  destruct (debugDom s); cbn [history record]; rewrite ?app_nil_r; reflexivity.
Qed.

(** The calls of [_observe] from its model call on. *)
Lemma observe_outcome_history w p dom vision s :
  exists tail,
    history (fst (observe_outcome w p dom vision s))
    = history s ++ InferenceObserve (observe_request p s vision) :: tail
    /\ Forall (fun e => e = CleanupDebug) tail.
Proof.
  unfold observe_outcome. cbv zeta.
  destruct (answer _) as [response|e].
  - destruct (elementsWithSelectors _ _) as [rs|e]; cbn [fst].
    + rewrite observed_history, inferred_history. cbn [history record].
      rewrite <- app_assoc. eexists. split; [reflexivity|].
      destruct (debugDom _); repeat constructor.
    + rewrite inferred_history. eexists. split; [reflexivity|constructor].
  - cbn [fst]. rewrite inferred_history. eexists. split; [reflexivity|constructor].
Qed.

Lemma only_cleanup_no_calls tail :
  Forall (fun e => e = CleanupDebug) tail ->
  screenshots tail = [] /\ observe_calls tail = [].
Proof.
  induction 1 as [|e tail -> _ [IH1 IH2]]; [split; reflexivity|].
  split; [exact IH1|exact IH2].
Qed.

Lemma snapshot_event_no_calls p :
  screenshots [snapshot_event p] = [] /\ observe_calls [snapshot_event p] = [].
Proof. unfold snapshot_event. destruct (o_fullPage p); split; reflexivity. Qed.

(** X16. With [useVision] set and a vision-capable model, [_observe] takes
    exactly one annotated screenshot after the snapshot, sends it as the
    image of its one request and replaces the DOM text by the placeholder;
    the selectors of the answer are still resolved against the snapshot's
    [selectorMap].  When the screenshot fails, the observation rejects with
    that error and the model is not called. *)
Theorem observe_with_vision w p st dom :
  page st = true ->
  snapshot w p (at_observe_snapshot p st) = Resolved dom ->
  o_useVision p = true ->
  supports_vision w (nullish (o_modelName p) (defaultModelName st)) = true ->
  (forall shot,
      getAnnotatedScreenshot w (at_observe_snapshot p st ++ [snapshot_event p])
                             (o_fullPage p)
      = Resolved shot ->
      exists st' out evs,
        _observe w p st = Some (st', out)
        /\ history st' = history st ++ evs
        /\ screenshots evs = [o_fullPage p]
        /\ observe_calls evs = [observe_request p st (Some shot, image_placeholder)]
        /\ (forall response,
              answer (inference_observe
                        w (at_observe_snapshot p st
                           ++ [snapshot_event p; Screenshot (o_fullPage p)])
                        (observe_request p st (Some shot, image_placeholder)))
              = Resolved response ->
              out = elementsWithSelectors (selectorMap dom) (elements response)))
  /\ (forall e,
      getAnnotatedScreenshot w (at_observe_snapshot p st ++ [snapshot_event p])
                             (o_fullPage p)
      = Rejected e ->
      exists st' evs,
        _observe w p st = Some (st', Rejected e)
        /\ history st' = history st ++ evs
        /\ observe_calls evs = []).
Proof.
  intros Hp Hdom Hvision Hmodel.
  pose proof (with_snapshot_history w p st Hp) as Hh.
  pose proof (with_snapshot_frame w p st) as Hf.
  assert (Hm : defaultModelName (with_snapshot w p st) = defaultModelName st)
    by apply (proj1 (proj2 Hf)).
  destruct (snapshot_event_no_calls p) as [Hs0 Ho0].
  split.
  - intros shot Hshot.
    rewrite (observe_with_page w p st dom Hp Hdom).
    unfold observe_with_snapshot, vision_step.
    rewrite Hvision, Hm, Hmodel, Hh, Hshot.
    set (s := record (Screenshot (o_fullPage p)) (with_snapshot w p st)).
    assert (Hreq : observe_request p s (Some shot, image_placeholder)
                   = observe_request p st (Some shot, image_placeholder)).
    { unfold observe_request. subst s. cbn [defaultModelName record]. rewrite Hm. reflexivity. }
    assert (Hhs : history s = at_observe_snapshot p st
                              ++ [snapshot_event p; Screenshot (o_fullPage p)]).
    { subst s. cbn [history record]. rewrite Hh, <- app_assoc. reflexivity. }
    destruct (observe_outcome_history w p dom (Some shot, image_placeholder) s)
      as (tail & Htail & Hclean).
    destruct (only_cleanup_no_calls tail Hclean) as [Hs1 Ho1].
    destruct (observe_outcome w p dom (Some shot, image_placeholder) s) as [st' out] eqn:Hout.
    cbn [fst] in Htail.
    exists st', out,
           ([SettleWait (nullish (o_domSettleTimeoutMs p) (domSettleTimeoutMs st)); DebugDom]
            ++ [snapshot_event p; Screenshot (o_fullPage p)]
            ++ InferenceObserve (observe_request p st (Some shot, image_placeholder)) :: tail).
    split; [reflexivity|]. split; [|split; [|split]].
    + rewrite Htail, Hhs, Hreq. unfold at_observe_snapshot.
      rewrite <- !app_assoc. reflexivity.
    + unfold screenshots in *. rewrite !omap_app. cbn [omap list_omap app].
      unfold snapshot_event. destruct (o_fullPage p); cbn; rewrite Hs1; reflexivity.
    + unfold observe_calls in *. rewrite !omap_app. cbn [omap list_omap app].
      unfold snapshot_event. destruct (o_fullPage p); cbn; rewrite Ho1; reflexivity.
    + intros response Hresp. unfold observe_outcome in Hout. cbv zeta in Hout.
      rewrite Hreq, Hhs, Hresp in Hout.
      destruct (elementsWithSelectors (selectorMap dom) (elements response));
        injection Hout as _ <-; reflexivity.
  - intros e Hshot.
    rewrite (observe_with_page w p st dom Hp Hdom).
    unfold observe_with_snapshot, vision_step.
    rewrite Hvision, Hm, Hmodel, Hh, Hshot.
    eexists _, ([SettleWait (nullish (o_domSettleTimeoutMs p) (domSettleTimeoutMs st));
                 DebugDom]
                ++ [snapshot_event p; Screenshot (o_fullPage p)]).
    split; [reflexivity|]. split.
    + cbn [history record]. rewrite Hh. unfold at_observe_snapshot.
      rewrite <- !app_assoc. reflexivity.
    + unfold snapshot_event. destruct (o_fullPage p); reflexivity.
Qed.

Lemma observe_with_vision_witness :
  exists st' out evs,
    _observe StagehandExamples.w_ok
             (mkObserveParams "find the search button" true false None (Some "r0") None)
             (StagehandExamples.session false "gpt-4o")
    = Some (st', out)
    /\ history st' = history (StagehandExamples.session false "gpt-4o") ++ evs
    /\ screenshots evs = [false]
    /\ List.map ob_image (observe_calls evs) = [Some [255; 216; 255]%N]
    /\ List.map ob_domElements (observe_calls evs) = [image_placeholder].
Proof.
  destruct (observe_with_vision
              StagehandExamples.w_ok
              (mkObserveParams "find the search button" true false None (Some "r0") None)
              (StagehandExamples.session false "gpt-4o")
              (StagehandExamples.two_chunk_dom [])
              eq_refl eq_refl eq_refl eq_refl) as (Hshot & _).
  destruct (Hshot [255; 216; 255]%N eq_refl) as (st' & out & evs & Hrun & Hh & Hs & Ho & _).
  exists st', out, evs. repeat split; try assumption; rewrite Ho; reflexivity.
Defined.

(** X17. Without [useVision] no screenshot is taken, whatever the model:
    the one request carries the snapshot's text and no image. *)
Theorem observe_without_vision w p st dom :
  page st = true ->
  snapshot w p (at_observe_snapshot p st) = Resolved dom ->
  o_useVision p = false ->
  exists st' out evs,
    _observe w p st = Some (st', out)
    /\ history st' = history st ++ evs
    /\ screenshots evs = []
    /\ observe_calls evs = [text_request p st dom].
Proof.
  intros Hp Hdom Hvision.
  pose proof (with_snapshot_history w p st Hp) as Hh.
  pose proof (with_snapshot_frame w p st) as Hf.
  assert (Hm : defaultModelName (with_snapshot w p st) = defaultModelName st)
    by apply (proj1 (proj2 Hf)).
  destruct (snapshot_event_no_calls p) as [Hs0 Ho0].
  rewrite (observe_with_page w p st dom Hp Hdom).
  unfold observe_with_snapshot, vision_step. rewrite Hvision.
  set (s := with_snapshot w p st) in *.
  assert (Hreq : observe_request p s (None, outputString dom) = text_request p st dom).
  { unfold observe_request, text_request. rewrite Hm. reflexivity. }
  destruct (observe_outcome_history w p dom (None, outputString dom) s)
    as (tail & Htail & Hclean).
  destruct (only_cleanup_no_calls tail Hclean) as [Hs1 Ho1].
  destruct (observe_outcome w p dom (None, outputString dom) s) as [st' out] eqn:Hout.
  cbn [fst] in Htail.
  exists st', out,
         ([SettleWait (nullish (o_domSettleTimeoutMs p) (domSettleTimeoutMs st)); DebugDom]
          ++ [snapshot_event p]
          ++ InferenceObserve (text_request p st dom) :: tail).
  split; [reflexivity|]. split; [|split].
  - rewrite Htail, Hh, Hreq. unfold at_observe_snapshot. rewrite <- !app_assoc. reflexivity.
  - unfold screenshots in *. rewrite !omap_app, Hs0. cbn. exact Hs1.
  - unfold observe_calls in *. rewrite !omap_app, Ho0. cbn. rewrite Ho1. reflexivity.
Qed.

Lemma observe_without_vision_witness :
  exists st' out evs,
    _observe StagehandExamples.w_ok
             (mkObserveParams "find the search button" false false None (Some "r0") None)
             (StagehandExamples.session false "gpt-4o")
    = Some (st', out)
    /\ history st' = history (StagehandExamples.session false "gpt-4o") ++ evs
    /\ screenshots evs = []
    /\ List.map ob_image (observe_calls evs) = [None].
Proof.
  destruct (observe_without_vision
              StagehandExamples.w_ok
              (mkObserveParams "find the search button" false false None (Some "r0") None)
              (StagehandExamples.session false "gpt-4o")
              (StagehandExamples.two_chunk_dom [])
              eq_refl eq_refl eq_refl)
    as (st' & out & evs & Hrun & Hh & Hs & Ho).
  exists st', out, evs. repeat split; try assumption. rewrite Ho. reflexivity.
Defined.

Lemma leaves_bind {A B} (m : Async State A) (k : A -> Async State B) Q :
  (forall a, leaves (k a) Q) -> leaves (bind m k) Q.
Proof.
  intros Hk st st' b H. unfold bind in H.
  destruct (m st) as [[s1 [a|e]]|]; try discriminate.
  exact (Hk a s1 st' b H).
Qed.

(** X18. An observation that resolves has recorded its result: the
    session's [observations] hold, under [generateId] of the instruction it
    worked with, the very list it returns together with that instruction,
    replacing what an earlier observation with the same instruction left. *)
Theorem observe_records_its_result w p st st' rs :
  _observe w p st = Some (st', Resolved rs) ->
  observations st' !! generateId w (effective_instruction p)
  = Some (mkRecorded rs (effective_instruction p)).
Proof.
  revert st st' rs. change (leaves (_observe w p)
    (fun st' rs => observations st' !! generateId w (effective_instruction p)
                   = Some (mkRecorded rs (effective_instruction p)))).
  unfold _observe. fold (effective_instruction p).
  do 12 (apply leaves_bind; intros ?).
  intros st st' rs H. unfold _recordObservation in H. run.
  injection H as <- <-. cbn [observations set_observations].
  apply lookup_insert_eq.
Qed.

Lemma observe_records_its_result_witness :
  exists st' rs,
    _observe StagehandExamples.w_ok
             (mkObserveParams "" false false None (Some "r0") None)
             (StagehandExamples.session false "gpt-4o")
    = Some (st', Resolved rs)
    /\ observations st'
       !! generateId StagehandExamples.w_ok
            (effective_instruction (mkObserveParams "" false false None (Some "r0") None))
       = Some (mkRecorded rs
                 (effective_instruction (mkObserveParams "" false false None (Some "r0") None))).
Proof.
  assert (H : option_map snd
                (_observe StagehandExamples.w_ok
                          (mkObserveParams "" false false None (Some "r0") None)
                          (StagehandExamples.session false "gpt-4o"))
              = Some (Resolved [mkObserveResult "the search button" "xpath=//button[1]"]))
    by (vm_compute; reflexivity).
  destruct (_observe StagehandExamples.w_ok
                     (mkObserveParams "" false false None (Some "r0") None)
                     (StagehandExamples.session false "gpt-4o"))
    as [[st' [rs|e]]|] eqn:E; try discriminate H.
  exists st', rs. split; [reflexivity|].
  exact (observe_records_its_result
           StagehandExamples.w_ok (mkObserveParams "" false false None (Some "r0") None)
           (StagehandExamples.session false "gpt-4o") st' rs E).
Defined.

(** ** What the public [observe] asks of the page *)

Section Emits.
Context (P : Event -> Prop).

Lemma emits_pure {A} (m : Async State A) :
  (forall st st' o, m st = Some (st', o) -> history st' = history st) -> emits P m.
Proof.
  intros Hm st st' o H. exists []. rewrite app_nil_r. split; [eapply Hm, H|constructor].
Qed.

Lemma emits_ret {A} (a : A) : emits P (ret a).
Proof. apply emits_pure. intros st st' o H. injection H as <- _. reflexivity. Qed.

Lemma emits_await {A} (o : Outcome A) : emits P (await o).
Proof. apply emits_pure. intros st st' o' H. injection H as <- _. reflexivity. Qed.

Lemma emits_throw {A} (e : Error) : emits P (throw (A := A) e).
Proof. apply (emits_await (Rejected e)). Qed.

Lemma emits_gets {A} (f : State -> A) : emits P (gets f).
Proof. apply emits_pure. intros st st' o H. injection H as <- _. reflexivity. Qed.

Lemma emits_modify (f : State -> State) :
  (forall st, history (f st) = history st) -> emits P (modify f).
Proof.
  intros Hf. apply emits_pure. intros st st' o H. injection H as <- _. apply Hf.
Qed.

Lemma emits_log c m l : emits P (log c m l).
Proof. apply emits_modify. reflexivity. Qed.

Lemma emits_bind {A B} (m : Async State A) (k : A -> Async State B) :
  emits P m -> (forall a, emits P (k a)) -> emits P (bind m k).
Proof.
  intros Hm Hk st st' o H. unfold bind in H.
  destruct (m st) as [[s1 [a|e]]|] eqn:E; [| |discriminate].
  - destruct (Hm _ _ _ E) as (evs1 & H1 & P1).
    destruct (Hk a _ _ _ H) as (evs2 & H2 & P2).
    exists (evs1 ++ evs2). rewrite H2, H1, app_assoc.
    split; [reflexivity|]. apply Forall_app. split; assumption.
  - injection H as <- <-. apply (Hm _ _ _ E).
Qed.

Lemma emits_catch {A} (m : Async State A) (h : Error -> Async State A) :
  emits P m -> (forall e, emits P (h e)) -> emits P (catch m h).
Proof.
  intros Hm Hh st st' o H. unfold catch in H.
  destruct (m st) as [[s1 [a|e]]|] eqn:E; [| |discriminate].
  - injection H as <- <-. apply (Hm _ _ _ E).
  - destruct (Hm _ _ _ E) as (evs1 & H1 & P1).
    destruct (Hh e _ _ _ H) as (evs2 & H2 & P2).
    exists (evs1 ++ evs2). rewrite H2, H1, app_assoc.
    split; [reflexivity|]. apply Forall_app. split; assumption.
Qed.

Lemma emits_external {A} e (f : list Event -> Outcome A) : P e -> emits P (external e f).
Proof.
  intros He st st' o H. injection H as <- _.
  exists [e]. split; [reflexivity|]. repeat constructor. exact He.
Qed.

Lemma emits_on_page {A} s (m : Async State A) : emits P m -> emits P (on_page s m).
Proof.
  intros Hm st st' o H. unfold on_page in H. destruct (page st).
  - apply (Hm _ _ _ H).
  - injection H as <- _. exists []. rewrite app_nil_r. split; [reflexivity|constructor].
Qed.

Lemma emits_when b (m : Async State unit) : emits P m -> emits P (when b m).
Proof. intros Hm. destruct b; [exact Hm|apply emits_ret]. Qed.

Lemma emits_wait w timeoutMs :
  (forall t, P (SettleWait t)) -> emits P (_waitForSettledDom w timeoutMs).
Proof.
  intros Hs st st' o H. rewrite wait_run in H. injection H as <- _.
  rewrite after_wait_history. eexists. split; [reflexivity|].
  destruct (page st); repeat constructor. apply Hs.
Qed.

Lemma emits_startDomDebug : P DebugDom -> emits P startDomDebug.
Proof.
  intros Hd. apply emits_catch.
  - apply emits_on_page, emits_external, Hd.
  - intros e. apply emits_log.
Qed.

Lemma emits_cleanupDomDebug : P CleanupDebug -> emits P cleanupDomDebug.
Proof.
  intros Hc. apply emits_bind; [apply emits_gets|].
  intros [|]; [apply emits_on_page, emits_external, Hc|apply emits_ret].
Qed.

Lemma emits_index_cached rid entries : emits P (index_cached rid entries).
Proof.
  apply emits_bind; [apply emits_gets|]. intros b.
  apply emits_when, emits_modify. reflexivity.
Qed.

Lemma emits_observe_inference w r :
  P (InferenceObserve r) -> emits P (observe_inference w r).
Proof.
  intros Hr. apply emits_bind.
  - intros st st' o H. injection H as <- _.
    exists [InferenceObserve r]. split; [reflexivity|]. repeat constructor. exact Hr.
  - intros i. apply emits_bind; [apply emits_index_cached|].
    intros _. apply emits_await.
Qed.

Lemma emits_recordObservation w i r : emits P (_recordObservation w i r).
Proof.
  apply emits_bind; [|intros _; apply emits_ret].
  apply emits_modify. reflexivity.
Qed.

Lemma emits_on_failure {A} category prefix requestId e :
  P (CleanRequestCache requestId) ->
  emits P (on_failure (A := A) category prefix requestId e).
Proof.
  intros Hc. unfold on_failure, logger.
  apply emits_bind; [apply emits_log|]. intros _.
  apply emits_bind; [apply emits_gets|]. intros b.
  apply emits_bind; [|intros _; apply emits_throw].
  apply emits_when. intros st st' o H. injection H as <- _.
  exists [CleanRequestCache requestId]. split; [reflexivity|]. repeat constructor. exact Hc.
Qed.
End Emits.

Lemma observe_emits_first_chunk_only w p :
  o_fullPage p = false -> emits first_chunk_only (_observe w p).
Proof.
  intros Hfull. unfold _observe. rewrite Hfull.
  apply emits_bind; [apply emits_gets|]. intros model.
  apply emits_bind; [apply emits_log|]. intros _.
  apply emits_bind; [apply emits_wait; intros t; exact I|]. intros _.
  apply emits_bind; [apply emits_startDomDebug; exact I|]. intros _.
  apply emits_bind; [apply emits_on_page, emits_external; reflexivity|]. intros dom.
  apply emits_bind.
  { destruct (o_useVision p); [|apply emits_ret].
    destruct (negb (supports_vision w model)).
    - apply emits_bind; [apply emits_log|]. intros _. apply emits_ret.
    - apply emits_bind; [apply emits_external; reflexivity|]. intros shot. apply emits_ret. }
  intros vision.
  apply emits_bind; [apply emits_gets|]. intros defaultModel.
  apply emits_bind; [apply emits_observe_inference; exact I|]. intros response.
  apply emits_bind; [apply emits_await|]. intros rs.
  apply emits_bind; [apply emits_cleanupDomDebug; exact I|]. intros _.
  apply emits_bind; [apply emits_recordObservation|]. intros _.
  apply emits_bind; [apply emits_log|]. intros _.
  apply emits_bind; [apply emits_recordObservation|]. intros _.
  apply emits_ret.
Qed.

(** X19. The public [observe] looks at the first chunk of the page only:
    in every run, however it ends, the only DOM call it makes is
    [processDom] with nothing seen; it never calls [processAllOfDom], never
    passes seen chunks on, and a screenshot, when one is taken, is never a
    full-page one. *)
Theorem observe_sees_first_chunk_only w options st st' out :
  observe w options st = Some (st', out) ->
  exists evs,
    history st' = history st ++ evs
    /\ Forall first_chunk_only evs
    /\ Forall (fun seen => seen = []) (dom_calls evs)
    /\ ~ In ProcessAllOfDom evs.
Proof.
  intros Hrun.
  assert (Hemits : emits first_chunk_only (observe w options)).
  { unfold observe, Math_random, logger.
    apply emits_bind; [apply emits_external; exact I|]. intros requestId.
    apply emits_bind; [apply emits_log|]. intros _.
    apply emits_catch.
    - apply observe_emits_first_chunk_only. reflexivity.
    - intros e. apply emits_on_failure. exact I. }
  destruct (Hemits st st' out Hrun) as (evs & Hh & HP).
  exists evs. split; [exact Hh|]. split; [exact HP|]. split.
  - clear Hh. induction HP as [|e evs He _ IH]; [constructor|].
    destruct e; cbn in *; try exact IH. constructor; [exact He|exact IH].
  - intros Hin. rewrite List.Forall_forall in HP. exact (HP _ Hin).
Qed.

Lemma observe_sees_first_chunk_only_witness :
  exists st' out evs,
    observe StagehandExamples.w_ok None (StagehandExamples.session false "gpt-4o")
    = Some (st', out)
    /\ history st' = history (StagehandExamples.session false "gpt-4o") ++ evs
    /\ Forall first_chunk_only evs
    /\ Forall (fun seen => seen = []) (dom_calls evs)
    /\ ~ In ProcessAllOfDom evs.
Proof.
  assert (H : is_Some (observe StagehandExamples.w_ok None
                               (StagehandExamples.session false "gpt-4o"))).
  { apply (proj1 (not_eq_None_Some _)). intros HN.
    apply (f_equal (option_map snd)) in HN. vm_compute in HN. discriminate HN. }
  destruct (observe StagehandExamples.w_ok None (StagehandExamples.session false "gpt-4o"))
    as [[st' out]|] eqn:E; [|destruct H as [x H]; discriminate H].
  destruct (observe_sees_first_chunk_only
              StagehandExamples.w_ok None (StagehandExamples.session false "gpt-4o")
              st' out E) as (evs & H').
  exists st', out, evs. split; [reflexivity|exact H'].
Defined.

(** ** [act] *)


(** ** What a DOM-settle wait reports *)

Lemma race_timed_out p timeout :
  Forall (late (timer_delay timeout)) (racers p) -> race p timeout = TimedOut.
Proof.
  destruct p as [a b c]. unfold racers, race, earlier. cbn [waitForDomSettle waitForLoadState waitForSelector].
  generalize (timer_delay timeout). intros fires.
  intros H. inversion_clear H as [|? ? Ha H']. inversion_clear H' as [|? ? Hb H''].
  inversion_clear H'' as [|? ? Hc _].
  destruct a, b, c; cbn in *;
    repeat match goal with
           | |- context [(?x <=? ?y)%Z] => destruct (Z.leb_spec x y); cbn
           end; try reflexivity; lia.
Qed.

Lemma race_fulfilled p timeout t :
  In (FulfilsAt t) (racers p) -> (t <= timer_delay timeout)%Z ->
  Forall (rejects_after t) (racers p) ->
  race p timeout = Fulfilled.
Proof.
  destruct p as [a b c]. unfold racers, race, earlier. cbn [waitForDomSettle waitForLoadState waitForSelector].
  generalize (timer_delay timeout). intros fires.
  intros Hin Ht H. inversion_clear H as [|? ? Ha H']. inversion_clear H' as [|? ? Hb H''].
  inversion_clear H'' as [|? ? Hc _].
  destruct Hin as [->|[->|[->|[]]]];
    [destruct b, c|destruct a, c|destruct a, b]; cbn in *;
    repeat match goal with
           | |- context [(?x <=? ?y)%Z] => destruct (Z.leb_spec x y); cbn
           end; try reflexivity; lia.
Qed.

Lemma race_failed p timeout t e :
  In (RejectsAt t e) (racers p) -> (t <= timer_delay timeout)%Z ->
  Forall (fulfils_after t) (racers p) ->
  exists t' e', (t' <= t)%Z /\ In (RejectsAt t' e') (racers p)
                /\ race p timeout = Failed e'.
Proof.
  destruct p as [a b c]. unfold racers, race, earlier. cbn [waitForDomSettle waitForLoadState waitForSelector].
  generalize (timer_delay timeout). intros fires.
  intros Hin Ht H. inversion_clear H as [|? ? Ha H']. inversion_clear H' as [|? ? Hb H''].
  inversion_clear H'' as [|? ? Hc _].
  destruct Hin as [->|[->|[->|[]]]];
    [destruct b, c|destruct a, c|destruct a, b]; cbn in *;
    repeat match goal with
           | |- context [(?x <=? ?y)%Z] => destruct (Z.leb_spec x y); cbn
           end;
    try lia;
    (eexists _, _; (split; [|split; [|reflexivity]]);
     [|first [ left; reflexivity | right; left; reflexivity
             | right; right; left; reflexivity ]]; lia).
Qed.

Lemma timer_delay_in_range timeout :
  (1 <= timeout <= TIMEOUT_MAX)%Z -> timer_delay timeout = timeout.
Proof.
  intros [Hlo Hhi]. unfold timer_delay.
  apply Z.leb_le in Hlo, Hhi. rewrite Hlo, Hhi. reflexivity.
Qed.

Lemma timer_delay_out_of_range timeout :
  (timeout < 1 \/ TIMEOUT_MAX < timeout)%Z -> timer_delay timeout = 1%Z.
Proof.
  intros H. unfold timer_delay.
  destruct (Z.leb_spec 1 timeout), (Z.leb_spec timeout TIMEOUT_MAX);
    cbn; try reflexivity; lia.
Qed.

(** X21. What a DOM-settle wait reports is decided by what happens first
    among the three page promises and the timer.  The timer is armed with
    the timeout in force and fires after that many milliseconds when the
    timeout is between 1 and 2^31 - 1, and after 1 ms otherwise.  With a
    page attached the wait logs exactly the timeout line, which names the
    timeout in force, when none of the promises settles before the timer
    has fired, also when one of them rejects later; it logs nothing when a
    promise fulfils before the timer fires and no rejection has come by
    then, whatever fails afterwards; and it logs the error of a rejection
    when one came before the timer fires while nothing had fulfilled: the
    error of that rejection or of one that came no later. *)
Theorem wait_reports_what_came_first w timeoutMs st :
  page st = true ->
  let timeout := nullish timeoutMs (domSettleTimeoutMs st) in
  let fires := if ((1 <=? timeout) && (timeout <=? 2147483647))%Z then timeout else 1%Z in
  let promises := racers (settle w (history st)) in
  exists st',
    _waitForSettledDom w timeoutMs st = Some (st', Resolved tt)
    /\ (Forall (late fires) promises ->
        logs st' = logs st ++ [timeout_line timeout])
    /\ (forall t, In (FulfilsAt t) promises -> (t < fires)%Z ->
                  Forall (rejects_after t) promises ->
                  logs st' = logs st)
    /\ (forall t e, In (RejectsAt t e) promises -> (t < fires)%Z ->
                    Forall (fulfils_after t) promises ->
                    exists t' e', (t' <= t)%Z /\ In (RejectsAt t' e') promises
                                  /\ logs st' = logs st ++ [settle_error_line e']).
Proof.
  intros Hpage timeout fires promises. exists (after_wait w timeoutMs st).
  split; [apply wait_run|]. rewrite after_wait_logs. unfold settle_log.
  rewrite Hpage. fold timeout. change fires with (timer_delay timeout). repeat split.
  - intros H. rewrite (race_timed_out _ _ H). reflexivity.
  - intros t Hin Ht H.
    rewrite (race_fulfilled _ _ t Hin (Z.lt_le_incl _ _ Ht) H). apply app_nil_r.
  - intros t e Hin Ht H.
    destruct (race_failed _ _ t e Hin (Z.lt_le_incl _ _ Ht) H)
      as (t' & e' & Hle & Hin' & ->).
    exists t', e'. split; [exact Hle|]. split; [exact Hin'|reflexivity].
Qed.

Lemma wait_reports_what_came_first_witness :
  (exists st',
      _waitForSettledDom StagehandExamples.w_crash (Some 20%Z)
                         (StagehandExamples.session false "gpt-4o")
      = Some (st', Resolved tt)
      /\ exists t' e',
          (t' <= 12)%Z
          /\ In (RejectsAt t' e') (racers StagehandExamples.crashing_page)
          /\ logs st' = logs (StagehandExamples.session false "gpt-4o")
                        ++ [settle_error_line e'])
  /\ (exists st',
         _waitForSettledDom StagehandExamples.w_crash (Some 4294967296%Z)
                            (StagehandExamples.session false "gpt-4o")
         = Some (st', Resolved tt)
         /\ logs st' = logs (StagehandExamples.session false "gpt-4o")
                       ++ [timeout_line 4294967296]).
Proof.
  split.
  - destruct (wait_reports_what_came_first
                StagehandExamples.w_crash (Some 20%Z)
                (StagehandExamples.session false "gpt-4o") eq_refl)
      as (st' & Hrun & _ & _ & Hfail).
    exists st'. split; [exact Hrun|].
    apply (Hfail 12%Z (mkError "Target closed" "at Page.waitForLoadState")).
    + right. left. reflexivity.
    + cbn. lia.
    + repeat constructor; cbn; lia.
  - destruct (wait_reports_what_came_first
                StagehandExamples.w_crash (Some 4294967296%Z)
                (StagehandExamples.session false "gpt-4o") eq_refl)
      as (st' & Hrun & Hlate & _ & _).
    exists st'. split; [exact Hrun|].
    apply Hlate. repeat constructor; cbn; lia.
Defined.
End StagehandExtras.

(** * The launch: [getBrowser], [init] and the replaced [page.goto] *)
Module LaunchExtras.
Import Stagehand Launch LaunchRuns.

Lemma this_logger_run c m l h :
  this_logger c m l h
  = Some (logged [mkLog c m match l with
                             | Some 0%Z | None => 1%Z
                             | Some l => l
                             end] h, Resolved tt).
Proof. reflexivity. Qed.

Lemma logged_logged l1 l2 h : logged l2 (logged l1 h) = logged (l1 ++ l2) h.
Proof.
  destruct h as [[pg dm ds dd ec vs os ls ch hi] cx cs]. unfold logged, set_object, set_logs.
  cbn. rewrite <- app_assoc. reflexivity.
Qed.

Lemma logged_nil h : logged [] h = h.
Proof.
  destruct h as [[pg dm ds dd ec vs os ls ch hi] cx cs]. unfold logged, set_object, set_logs.
  cbn. rewrite app_nil_r. reflexivity.
Qed.

Lemma truthy_some s : truthy s = true -> exists k, s = Some k /\ k <> "".
Proof.
  destruct s as [[|a k]|]; try discriminate. intros _. eexists. split; [reflexivity|discriminate].
Qed.

(** The first part of [getBrowser]: the warnings, and the environment it
    goes on with. *)
Lemma getBrowser_preamble W key pid env0 headless params rid h :
  getBrowser W key pid env0 headless this_logger params rid h
  = match env0 with
    | LOCAL => launch_local W this_logger headless h
    | BROWSERBASE =>
        if truthy key
        then launch_remote W this_logger key pid params rid (logged (preamble key pid) h)
        else launch_local W this_logger headless (logged (preamble key pid) h)
    end.
Proof.
  unfold getBrowser, preamble. destruct env0; [reflexivity|].
  destruct (truthy key), (truthy pid); cbn [negb];
    unfold bind, when, ret; rewrite ?this_logger_run; cbn [app];
    rewrite ?this_logger_run, ?logged_logged, ?logged_nil; reflexivity.
Qed.


(** ** Calls made by a computation *)

Section Makes.
Context (P : Call -> Prop).

Lemma makes_still {A} (m : Async Host A) :
  (forall h h' o, m h = Some (h', o) -> calls h' = calls h) -> makes P m.
Proof.
  intros Hm h h' o H. exists []. rewrite app_nil_r. split; [eapply Hm, H|constructor].
Qed.

Lemma makes_ret {A} (a : A) : makes P (ret a).
Proof. apply makes_still. intros h h' o H. injection H as <- _. reflexivity. Qed.

Lemma makes_throw {A} (e : Error) : makes P (throw (A := A) e).
Proof. apply makes_still. intros h h' o H. injection H as <- _. reflexivity. Qed.

Lemma makes_gets {A} (f : Host -> A) : makes P (gets f).
Proof. apply makes_still. intros h h' o H. injection H as <- _. reflexivity. Qed.

Lemma makes_modify (f : Host -> Host) :
  (forall h, calls (f h) = calls h) -> makes P (modify f).
Proof. intros Hf. apply makes_still. intros h h' o H. injection H as <- _. apply Hf. Qed.

Lemma makes_lift {A} (m : Async State A) : makes P (lift m).
Proof.
  apply makes_still. intros h h' o H. unfold lift in H.
  destruct (m (object h)) as [[st o']|]; [|discriminate]. injection H as <- _. reflexivity.
Qed.

Lemma makes_logger c m l : makes P (this_logger c m l).
Proof. apply makes_lift. Qed.

Lemma makes_call {A} c (f : list Call -> Outcome A) : P c -> makes P (call c f).
Proof.
  intros Hc h h' o H. injection H as <- _. exists [c].
  split; [reflexivity|]. repeat constructor. exact Hc.
Qed.

Lemma makes_bind {A B} (m : Async Host A) (k : A -> Async Host B) :
  makes P m -> (forall a, makes P (k a)) -> makes P (bind m k).
Proof.
  intros Hm Hk h h' o H. unfold bind in H.
  destruct (m h) as [[h1 [a|e]]|] eqn:E; [| |discriminate].
  - destruct (Hm _ _ _ E) as (cs1 & H1 & P1).
    destruct (Hk a _ _ _ H) as (cs2 & H2 & P2).
    exists (cs1 ++ cs2). rewrite H2, H1, app_assoc.
    split; [reflexivity|]. apply Forall_app. split; assumption.
  - injection H as <- <-. apply (Hm _ _ _ E).
Qed.

Lemma makes_catch {A} (m : Async Host A) (k : Error -> Async Host A) :
  makes P m -> (forall e, makes P (k e)) -> makes P (catch m k).
Proof.
  intros Hm Hk h h' o H. unfold catch in H.
  destruct (m h) as [[h1 [a|e]]|] eqn:E; [| |discriminate].
  - injection H as <- <-. apply (Hm _ _ _ E).
  - destruct (Hm _ _ _ E) as (cs1 & H1 & P1).
    destruct (Hk e _ _ _ H) as (cs2 & H2 & P2).
    exists (cs1 ++ cs2). rewrite H2, H1, app_assoc.
    split; [reflexivity|]. apply Forall_app. split; assumption.
Qed.

Lemma makes_when b (m : Async Host unit) : makes P m -> makes P (when b m).
Proof. intros Hm. destruct b; [exact Hm|apply makes_ret]. Qed.

Lemma makes_with_page {A} s (m : Async Host A) : makes P m -> makes P (with_page s m).
Proof.
  intros Hm h h' o H. unfold with_page in H. destruct (page (object h)).
  - apply (Hm _ _ _ H).
  - injection H as <- _. exists []. rewrite app_nil_r. split; [reflexivity|constructor].
Qed.
End Makes.

Lemma makes_from {A} (P : Call -> Prop) (m : Async Host A) (f : Host -> Host) :
  (forall h, calls (f h) = calls h) ->
  makes P m -> forall h h' o, m (f h) = Some (h', o) ->
                              exists cs, calls h' = calls h ++ cs /\ Forall P cs.
Proof. intros Hf Hm h h' o H. rewrite <- (Hf h). exact (Hm _ _ _ H). Qed.

Lemma launch_local_makes W headless :
  makes (fun c => remote c = false) (launch_local W this_logger headless).
Proof.
  unfold launch_local.
  repeat first [ apply makes_bind; [|intros ?]
               | apply makes_logger
               | apply makes_call; reflexivity
               | apply makes_ret ].
Qed.

(** ** What a resolving computation does to the host *)

Lemma moves_weaken {A} (m : Async Host A) (R Q : Host -> A -> Host -> Prop) :
  moves m R -> (forall h a h', R h a h' -> Q h a h') -> moves m Q.
Proof. intros Hm HQ h h' a H. apply HQ, (Hm _ _ _ H). Qed.

Lemma moves_bind {A B} (m : Async Host A) (k : A -> Async Host B) R1 R2 :
  moves m R1 -> (forall a, moves (k a) (R2 a)) ->
  moves (bind m k) (fun h b h2 => exists a h1, R1 h a h1 /\ R2 a h1 b h2).
Proof.
  intros Hm Hk h h2 b H. unfold bind in H.
  destruct (m h) as [[h1 [a|e]]|] eqn:E; try discriminate.
  exists a, h1. split; [exact (Hm _ _ _ E)|exact (Hk _ _ _ _ H)].
Qed.

Lemma moves_ret {A} (a : A) : moves (ret a) (fun h b h' => h' = h /\ b = a).
Proof. intros h h' b H. injection H as <- <-. split; reflexivity. Qed.

Lemma moves_throw {A} (e : Error) R : moves (throw (A := A) e) R.
Proof. intros h h' b H. discriminate H. Qed.

Lemma moves_gets {A} (f : Host -> A) : moves (gets f) (fun h b h' => h' = h /\ b = f h).
Proof. intros h h' b H. injection H as <- <-. split; reflexivity. Qed.

Lemma moves_modify (f : Host -> Host) : moves (modify f) (fun h _ h' => h' = f h).
Proof. intros h h' b H. injection H as <-. reflexivity. Qed.

Lemma moves_call {A} c (f : list Call -> Outcome A) :
  moves (call c f) (fun h a h' => h' = called [c] h /\ f (calls h) = Resolved a).
Proof. intros h h' a H. injection H as <- ->. split; reflexivity. Qed.

Lemma moves_logger c m l :
  moves (this_logger c m l)
        (fun h _ h' => exists line, h' = logged [line] h).
Proof. intros h h' a H. rewrite this_logger_run in H. injection H as <-. eexists. reflexivity. Qed.

Lemma moves_with_page {A} s (m : Async Host A) R :
  moves m R -> moves (with_page s m) (fun h a h' => page (object h) = true /\ R h a h').
Proof.
  intros Hm h h' a H. unfold with_page in H.
  destruct (page (object h)); [|discriminate]. split; [reflexivity|exact (Hm _ _ _ H)].
Qed.

Lemma moves_when b (m : Async Host unit) R :
  moves m R -> moves (when b m) (fun h a h' => if b then R h a h' else h' = h).
Proof.
  intros Hm. destruct b; [exact Hm|]. intros h h' a H. injection H as <-. reflexivity.
Qed.

Lemma moves_wait w t :
  moves (lift (_waitForSettledDom w t))
        (fun h _ h' => h' = set_object (after_wait w t) h).
Proof.
  intros h h' a H. unfold lift in H. rewrite StagehandProofs.wait_run in H.
  injection H as <-. reflexivity.
Qed.


(** ** [getBrowser] *)

(** X22. Asked for the BROWSERBASE environment without a usable API key
    (undefined or empty), [getBrowser] does what it does for LOCAL once
    the warnings are logged: it launches a local browser, makes no call to
    the Browserbase service or to a remote browser, and its result carries
    neither a browser nor a debug or session URL. *)
Theorem missing_key_launches_locally W key pid headless params rid h :
  truthy key = false ->
  getBrowser W key pid BROWSERBASE headless this_logger params rid h
  = getBrowser W key pid LOCAL headless this_logger params rid
               (logged (key_line :: if truthy pid then [] else [project_line]) h)
  /\ forall h' out,
      getBrowser W key pid BROWSERBASE headless this_logger params rid h = Some (h', out) ->
      (exists cs, calls h' = calls h ++ cs /\ Forall (fun c => remote c = false) cs)
      /\ forall l, out = Resolved l ->
                   l_browser l = None /\ l_debugUrl l = None /\ l_sessionUrl l = None.
Proof.
  intros Hkey. rewrite !getBrowser_preamble. unfold preamble. rewrite Hkey.
  split; [reflexivity|]. intros h' out Hrun. split.
  - refine (makes_from _ _ (logged _) _ (launch_local_makes W headless) h h' out Hrun).
    reflexivity.
  - intros l ->. revert Hrun. generalize (logged ([key_line] ++ (if truthy pid then [] else [project_line])) h).
    intros h0 Hrun.
    assert (M : moves (launch_local W this_logger headless)
                      (fun _ l _ => l_browser l = None /\ l_debugUrl l = None
                                    /\ l_sessionUrl l = None)).
    { unfold launch_local.
      eapply moves_weaken.
      - repeat first [ eapply moves_bind; [|intros ?]
                     | apply moves_logger | apply moves_call | apply moves_ret ].
      - cbn beta. intros h1 a h2 H.
        repeat match goal with
               | H : exists _, _ |- _ => destruct H
               | H : _ /\ _ |- _ => destruct H
               end. subst. repeat split. }
    exact (M _ _ _ Hrun).
Qed.

Lemma missing_key_launches_locally_witness :
  getBrowser LaunchExamples.cloud (Some "") (Some "proj-1") BROWSERBASE false this_logger
             ∅ None LaunchExamples.built
  = getBrowser LaunchExamples.cloud (Some "") (Some "proj-1") LOCAL false this_logger
               ∅ None (logged [key_line] LaunchExamples.built).
Proof.
  exact (proj1 (missing_key_launches_locally
                  LaunchExamples.cloud (Some "") (Some "proj-1") false ∅ None
                  LaunchExamples.built eq_refl)).
Defined.

Lemma called_logged cs lines h : called cs (logged lines h) = logged lines (called cs h).
Proof. reflexivity. Qed.

Lemma launch_remote_with_key W key pid params rid h :
  truthy key = true ->
  launch_remote W this_logger key pid params rid h
  = bind (if truthy rid
          then resume_session W this_logger (nullish key "") (nullish rid "")
          else create_session W this_logger (nullish key "") pid params)
         (fun target =>
            let '(sessionId, url) := target in
            browser <- call (ConnectOverCDP url) (fun h => connectOverCDP W h url);;
            debuggerUrl <- call (SessionsDebug (nullish key "") sessionId)
                                (fun h => sessions_debug W h (nullish key "") sessionId);;
            this_logger (Some "Init")
                        (started_message (truthy rid) (session_url sessionId) debuggerUrl)
                        (Some 0%Z);;
            ret (mkLaunched (Some browser) (List.head (contexts browser))
                            (Some debuggerUrl) (Some (session_url sessionId)))) h.
Proof. intros Hkey. unfold launch_remote. rewrite Hkey. reflexivity. Qed.

Lemma resume_session_run W k id h :
  resume_session W this_logger k id h
  = match status_check W (calls h) k id with
    | Resolved _ =>
        Some (logged [resuming_line] (called [SessionsRetrieve k id] h),
              Resolved (id, connect_url k id))
    | Rejected e =>
        Some (logged [failed_resume_line id e] (called [SessionsRetrieve k id] h),
              Rejected e)
    end.
Proof.
  unfold resume_session, status_check, catch, bind, call.
  destruct (sessions_retrieve W (calls h) k id) as [status|e]; [|reflexivity].
  destruct (string_eqb status "RUNNING"); reflexivity.
Qed.



Lemma create_session_run W k pid params h :
  create_session W this_logger k pid params h
  = if truthy pid
    then
      match sessions_create W (calls h) k (create_body (nullish pid "") params) with
      | Resolved s =>
          Some (logged [creating_line]
                       (called [SessionsCreate k (create_body (nullish pid "") params)] h),
                Resolved (session_id s, connectUrl s))
      | Rejected e =>
          Some (logged [creating_line]
                       (called [SessionsCreate k (create_body (nullish pid "") params)] h),
                Rejected e)
      end
    else Some (logged [creating_line] h, Rejected project_required).
Proof.
  unfold create_session, bind. rewrite this_logger_run.
  destruct (truthy pid); [|reflexivity]. cbn [negb]. unfold call, bind, ret.
  cbn [calls logged set_object].
  destruct (sessions_create W (calls h) k (create_body (nullish pid "") params));
    reflexivity.
Qed.

(** What [getBrowser] does once it knows the session and its URL. *)
Lemma attach_run W k resumed sessionId url h :
  exists h' out cs,
    (browser <- call (ConnectOverCDP url) (fun h => connectOverCDP W h url);;
     debuggerUrl <- call (SessionsDebug k sessionId)
                         (fun h => sessions_debug W h k sessionId);;
     this_logger (Some "Init")
                 (started_message resumed (session_url sessionId) debuggerUrl)
                 (Some 0%Z);;
     ret (mkLaunched (Some browser) (List.head (contexts browser))
                     (Some debuggerUrl) (Some (session_url sessionId)))) h
    = Some (h', out)
    /\ calls h' = calls h ++ cs
    /\ cs `prefix_of` [ConnectOverCDP url; SessionsDebug k sessionId]
    /\ forall l, out = Resolved l ->
                 cs = [ConnectOverCDP url; SessionsDebug k sessionId]
                 /\ l_sessionUrl l = Some (session_url sessionId)
                 /\ exists b, l_browser l = Some b /\ l_context l = List.head (contexts b).
Proof.
  unfold bind, call, ret. rewrite ?this_logger_run. cbn [calls].
  destruct (connectOverCDP W (calls h) url) as [[ctxs]|e].
  - destruct (sessions_debug W (calls h ++ [ConnectOverCDP url]) k sessionId) as [d|e].
    + rewrite this_logger_run. eexists _, _, [_; _]. split; [reflexivity|].
      cbn [calls logged set_object]. rewrite <- app_assoc.
      split; [reflexivity|]. split; [reflexivity|].
      intros l [= <-]. repeat split. eexists. split; reflexivity.
    + eexists _, _, [_; _]. split; [reflexivity|]. cbn [calls]. rewrite <- app_assoc.
      split; [reflexivity|]. split; [reflexivity|]. intros l [=].
  - eexists _, _, [_]. split; [reflexivity|]. cbn [calls].
    split; [reflexivity|]. split; [eexists [_]; reflexivity|]. intros l [=].
Qed.

(** X23. With a session to resume, the status check decides.  When it
    fails (the service rejects the request, or the status is anything but
    RUNNING), [getBrowser] rejects with that error after logging it and
    after this one request; no browser is connected to.  When it passes,
    the browser is connected to through the URL built from the API key and
    the session id, no session is created and no project id is needed; a
    result, if there is one, carries the session URL of the resumed
    session. *)
Theorem resume_depends_on_status W key pid headless params rid h :
  truthy key = true ->
  truthy rid = true ->
  let k := nullish key "" in
  let id := nullish rid "" in
  (forall e,
      status_check W (calls h) k id = Rejected e ->
      getBrowser W key pid BROWSERBASE headless this_logger params rid h
      = Some (logged (preamble key pid ++ [failed_resume_line id e])
                     (called [SessionsRetrieve k id] h),
              Rejected e))
  /\ (status_check W (calls h) k id = Resolved tt ->
      exists h' out cs,
        getBrowser W key pid BROWSERBASE headless this_logger params rid h = Some (h', out)
        /\ calls h' = calls h ++ SessionsRetrieve k id :: cs
        /\ cs `prefix_of` [ConnectOverCDP (connect_url k id); SessionsDebug k id]
        /\ forall l, out = Resolved l ->
                     cs = [ConnectOverCDP (connect_url k id); SessionsDebug k id]
                     /\ l_sessionUrl l = Some (session_url id)
                     /\ exists b, l_browser l = Some b
                                  /\ l_context l = List.head (contexts b)).
Proof.
  intros Hkey Hrid k id. split.
  - intros e Hcheck.
    rewrite getBrowser_preamble, Hkey, (launch_remote_with_key _ _ _ _ _ _ Hkey), Hrid.
    unfold bind at 1. rewrite resume_session_run. cbn [calls logged set_object].
    fold k id. rewrite Hcheck. rewrite called_logged, logged_logged. reflexivity.
  - intros Hcheck.
    rewrite getBrowser_preamble, Hkey, (launch_remote_with_key _ _ _ _ _ _ Hkey), Hrid.
    unfold bind at 1. rewrite resume_session_run. cbn [calls logged set_object].
    fold k id. rewrite Hcheck.
    destruct (attach_run W k true id (connect_url k id)
                         (logged [resuming_line]
                            (called [SessionsRetrieve k id] (logged (preamble key pid) h))))
      as (h' & out & cs & Hrun & Hcalls & Hprefix & Hout).
    exists h', out, cs. split; [exact Hrun|]. split; [|split; assumption].
    rewrite Hcalls. cbn [calls logged called set_object]. rewrite <- app_assoc. reflexivity.
Qed.

Lemma resume_depends_on_status_witness :
  getBrowser LaunchExamples.cloud (Some "key-1") None BROWSERBASE false this_logger ∅
             (Some "sess-9") LaunchExamples.built
  = Some (logged [project_line;
                  failed_resume_line "sess-9" (not_running "sess-9" "COMPLETED")]
                 (called [SessionsRetrieve "key-1" "sess-9"] LaunchExamples.built),
          Rejected (not_running "sess-9" "COMPLETED")).
Proof.
  exact (proj1 (resume_depends_on_status
                  LaunchExamples.cloud (Some "key-1") None false ∅ (Some "sess-9")
                  LaunchExamples.built eq_refl eq_refl)
               (not_running "sess-9" "COMPLETED") eq_refl).
Defined.

(** X24. Without a session to resume a session is created, and that
    needs a project id: without one [getBrowser] rejects before any request
    is made.  With one, the request carries the caller's session parameters
    unchanged and the project id, unless the parameters name a project
    themselves, which then wins; the browser is connected to through the
    URL the service answered, and a result carries the session URL built
    from the id the service answered. *)
Theorem new_session_needs_project W key pid headless params rid h :
  truthy key = true ->
  truthy rid = false ->
  (truthy pid = false ->
   getBrowser W key pid BROWSERBASE headless this_logger params rid h
   = Some (logged [project_line; creating_line] h, Rejected project_required))
  /\ (truthy pid = true ->
      let body := create_body (nullish pid "") params in
      body !! "projectId" = Some (default (JStr (nullish pid "")) (params !! "projectId"))
      /\ (forall field, field <> "projectId" -> body !! field = params !! field)
      /\ exists h' out cs,
          getBrowser W key pid BROWSERBASE headless this_logger params rid h = Some (h', out)
          /\ calls h' = calls h ++ SessionsCreate (nullish key "") body :: cs
          /\ (forall e, sessions_create W (calls h) (nullish key "") body = Rejected e ->
                        out = Rejected e /\ cs = [])
          /\ (forall s, sessions_create W (calls h) (nullish key "") body = Resolved s ->
                        cs `prefix_of` [ConnectOverCDP (connectUrl s);
                                        SessionsDebug (nullish key "") (session_id s)]
                        /\ forall l, out = Resolved l ->
                                     l_sessionUrl l = Some (session_url (session_id s)))).
Proof.
  intros Hkey Hrid. split; intros Hpid.
  - rewrite getBrowser_preamble, Hkey, (launch_remote_with_key _ _ _ _ _ _ Hkey), Hrid.
    unfold bind at 1. rewrite create_session_run, Hpid.
    unfold preamble. rewrite Hkey, Hpid, logged_logged. reflexivity.
  - intros body. split; [|split].
    + unfold body, create_body. rewrite lookup_union.
      destruct (params !! "projectId"); reflexivity.
    + intros field Hfield. unfold body, create_body. rewrite lookup_union.
      rewrite lookup_singleton_ne by congruence.
      destruct (params !! field); reflexivity.
    + rewrite getBrowser_preamble, Hkey, (launch_remote_with_key _ _ _ _ _ _ Hkey), Hrid.
      unfold bind at 1. rewrite create_session_run, Hpid. cbn [calls logged set_object].
      fold body.
      destruct (sessions_create W (calls h) (nullish key "") body) as [s|e].
      * destruct (attach_run W (nullish key "") false (session_id s) (connectUrl s)
                             (logged [creating_line]
                                (called [SessionsCreate (nullish key "") body]
                                        (logged (preamble key pid) h))))
          as (h' & out & cs & Hrun & Hcalls & Hprefix & Hout).
        exists h', out, cs. split; [exact Hrun|]. split; [|split].
        -- rewrite Hcalls. cbn [calls logged called set_object].
           rewrite <- app_assoc. reflexivity.
        -- intros e [=].
        -- intros s' [= <-]. split; [exact Hprefix|].
           intros l Hl. apply (Hout l Hl).
      * eexists _, _, []. split; [reflexivity|]. split; [reflexivity|]. split.
        -- intros e' [= <-]. split; reflexivity.
        -- intros s [=].
Qed.

Lemma new_session_needs_project_witness :
  getBrowser LaunchExamples.cloud (Some "key-1") None BROWSERBASE false this_logger ∅
             None LaunchExamples.built
  = Some (logged [project_line; creating_line] LaunchExamples.built,
          Rejected project_required).
Proof.
  exact (proj1 (new_session_needs_project
                  LaunchExamples.cloud (Some "key-1") None false ∅ None
                  LaunchExamples.built eq_refl eq_refl) eq_refl).
Defined.

(** ** What the launch does to the object *)

Lemma only_logs_still {A} (m : Async Host A) :
  (forall h h' o, m h = Some (h', o) -> object h' = object h) -> only_logs m.
Proof.
  intros Hm h h' o H. exists []. rewrite (Hm _ _ _ H).
  destruct (object h). unfold set_logs. cbn. rewrite app_nil_r. reflexivity.
Qed.

Lemma only_logs_ret {A} (a : A) : only_logs (ret (S := Host) a).
Proof. apply only_logs_still. intros h h' o H. injection H as <- _. reflexivity. Qed.

Lemma only_logs_throw {A} (e : Error) : only_logs (throw (S := Host) (A := A) e).
Proof. apply only_logs_still. intros h h' o H. injection H as <- _. reflexivity. Qed.

Lemma only_logs_call {A} c (f : list Call -> Outcome A) : only_logs (call c f).
Proof. apply only_logs_still. intros h h' o H. injection H as <- _. reflexivity. Qed.

Lemma only_logs_logger c m l : only_logs (this_logger c m l).
Proof.
  intros h h' o H. rewrite this_logger_run in H. injection H as <- _.
  eexists. reflexivity.
Qed.

Lemma set_logs_set_logs l1 l2 st :
  set_logs (fun ls => ls ++ l2) (set_logs (fun ls => ls ++ l1) st)
  = set_logs (fun ls => ls ++ (l1 ++ l2)) st.
Proof. destruct st. unfold set_logs. cbn. rewrite <- app_assoc. reflexivity. Qed.

Lemma only_logs_bind {A B} (m : Async Host A) (k : A -> Async Host B) :
  only_logs m -> (forall a, only_logs (k a)) -> only_logs (bind m k).
Proof.
  intros Hm Hk h h' o H. unfold bind in H.
  destruct (m h) as [[h1 [a|e]]|] eqn:E; [| |discriminate].
  - destruct (Hm _ _ _ E) as (l1 & H1). destruct (Hk a _ _ _ H) as (l2 & H2).
    exists (l1 ++ l2). rewrite H2, H1. apply set_logs_set_logs.
  - injection H as <- <-. apply (Hm _ _ _ E).
Qed.

Lemma only_logs_catch {A} (m : Async Host A) (k : Error -> Async Host A) :
  only_logs m -> (forall e, only_logs (k e)) -> only_logs (catch m k).
Proof.
  intros Hm Hk h h' o H. unfold catch in H.
  destruct (m h) as [[h1 [a|e]]|] eqn:E; [| |discriminate].
  - injection H as <- <-. apply (Hm _ _ _ E).
  - destruct (Hm _ _ _ E) as (l1 & H1). destruct (Hk e _ _ _ H) as (l2 & H2).
    exists (l1 ++ l2). rewrite H2, H1. apply set_logs_set_logs.
Qed.

Lemma only_logs_when b (m : Async Host unit) : only_logs m -> only_logs (when b m).
Proof. intros Hm. destruct b; [exact Hm|apply only_logs_ret]. Qed.

Ltac only_logs_steps :=
  repeat first [ apply only_logs_bind; [|intros ?]
               | apply only_logs_catch; [|intros ?]
               | apply only_logs_when
               | apply only_logs_logger
               | apply only_logs_call
               | apply only_logs_ret
               | apply only_logs_throw ].

Lemma getBrowser_only_logs W key pid env0 headless params rid :
  only_logs (getBrowser W key pid env0 headless this_logger params rid).
Proof.
  unfold getBrowser. apply only_logs_bind.
  - destruct env0; [apply only_logs_ret|]. 
    apply only_logs_bind; [destruct (negb (truthy key)); only_logs_steps|intros ?].
    only_logs_steps.
  - intros [|].
    + unfold launch_local. only_logs_steps.
    + unfold launch_remote. destruct (negb (truthy key)); [apply only_logs_throw|].
      apply only_logs_bind.
      * destruct (truthy rid).
        -- unfold resume_session. apply only_logs_catch; [|intros ?; only_logs_steps].
           apply only_logs_bind; [apply only_logs_call|intros status].
           destruct (negb (string_eqb status "RUNNING")); only_logs_steps.
        -- unfold create_session. apply only_logs_bind; [apply only_logs_logger|intros _].
           destruct (negb (truthy pid)); only_logs_steps.
      * intros [sessionId url]. only_logs_steps.
Qed.

(** ** [init] *)

(** X25. [init] never reports why the launch failed: whatever [getBrowser]
    rejects with goes to [console.error], and [init] rejects with the
    [TypeError] of reading [pages] of the undefined context instead, with
    no page attached.  The same happens when a remote browser is connected
    that has no context. *)
Theorem init_hides_launch_error W w cfg modelName t h :
  (forall h1 e,
      getBrowser W (apiKey cfg) (projectId cfg) (env cfg) (headless cfg) this_logger
                 (browserBaseSessionCreateParams cfg) (browserbaseResumeSessionID cfg) h
      = Some (h1, Rejected e) ->
      init W w cfg modelName t h
      = Some (set_context None (called [ConsoleError e] h1),
              Rejected (TypeError_undefined "pages")))
  /\ (forall h1 l,
      getBrowser W (apiKey cfg) (projectId cfg) (env cfg) (headless cfg) this_logger
                 (browserBaseSessionCreateParams cfg) (browserbaseResumeSessionID cfg) h
      = Some (h1, Resolved l) ->
      l_context l = None ->
      init W w cfg modelName t h
      = Some (set_context None h1, Rejected (TypeError_undefined "pages"))).
Proof.
  split.
  - intros h1 e Hrun. unfold init. unfold bind at 1. unfold catch. rewrite Hrun.
    reflexivity.
  - intros h1 l Hrun Hctx. unfold init. unfold bind at 1. unfold catch. rewrite Hrun.
    unfold bind at 1. unfold modify at 1. rewrite Hctx. reflexivity.
Qed.

Lemma init_hides_launch_error_witness :
  exists h1,
    init LaunchExamples.offline StagehandExamples.w_ok
         (mkConfig BROWSERBASE (Some "key-1") (Some "proj-1") false ∅ (Some "sess-1"))
         None None LaunchExamples.built
    = Some (set_context None
              (called [ConsoleError (mkError "Connection error." "at Browserbase")] h1),
            Rejected (TypeError_undefined "pages")).
Proof.
  eexists.
  apply (proj1 (init_hides_launch_error
                  LaunchExamples.offline StagehandExamples.w_ok
                  (mkConfig BROWSERBASE (Some "key-1") (Some "proj-1") false ∅ (Some "sess-1"))
                  None None LaunchExamples.built)).
  cbn [apiKey projectId env headless browserBaseSessionCreateParams
       browserbaseResumeSessionID].
  rewrite getBrowser_preamble.
  change (truthy (Some "key-1")) with true. cbv iota.
  rewrite launch_remote_with_key by reflexivity.
  change (truthy (Some "sess-1")) with true. cbv iota.
  unfold bind at 1. rewrite resume_session_run. reflexivity.
Defined.

Lemma launch_only_logs W cfg :
  only_logs (catch
               (getBrowser W (apiKey cfg) (projectId cfg) (env cfg) (headless cfg)
                           this_logger (browserBaseSessionCreateParams cfg)
                           (browserbaseResumeSessionID cfg))
               (fun e =>
                  call (ConsoleError e) (fun _ => Resolved tt);;
                  ret (mkLaunched None None None None))).
Proof.
  apply only_logs_catch; [apply getBrowser_only_logs|]. intros e. only_logs_steps.
Qed.

Ltac moves_steps :=
  repeat first [ eapply moves_bind; [|intros ?]
               | apply moves_with_page
               | apply moves_when
               | apply moves_logger
               | apply moves_call
               | apply moves_wait
               | apply moves_modify
               | apply moves_gets
               | apply moves_ret ].

Ltac unpack :=
  repeat match goal with
         | H : exists _, _ |- _ => destruct H
         | H : _ /\ _ |- _ => destruct H
         end.

Lemma init_settings W w cfg modelName t h h' r :
  init W w cfg modelName t h = Some (h', Resolved r) ->
  page (object h') = true
  /\ defaultModelName (object h') = nullish modelName "gpt-4o"
  /\ domSettleTimeoutMs (object h') = nullish t (domSettleTimeoutMs (object h))
  /\ history (object h')
     = history (object h) ++ [SettleWait (domSettleTimeoutMs (object h))].
Proof.
  intros Hrun. unfold init in Hrun. unfold bind at 1 in Hrun.
  match type of Hrun with
  | match ?m h with _ => _ end = _ =>
      destruct (m h) as [[h1 [launched|e]]|] eqn:E; try discriminate Hrun
  end.
  destruct (launch_only_logs W cfg _ _ _ E) as (lines & Hobj).
  unfold bind at 1, modify at 1 in Hrun.
  destruct (l_context launched) as [ctx|]; [|discriminate Hrun].
  match type of Hrun with
  | ?m ?h0 = _ =>
      assert (M : moves m (fun h _ h' =>
                    page (object h') = true
                    /\ defaultModelName (object h') = nullish modelName "gpt-4o"
                    /\ domSettleTimeoutMs (object h')
                       = nullish t (domSettleTimeoutMs (object h))
                    /\ history (object h')
                       = history (object h) ++ [SettleWait (domSettleTimeoutMs (object h))]))
  end.
  { eapply moves_weaken; [moves_steps|].
    cbn beta. intros ha a hb H. unpack.
    assert (Hpage : page (object x0) = true) by assumption.
    destruct (headless cfg); unpack; subst;
      cbn [object called set_object set_page set_defaultModelName set_domSettleTimeoutMs
           page defaultModelName domSettleTimeoutMs history calls context] in *;
      destruct (StagehandProofs.after_wait_frame
                  w None (set_page (bool_decide (pages ctx <> [])) (object ha)))
        as (Fp & Fm & Ft & _);
      rewrite ?StagehandProofs.after_wait_history;
      cbn [object called set_object set_page set_defaultModelName set_domSettleTimeoutMs
           page defaultModelName domSettleTimeoutMs history calls context nullish] in *;
      rewrite ?Fp, ?Ft, ?Hpage; cbn [set_page domSettleTimeoutMs page];
      repeat split; reflexivity. }
  destruct (M _ _ _ Hrun) as (Hp & Hm & Ht & Hh).
  cbn [set_context object] in *. rewrite Hobj in Ht, Hh.
  destruct (object h). cbn in *. repeat split; assumption.
Qed.

Lemma initFromPage_settings W cfg ctx modelName h h' c :
  initFromPage W cfg ctx modelName h = Some (h', Resolved c) ->
  page (object h') = true
  /\ defaultModelName (object h') = or_string modelName (defaultModelName (object h))
  /\ domSettleTimeoutMs (object h') = domSettleTimeoutMs (object h)
  /\ history (object h') = history (object h).
Proof.
  revert h h' c.
  change (moves (initFromPage W cfg ctx modelName)
                (fun h _ h' =>
                   page (object h') = true
                   /\ defaultModelName (object h')
                      = or_string modelName (defaultModelName (object h))
                   /\ domSettleTimeoutMs (object h') = domSettleTimeoutMs (object h)
                   /\ history (object h') = history (object h))).
  unfold initFromPage. eapply moves_weaken; [moves_steps|].
  cbn beta. intros ha a hb H. unpack.
  destruct (headless cfg); unpack; subst;
    cbn [object called set_object set_context set_page set_defaultModelName
         page defaultModelName domSettleTimeoutMs history calls context];
    repeat split; reflexivity.
Qed.

(** X26. What the two ways of initialising leave behind.  [init] waits
    for the DOM to settle exactly once, and with the timeout the object had
    before: the timeout passed to [init] is only stored afterwards, for
    later waits; the default model becomes the one passed, or gpt-4o.
    [initFromPage] does not wait at all, keeps the timeout, and keeps the
    default model when none (or an empty name) is passed. *)
Theorem initialising_sets_model_and_timeout W w cfg modelName t h :
  (forall h' r,
      init W w cfg modelName t h = Some (h', Resolved r) ->
      page (object h') = true
      /\ defaultModelName (object h') = nullish modelName "gpt-4o"
      /\ domSettleTimeoutMs (object h') = nullish t (domSettleTimeoutMs (object h))
      /\ history (object h')
         = history (object h) ++ [SettleWait (domSettleTimeoutMs (object h))])
  /\ (forall ctx h' c,
      initFromPage W cfg ctx modelName h = Some (h', Resolved c) ->
      page (object h') = true
      /\ defaultModelName (object h') = or_string modelName (defaultModelName (object h))
      /\ domSettleTimeoutMs (object h') = domSettleTimeoutMs (object h)
      /\ history (object h') = history (object h)).
Proof.
  split.
  - intros h' r. apply init_settings.
  - intros ctx h' c. apply initFromPage_settings.
Qed.

Lemma initialising_sets_model_and_timeout_witness :
  exists h' r,
    init LaunchExamples.cloud StagehandExamples.w_ok
         (mkConfig LOCAL None None true ∅ None) (Some "claude-3-5-sonnet-20240620")
         (Some 100%Z) LaunchExamples.built
    = Some (h', Resolved r)
    /\ page (object h') = true
    /\ defaultModelName (object h') = "claude-3-5-sonnet-20240620"
    /\ domSettleTimeoutMs (object h') = 100%Z
    /\ history (object h') = [SettleWait 5000].
Proof.
  assert (H : option_map snd
                (init LaunchExamples.cloud StagehandExamples.w_ok
                      (mkConfig LOCAL None None true ∅ None)
                      (Some "claude-3-5-sonnet-20240620") (Some 100%Z) LaunchExamples.built)
              = Some (Resolved (mkInitResult None None)))
    by (vm_compute; reflexivity).
  destruct (init LaunchExamples.cloud StagehandExamples.w_ok
                 (mkConfig LOCAL None None true ∅ None)
                 (Some "claude-3-5-sonnet-20240620") (Some 100%Z) LaunchExamples.built)
    as [[h' [r|e]]|] eqn:E; try discriminate H.
  exists h', r. split; [reflexivity|].
  exact (proj1 (initialising_sets_model_and_timeout
                  LaunchExamples.cloud StagehandExamples.w_ok
                  (mkConfig LOCAL None None true ∅ None)
                  (Some "claude-3-5-sonnet-20240620") (Some 100%Z) LaunchExamples.built)
               h' r E).
Defined.

(** ** The replaced [page.goto] *)

(** X27. The [page.goto] that [init] installs returns what the original
    [goto] returned.  When the original rejects, that error comes back at
    once and nothing is waited for.  When it resolves and the page reaches
    its load state, the DOM-settle wait that follows cannot make the
    navigation fail: a timeout or an error of the wait is only logged; the
    wait uses the object's own timeout at that moment. *)
Theorem goto_returns_the_original_result W w url h :
  page (object h) = true ->
  (forall e,
      originalGoto W (calls h) url = Rejected e ->
      goto W w url h = Some (called [OriginalGoto url] h, Rejected e))
  /\ (forall r,
      originalGoto W (calls h) url = Resolved r ->
      waitForLoadState W (calls h ++ [OriginalGoto url]) = Resolved tt ->
      exists h',
        goto W w url h = Some (h', Resolved r)
        /\ calls h' = calls h ++ [OriginalGoto url; WaitForLoadState]
        /\ history (object h')
           = history (object h) ++ [SettleWait (domSettleTimeoutMs (object h))]
        /\ logs (object h') = logs (object h) ++ settle_log w None (object h)).
Proof.
  intros Hpage. split.
  - intros e He. unfold goto, bind, call. rewrite He. reflexivity.
  - intros r Hr Hload. unfold goto, bind, call, with_page, lift, ret.
    rewrite Hr. cbn [object calls]. rewrite Hpage. cbn [calls]. rewrite Hload.
    cbn [object]. rewrite StagehandProofs.wait_run.
    eexists. split; [reflexivity|]. cbn [object calls context].
    rewrite StagehandProofs.after_wait_history, StagehandProofs.after_wait_logs, Hpage.
    rewrite <- app_assoc. repeat split.
Qed.

Lemma goto_returns_the_original_result_witness :
  goto LaunchExamples.offline StagehandExamples.w_ok "https://example.com"
       LaunchExamples.attached
  = Some (called [OriginalGoto "https://example.com"] LaunchExamples.attached,
          Rejected (mkError "net::ERR_NAME_NOT_RESOLVED" "at Page.goto")).
Proof.
  exact (proj1 (goto_returns_the_original_result
                  LaunchExamples.offline StagehandExamples.w_ok "https://example.com"
                  LaunchExamples.attached eq_refl)
               (mkError "net::ERR_NAME_NOT_RESOLVED" "at Page.goto") eq_refl).
Defined.

End LaunchExtras.

(** * The log mirror *)
Module LogMirrorExtras.
Import LogMirror.

Lemma run_cons a acts m : run (a :: acts) m = run acts (step a m).
Proof. reflexivity. Qed.

Lemma run_app a1 a2 m : run (a1 ++ a2) m = run a2 (run a1 m).
Proof. apply fold_left_app. Qed.

Lemma or_one_positive l : (1 <= or_one l)%nat.
Proof. destruct l as [[|n]|]; cbn; lia. Qed.

Lemma or_one_again n : (1 <= n)%nat -> or_one (Some n) = n.
Proof. destruct n; [lia|reflexivity]. Qed.

(** At verbosity 0 no entry passes the filter. *)
Lemma quiet_log_to_browserbase e rest m :
  verbose m = 0 ->
  _log_to_browserbase e rest m = set_task (Some (Returned rest)) m.
Proof.
  intros Hv. unfold _log_to_browserbase. rewrite Hv.
  destruct (negb (page m)); [reflexivity|].
  pose proof (or_one_positive (Some (e_level e))) as Hpos.
  destruct (Nat.leb_spec (or_one (Some (e_level e))) 0); [lia|reflexivity].
Qed.

Lemma quiet_step a m :
  verbose m = 0 -> not_in_flight m ->
  verbose (step a m) = 0 /\ not_in_flight (step a m)
  /\ evaluated (step a m) = evaluated m
  /\ pending_logs_to_send_to_browserbase (step a m) = pending_logs_to_send_to_browserbase m ++ pushed [a].
Proof.
  intros Hv Hf. unfold not_in_flight in *.
  destruct a as [c msg l id|ok| |b]; cbn [step pushed omap].
  - unfold log, _run_browserbase_log_processing_cycle, normal_logging.
    destruct (externalLogger m), (is_processing_browserbase_logs m) eqn:Hp; cbn [set_pending is_processing_browserbase_logs pending_logs_to_send_to_browserbase];
      rewrite ?Hp; cbn [continue_cycle];
      try (destruct (pending_logs_to_send_to_browserbase m ++ _) as [|x rest] eqn:Hq; cbn [continue_cycle];
           [|rewrite quiet_log_to_browserbase by exact Hv]);
      cbn; rewrite ?Hq. all: try (repeat split; try assumption; reflexivity).
  - destruct (task m) as [[e rest|rest]|] eqn:Ht; try contradiction;
      cbn; rewrite ?Ht, ?app_nil_r; repeat split; auto.
  - destruct (task m) as [[e rest|rest]|] eqn:Ht; try contradiction.
    + destruct rest as [|x rest]; cbn [continue_cycle];
        rewrite ?quiet_log_to_browserbase by exact Hv;
        cbn; rewrite ?app_nil_r; repeat split; auto.
    + cbn. rewrite Ht, app_nil_r. repeat split; auto.
  - cbn. rewrite app_nil_r. repeat split; auto.
Qed.

(** X28. With verbosity 0, which is the default, nothing is ever sent to
    the page, whatever is logged and at whatever level (a level of 0 counts
    as 1), with or without a page; and since an entry only leaves the queue
    when the page has accepted it, the queue keeps every entry ever logged,
    in order. *)
Theorem nothing_is_mirrored_at_verbosity_zero actions m :
  verbose m = 0 ->
  (forall e rest, task m <> Some (InFlight e rest)) ->
  evaluated (run actions m) = evaluated m
  /\ pending_logs_to_send_to_browserbase (run actions m) = pending_logs_to_send_to_browserbase m ++ pushed actions.
Proof.
  intros Hv Hf.
  assert (Hn : not_in_flight m).
  { unfold not_in_flight. destruct (task m) as [[e rest|rest]|]; try exact I.
    exact (Hf e rest eq_refl). }
  clear Hf. revert m Hv Hn. induction actions as [|a actions IH]; intros m Hv Hn.
  - cbn. rewrite app_nil_r. split; reflexivity.
  - rewrite run_cons. destruct (quiet_step a m Hv Hn) as (Hv' & Hn' & He & Hq).
    destruct (IH _ Hv' Hn') as (IHe & IHq). rewrite IHe, IHq, He, Hq.
    split; [reflexivity|]. rewrite <- app_assoc. f_equal.
    destruct a; reflexivity.
Qed.

Lemma nothing_is_mirrored_at_verbosity_zero_witness :
  let actions := [Log (Some "act") "clicking" (Some 0) "k3f9"; SetPage true; Resume;
                  Log None "done" (Some 2) "p0x1"; Resume] in
  evaluated (run actions (constructed None false)) = []
  /\ pending_logs_to_send_to_browserbase (run actions (constructed None false))
     = [mkEntry (Some "act") "clicking" 1 "k3f9"; mkEntry None "done" 2 "p0x1"].
Proof.
  apply (nothing_is_mirrored_at_verbosity_zero
           [Log (Some "act") "clicking" (Some 0) "k3f9"; SetPage true; Resume;
            Log None "done" (Some 2) "p0x1"; Resume]
           (constructed None false)).
  - reflexivity.
  - intros e rest H. discriminate H.
Defined.

(** ** A cycle works on its copy of the queue *)

Lemma In_filter_other e x (q : list Entry) :
  e_id x <> e_id e -> In e q ->
  In e (List.filter (fun y => negb (string_eqb (e_id y) (e_id x))) q).
Proof.
  intros Hid Hin. apply filter_In. split; [exact Hin|].
  unfold string_eqb. rewrite bool_decide_eq_false_2; [reflexivity|]. congruence.
Qed.

Lemma stays_step e W0 E0 a s :
  is_log a = false ->
  Forall (fun x => e_id x <> e_id e) W0 ->
  stays e W0 E0 s -> stays e W0 E0 (step a s).
Proof.
  intros Ha Hids (Hw & Hin & sent & Hev & Hsent). unfold stays, work in *.
  rewrite List.Forall_forall in Hids.
  destruct a as [c msg l id|ok| |b]; [discriminate Ha| | |]; cbn [step].
  - destruct (task s) as [[x rest|rest]|] eqn:Ht; rewrite ?Ht.
    + cbn [task set_task]. split; [|split].
      * intros y Hy. apply Hw. right. exact Hy.
      * destruct ok; cbn; [|exact Hin].
        apply In_filter_other; [|exact Hin]. apply Hids, Hw. left. reflexivity.
      * exists sent. destruct ok; cbn; split; assumption.
    + split; [exact Hw|]. split; [exact Hin|]. exists sent. split; assumption.
    + split; [exact Hw|]. split; [exact Hin|]. exists sent. split; assumption.
  - destruct (task s) as [[x rest|rest]|] eqn:Ht; rewrite ?Ht.
    + split; [exact Hw|]. split; [exact Hin|]. exists sent. split; assumption.
    + destruct rest as [|y rest]; cbn [continue_cycle].
      * cbn. split; [intros y []|]. split; [exact Hin|]. exists sent. split; assumption.
      * unfold _log_to_browserbase.
        destruct (negb (page s)); [|destruct (_ <=? _)%nat]; cbn.
        -- split; [intros z Hz; apply Hw; right; exact Hz|]. split; [exact Hin|].
           exists sent. split; assumption.
        -- split; [exact Hw|]. split; [exact Hin|].
           exists (sent ++ [y]). rewrite Hev, app_assoc. split; [reflexivity|].
           apply incl_app; [exact Hsent|]. intros z [<-|[]]. apply Hw. left. reflexivity.
        -- split; [intros z Hz; apply Hw; right; exact Hz|]. split; [exact Hin|].
           exists sent. split; assumption.
    + split; [exact Hw|]. split; [exact Hin|]. exists sent. split; assumption.
  - cbn. split; [exact Hw|]. split; [exact Hin|]. exists sent.
    split; assumption.
Qed.

Lemma stays_run e W0 E0 actions s :
  Forall (fun a => is_log a = false) actions ->
  Forall (fun x => e_id x <> e_id e) W0 ->
  stays e W0 E0 s -> stays e W0 E0 (run actions s).
Proof.
  intros Hacts Hids. revert s. induction Hacts as [|a actions Ha _ IH]; intros s Hs.
  - exact Hs.
  - rewrite run_cons. apply IH, stays_step; assumption.
Qed.

(** X29. A cycle works on the copy of the queue it took when it started,
    and its end starts nothing.  An entry logged while a cycle is running
    (with an id that no entry of that cycle has) is therefore left behind:
    as long as [log] is not called again it stays in the queue and is never
    sent, whatever the page does; only entries of the running cycle are. *)
Theorem entry_logged_during_a_cycle_is_left_behind m category message level id actions :
  is_processing_browserbase_logs m = true ->
  Forall (fun x => e_id x <> id) (work m) ->
  Forall (fun a => is_log a = false) actions ->
  let e := mkEntry category message (or_one level) id in
  let m' := run actions (step (Log category message level id) m) in
  In e (pending_logs_to_send_to_browserbase m')
  /\ exists sent,
      evaluated m' = evaluated m ++ sent
      /\ incl sent (work m)
      /\ ~ In e sent.
Proof.
  intros Hp Hids Hacts e m'.
  assert (Hs : stays e (work m) (evaluated m) (step (Log category message level id) m)).
  { cbn [step]. unfold log, _run_browserbase_log_processing_cycle, normal_logging.
    destruct (externalLogger m); cbn [set_pending is_processing_browserbase_logs];
      rewrite Hp; unfold stays, work; cbn;
      (split; [apply incl_refl|]); (split; [apply in_or_app; right; left; reflexivity|]);
      exists []; rewrite app_nil_r; (split; [reflexivity|intros x []]). }
  destruct (stays_run e (work m) (evaluated m) actions _ Hacts Hids Hs)
    as (_ & Hin & sent & Hev & Hsent).
  split; [exact Hin|]. exists sent. split; [exact Hev|]. split; [exact Hsent|].
  intros Hin'. rewrite List.Forall_forall in Hids. exact (Hids e (Hsent e Hin') eq_refl).
Qed.

Lemma entry_logged_during_a_cycle_is_left_behind_witness :
  let m' := run [Settle true; Resume; Resume; Settle false]
                (step (Log (Some "act") "clicked" None "p0x1") LogMirrorExamples.sending) in
  In (mkEntry (Some "act") "clicked" 1 "p0x1") (pending_logs_to_send_to_browserbase m')
  /\ exists sent,
      evaluated m' = evaluated LogMirrorExamples.sending ++ sent
      /\ incl sent (work LogMirrorExamples.sending)
      /\ ~ In (mkEntry (Some "act") "clicked" 1 "p0x1") sent.
Proof.
  apply (entry_logged_during_a_cycle_is_left_behind
           LogMirrorExamples.sending (Some "act") "clicked" None "p0x1"
           [Settle true; Resume; Resume; Settle false]).
  - reflexivity.
  - repeat constructor. discriminate.
  - repeat constructor.
Defined.

(** ** A cycle that meets no obstacle *)

Lemma filter_other_ids x (rest : list Entry) :
  ~ In (e_id x) (List.map e_id rest) ->
  List.filter (fun y => negb (string_eqb (e_id y) (e_id x))) rest = rest.
Proof.
  induction rest as [|y rest IH]; intros Hnot; [reflexivity|].
  cbn. unfold string_eqb at 1. rewrite bool_decide_eq_false_2.
  - cbn. f_equal. apply IH. intros H. apply Hnot. right. exact H.
  - intros H. apply Hnot. left. exact H.
Qed.

Lemma deliveries_succ n : deliveries (S n) = Settle true :: Resume :: deliveries n.
Proof. reflexivity. Qed.

Lemma send_sendable x rest s :
  page s = true -> sendable (verbose s) x ->
  _log_to_browserbase x rest s = set_task (Some (InFlight x rest)) (evaluate x s).
Proof.
  intros Hp (H1 & Hv). unfold _log_to_browserbase. rewrite Hp. cbn [negb].
  rewrite (or_one_again _ H1).
  destruct (Nat.leb_spec (e_level x) (verbose s)); [reflexivity|lia].
Qed.

Lemma drain rest : forall x s,
  task s = Some (InFlight x rest) ->
  page s = true ->
  pending_logs_to_send_to_browserbase s = x :: rest ->
  Forall (sendable (verbose s)) rest ->
  List.NoDup (List.map e_id (x :: rest)) ->
  let s' := run (deliveries (S (length rest))) s in
  evaluated s' = evaluated s ++ rest
  /\ pending_logs_to_send_to_browserbase s' = []
  /\ idle s'.
Proof.
  induction rest as [|y rest IH]; intros x s Ht Hp Hq Hsend Hdup s'; subst s';
    rewrite deliveries_succ, !run_cons; cbn [step]; rewrite Ht;
    cbn [task set_task delivered]; inversion_clear Hdup as [|? ? Hx Hdup'].
  - cbn. rewrite Hq. cbn. unfold string_eqb. rewrite bool_decide_eq_true_2 by reflexivity.
    cbn. rewrite app_nil_r. repeat split.
  - cbn [continue_cycle]. inversion_clear Hsend as [|? ? Hy Hsend'].
    rewrite send_sendable; [| exact Hp | exact Hy].
    match goal with
    | |- context [run _ ?s1] =>
        destruct (IH y s1) as (He & Hq' & Hi);
          [ reflexivity | exact Hp | | exact Hsend' | exact Hdup' | ]
    end.
    + cbn. rewrite Hq. cbn [List.filter]. unfold string_eqb at 1.
      rewrite bool_decide_eq_true_2 by reflexivity. cbn [negb].
      apply (filter_other_ids x (y :: rest)). exact Hx.
    + cbn [length]. rewrite He, Hq'. cbn [evaluated evaluate set_task delivered set_pending].
      rewrite <- app_assoc. repeat split; apply Hi.
Qed.

(** X30. When nothing stands in the way, a cycle empties the queue: from
    an object at rest with a page, whose queued entries all pass the
    verbosity filter and have distinct ids, one call to [log] followed by
    as many accepted deliveries as there are entries sends the old entries
    and the new one to the page in order, each exactly once, and leaves the
    queue empty and the object at rest. *)
Theorem cycle_delivers_the_queue m category message level id :
  idle m ->
  page m = true ->
  let q := pending_logs_to_send_to_browserbase m
           ++ [mkEntry category message (or_one level) id] in
  Forall (sendable (verbose m)) q ->
  List.NoDup (List.map e_id q) ->
  let m' := run (deliveries (length q)) (step (Log category message level id) m) in
  evaluated m' = evaluated m ++ q
  /\ pending_logs_to_send_to_browserbase m' = []
  /\ idle m'.
Proof.
  intros (Hflag & Htask) Hpage q Hsend Hdup m'. subst m'.
  cbn [step]. unfold log, _run_browserbase_log_processing_cycle.
  set (m1 := normal_logging category message (or_one level) m).
  assert (H1 : page m1 = true /\ verbose m1 = verbose m /\ evaluated m1 = evaluated m
               /\ is_processing_browserbase_logs m1 = false
               /\ pending_logs_to_send_to_browserbase m1
                  = pending_logs_to_send_to_browserbase m).
  { unfold m1, normal_logging. destruct (externalLogger m); cbn; repeat split; assumption. }
  destruct H1 as (Hp1 & Hv1 & He1 & Hf1 & Hq1).
  cbn [set_pending is_processing_browserbase_logs pending_logs_to_send_to_browserbase].
  rewrite Hf1, Hq1. fold q.
  destruct q as [|x rest] eqn:Eq.
  { destruct (pending_logs_to_send_to_browserbase m); discriminate Eq. }
  cbn [continue_cycle]. inversion_clear Hsend as [|? ? Hx Hrest].
  rewrite send_sendable; [| cbn; exact Hp1 | cbn; rewrite Hv1; exact Hx].
  match goal with
  | |- context [run _ ?s1] =>
      destruct (drain rest x s1) as (He & Hq' & Hi);
        [ reflexivity | cbn; exact Hp1 | cbn; rewrite Hq1; exact Eq
        | cbn; rewrite Hv1; exact Hrest | exact Hdup | ]
  end.
  cbn [length]. rewrite He, Hq'. cbn. rewrite He1, <- app_assoc.
  repeat split; apply Hi.
Qed.

Lemma cycle_delivers_the_queue_witness :
  let m' := run (deliveries 1)
                (step (Log (Some "act") "clicking" (Some 2) "k3f9") LogMirrorExamples.ready) in
  evaluated m' = [mkEntry (Some "act") "clicking" 2 "k3f9"]
  /\ pending_logs_to_send_to_browserbase m' = []
  /\ idle m'.
Proof.
  apply (cycle_delivers_the_queue
           LogMirrorExamples.ready (Some "act") "clicking" (Some 2) "k3f9").
  - split; reflexivity.
  - reflexivity.
  - repeat constructor.
  - repeat constructor. intros [].
Defined.

(** ** Where the entries come from *)

Lemma log_to_browserbase_entries x rest s :
  pending_logs_to_send_to_browserbase (_log_to_browserbase x rest s)
  = pending_logs_to_send_to_browserbase s
  /\ incl (work (_log_to_browserbase x rest s)) (x :: rest).
Proof.
  unfold _log_to_browserbase, work.
  destruct (negb (page s)); [|destruct (_ <=? _)%nat]; cbn;
    (split; [reflexivity|]); try apply incl_refl; apply incl_tl, incl_refl.
Qed.

Lemma continue_cycle_entries rest s :
  pending_logs_to_send_to_browserbase (continue_cycle rest s)
  = pending_logs_to_send_to_browserbase s
  /\ incl (work (continue_cycle rest s)) rest.
Proof.
  destruct rest as [|x rest]; cbn [continue_cycle].
  - split; [reflexivity|]. intros e [].
  - apply log_to_browserbase_entries.
Qed.

(** Every entry of the queue or in the hands of the cycle was there before
    the step or is the one this call to [log] pushes. *)
Lemma step_entries a m e :
  In e (pending_logs_to_send_to_browserbase (step a m) ++ work (step a m)) ->
  In e (pending_logs_to_send_to_browserbase m ++ work m) \/ In e (pushed [a]).
Proof.
  destruct a as [c msg l id|ok| |b]; cbn [step pushed omap].
  - unfold log, _run_browserbase_log_processing_cycle.
    set (m1 := set_pending _ _).
    assert (H1 : pending_logs_to_send_to_browserbase m1
                 = pending_logs_to_send_to_browserbase m ++ [mkEntry c msg (or_one l) id]
                 /\ work m1 = work m).
    { unfold m1, normal_logging. destruct (externalLogger m); split; reflexivity. }
    destruct H1 as (Hq1 & Hw1).
    destruct (is_processing_browserbase_logs m1).
    + rewrite Hq1, Hw1. intros H. apply in_app_or in H. destruct H as [H|H].
      * apply in_app_or in H. destruct H as [H|H]; [left; apply in_or_app; left; exact H|].
        right. exact H.
      * left. apply in_or_app. right. exact H.
    + destruct (continue_cycle_entries (pending_logs_to_send_to_browserbase m1)
                                       (set_processing true m1)) as (Hq & Hw).
      rewrite Hq. cbn [set_processing pending_logs_to_send_to_browserbase].
      intros H. apply in_app_or in H.
      assert (H' : In e (pending_logs_to_send_to_browserbase m1))
        by (destruct H as [H|H]; [exact H|exact (Hw e H)]).
      rewrite Hq1 in H'. apply in_app_or in H'.
      destruct H' as [H'|H']; [left; apply in_or_app; left; exact H'|right; exact H'].
  - unfold work. destruct (task m) as [[x rest|rest]|] eqn:Ht; rewrite ?Ht; auto.
    cbn. intros H. left. apply in_app_or in H. apply in_or_app. destruct H as [H|H].
    + left. destruct ok; [|exact H]. cbn in H. apply filter_In in H. apply H.
    + right. right. exact H.
  - destruct (task m) as [[x rest|rest]|] eqn:Ht; auto.
    destruct (continue_cycle_entries rest m) as (Hq & Hw). rewrite Hq.
    intros H. left. apply in_app_or in H. apply in_or_app.
    destruct H as [H|H]; [left; exact H|right]. unfold work at 1. rewrite Ht. exact (Hw e H).
  - cbn. auto.
Qed.

(** Every entry of a reachable object has the level [log] gave it, which
    is at least 1: setting the level again in [_log_to_browserbase] changes
    nothing. *)
Lemma levels_are_set actions verbosity logger :
  Forall (fun e => or_one (Some (e_level e)) = e_level e)
         (pending_logs_to_send_to_browserbase (run actions (constructed verbosity logger))
          ++ work (run actions (constructed verbosity logger))).
Proof.
  assert (Hstart : Forall (fun e => or_one (Some (e_level e)) = e_level e)
                          (pending_logs_to_send_to_browserbase (constructed verbosity logger)
                           ++ work (constructed verbosity logger))) by constructor.
  revert Hstart. generalize (constructed verbosity logger).
  induction actions as [|a actions IH]; intros m Hm; [exact Hm|].
  rewrite run_cons. apply IH. clear IH.
  rewrite List.Forall_forall in *. intros e He.
  destruct (step_entries a m e He) as [H|H]; [exact (Hm e H)|].
  destruct a as [c msg l id|ok| |b]; try contradiction.
  destruct H as [<-|[]]. cbn [e_level]. apply or_one_again, or_one_positive.
Qed.

End LogMirrorExtras.
